(** * flexipop: placement resolver, popper controller, overlay controller

    A shallow embedding of the TypeScript sources of [packages/flexipop]:

    - [utils.ts]                          ([getDimensions])
    - [popper.ts]                         ([CreatePopper])
    - [__test__/determinePosition.test.ts] (the placement tables, and the
      second [CreatePopper] implementation that file carries)
    - [create-overlay/helpers.ts]         ([updateOverlayState])
    - [create-overlay/create-overlay.ts]  ([CreateOverlay])

    JavaScript numbers are idealised as rationals [Q]: the resolver only
    adds, subtracts, halves and compares, and no claim below depends on
    rounding, infinities or NaN.  Equality of numbers is [Qeq] ([==]). *)

From Stdlib Require Import QArith Qminmax Lqa Lia List String Bool.
From stdpp Require Import gmap strings.
Import ListNotations.

Local Open Scope Q_scope.
Local Open Scope string_scope.

(** ** Placement tokens ([types.ts], as used by the callers and the tests) *)

Inductive Side := top | bottom | left | right.
Inductive Align := start | middle | end_.

(** A token is a side with an optional alignment suffix: ["top"],
    ["top-start"], ["top-middle"], ["top-end"], ... *)
Record Placement := mkPlacement { side : Side; suffix : option Align }.

Definition align_of (p : Placement) : Align :=
  match suffix p with Some a => a | None => middle end.

(** ** The resolver's input and output *)

Record PositioningContext := {
  placement : Placement;
  refWidth : Q;
  refTop : Q;
  refLeft : Q;
  popperWidth : Q;
  refHeight : Q;
  popperHeight : Q;
  windowHeight : Q;
  windowWidth : Q;
  offsetDistance : Q
}.

Record Coordinate := { x : Q; y : Q }.

(** ** determinePosition *)

Definition primary_axis (c : PositioningContext) : Q :=
  match side (placement c) with
  | top => refTop c - popperHeight c - offsetDistance c
  | bottom => refTop c + refHeight c + offsetDistance c
  | left => refLeft c - popperWidth c - offsetDistance c
  | right => refLeft c + refWidth c + offsetDistance c
  end.

Definition cross_axis (c : PositioningContext) : Q :=
  let horizontal :=
    match side (placement c) with top | bottom => true | _ => false end in
  let origin := if horizontal then refLeft c else refTop c in
  let refExtent := if horizontal then refWidth c else refHeight c in
  let popperExtent := if horizontal then popperWidth c else popperHeight c in
  match align_of (placement c) with
  | start => origin
  | middle => origin + refExtent / 2 - popperExtent / 2
  | end_ => origin + refExtent - popperExtent
  end.

Definition unclipped (c : PositioningContext) : Coordinate :=
  match side (placement c) with
  | top | bottom => {| x := cross_axis c; y := primary_axis c |}
  | left | right => {| x := primary_axis c; y := cross_axis c |}
  end.

(** [Math.max(0, Math.min(v, viewportExtent - popperExtent))] *)
Definition clip (v viewportExtent popperExtent : Q) : Q :=
  Qmax 0 (Qmin v (viewportExtent - popperExtent)).

(** Modelled from the spec: [helpers.ts], which defines [determinePosition],
    is not among the sources; only its callers ([popper.ts]) and its test
    tables are.  The definition follows section 4.2 of the specification:
    decompose the token, compute the unclipped coordinate, clip each axis
    into [[0, viewportExtent - popperExtent]] with the lower bound
    winning. *)
Definition determinePosition (c : PositioningContext) : Coordinate :=
  let u := unclipped c in
  {| x := clip (x u) (windowWidth c) (popperWidth c);
     y := clip (y u) (windowHeight c) (popperHeight c) |}.

(** *** The placement tables of [determinePosition.test.ts] *)

Definition coord_eqb (a b : Coordinate) : bool :=
  Qeq_bool (x a) (x b) && Qeq_bool (y a) (y b).

Definition P (s : Side) (a : option Align) : Placement := mkPlacement s a.

(** The object literal handed to [determinePosition]: placement, then the
    reference's height, width, left, top, the popper's height, width, the
    window's height, width, and the offset distance. *)
Definition mkCtx (p : Placement) (rh rw rl rt ph pw wh ww off : Q) :=
  {| placement := p; refWidth := rw; refTop := rt; refLeft := rl;
     popperWidth := pw; refHeight := rh; popperHeight := ph;
     windowHeight := wh; windowWidth := ww; offsetDistance := off |}.

(** [defaultWindow], [defaultReference], [defaultPopper] of the test file. *)
Definition commonCtx (p : Placement) (off : Q) : PositioningContext :=
  mkCtx p 100 100 450 450 50 50 1000 1000 off.

Definition basicPlacements : list (Placement * Coordinate) :=
  [ (P top None, {| x := 475; y := 400 |});
    (P top (Some start), {| x := 450; y := 400 |});
    (P top (Some middle), {| x := 475; y := 400 |});
    (P top (Some end_), {| x := 500; y := 400 |});
    (P bottom None, {| x := 475; y := 550 |});
    (P bottom (Some start), {| x := 450; y := 550 |});
    (P bottom (Some middle), {| x := 475; y := 550 |});
    (P bottom (Some end_), {| x := 500; y := 550 |});
    (P left None, {| x := 400; y := 475 |});
    (P left (Some start), {| x := 400; y := 450 |});
    (P left (Some middle), {| x := 400; y := 475 |});
    (P left (Some end_), {| x := 400; y := 500 |});
    (P right None, {| x := 550; y := 475 |});
    (P right (Some start), {| x := 550; y := 450 |});
    (P right (Some middle), {| x := 550; y := 475 |});
    (P right (Some end_), {| x := 550; y := 500 |}) ].

(** The [clippingTestCases] table: context and expected coordinate. *)
Definition clippingTestCases : list (PositioningContext * Coordinate) :=
  [ (mkCtx (P top None) 100 100 450 5 20 50 1000 1000 0, {| x := 475; y := 0 |});
    (mkCtx (P top None) 100 100 450 25 20 50 1000 1000 10, {| x := 475; y := 0 |});
    (mkCtx (P left None) 100 100 5 450 50 20 1000 1000 0, {| x := 0; y := 475 |});
    (mkCtx (P left None) 100 100 25 450 50 20 1000 1000 10, {| x := 0; y := 475 |});
    (mkCtx (P bottom None) 100 100 450 895 20 50 1000 1000 0, {| x := 475; y := 980 |});
    (mkCtx (P bottom None) 100 100 450 875 20 50 1000 1000 10, {| x := 475; y := 980 |});
    (mkCtx (P right None) 100 100 895 450 50 20 1000 1000 0, {| x := 980; y := 475 |});
    (mkCtx (P right None) 100 100 875 450 50 20 1000 1000 10, {| x := 980; y := 475 |});
    (mkCtx (P top None) 100 100 450 450 1100 50 1000 1000 0, {| x := 475; y := 0 |});
    (mkCtx (P left None) 100 100 450 450 50 1100 1000 1000 0, {| x := 0; y := 475 |});
    (mkCtx (P left (Some end_)) 50 100 450 10 100 50 1000 1000 0, {| x := 400; y := 0 |});
    (mkCtx (P right (Some start)) 50 100 450 940 100 50 1000 1000 0, {| x := 550; y := 900 |}) ].

(** ** JavaScript values reaching the constructors

    The classes are typed, but the checks they perform ([instanceof
    HTMLElement], [typeof ... !== "number"], truthiness) only make sense
    on untyped arguments, as the tests pass them ([null as any],
    ['wrong' as any]). *)

Definition Element := nat.

Inductive JsVal :=
| JUndefined
| JNull
| JBool (b : bool)
| JNum (q : Q)
| JStr (s : string)
| JElem (e : Element)      (* an HTMLElement *)
| JObj.                    (* any other object *)

Definition truthy (v : JsVal) : bool :=
  match v with
  | JUndefined | JNull => false
  | JBool b => b
  | JNum q => negb (Qeq_bool q 0)
  | JStr s => negb (String.eqb s EmptyString)
  | JElem _ | JObj => true
  end.

Definition typeof_number (v : JsVal) : bool :=
  match v with JNum _ => true | _ => false end.

Definition instanceof_HTMLElement (v : JsVal) : bool :=
  match v with JElem _ => true | _ => false end.

(** The numeric content of a value that has passed [typeof_number]. *)
Definition num_of (v : JsVal) : Q :=
  match v with JNum q => q | _ => 0 end.

(** [a || b] on an optional number and a number. *)
Definition or_num (a : option Q) (b : Q) : Q :=
  match a with
  | Some q => if Qeq_bool q 0 then b else q
  | None => b
  end.

(** ** The browser: layout, styles, attributes, listeners, effect log *)

(** A [DOMRect]: [x], [y], [width], [height] and the derived edges. *)
Record DOMRect := { rect_x : Q; rect_y : Q; rect_width : Q; rect_height : Q }.

Definition rect_left (r : DOMRect) : Q := Qmin (rect_x r) (rect_x r + rect_width r).
Definition rect_right (r : DOMRect) : Q := Qmax (rect_x r) (rect_x r + rect_width r).
Definition rect_top (r : DOMRect) : Q := Qmin (rect_y r) (rect_y r + rect_height r).

Inductive EventTarget := Window | Document | Node (e : Element).

(** Function objects registered as listeners.  Each is an instance
    property of the object numbered [self], so its identity is stable.
    The two hover-leave watchers occur only as listeners that are attached
    and detached; their 150ms timers are outside this development. *)
Inductive Callback :=
| initPositionate (self : nat)
| updatePosition_ (self : nat)
| handleDocumentClick_ (self : nat)
| handleKeyDown_ (self : nat)
| toggleStateOnClick_ (self : nat)
| showOnMouseEnter_ (self : nat)
| hideOnMouseLeaseTrigger_ (self : nat)
| hideOnMouseLeave_ (self : nat).

Definition Listener : Type := EventTarget * string * Callback.

#[global] Instance EventTarget_eq_dec : EqDecision EventTarget.
Proof. solve_decision. Defined.
#[global] Instance Callback_eq_dec : EqDecision Callback.
Proof. solve_decision. Defined.

(** The value of a style custom property: the empty string or [`${v}px`]. *)
Inductive CssValue := css_empty | css_px (v : Q).

(** Callbacks scheduled by [afterTransition]. *)
Inductive Deferred := hideTeardown (self : nat).

Inductive Effect :=
| EGetBoundingClientRect (e : Element)
| ESetProperty (e : Element) (name : string) (v : CssValue)
| ESetAttribute (e : Element) (name value : string)
| EAddEventListener (l : Listener)
| ERemoveEventListener (l : Listener)
| EPreventDefault
| EAfterTransition (e : Element)
| EOnUpdate (x y : Q) (p : Placement)
| EBeforeShow
| EBeforeHide
| EOnShow
| EOnHide
| EOnToggle (isHidden : bool).

Record World := {
  innerWidth : Q;
  innerHeight : Q;
  boundingRect : Element -> DOMRect;
  contains : Element -> Element -> bool;
  querySelector : string -> option Element;
  transitionRunning : Element -> bool;
  styles : gmap (Element * string) CssValue;
  attrs : gmap (Element * string) string;
  listeners : list Listener;
  pending : list (Element * Deferred);
  nextId : nat;
  log : list Effect
}.

Definition set_styles f (w : World) : World :=
  {| innerWidth := innerWidth w; innerHeight := innerHeight w;
     boundingRect := boundingRect w; contains := contains w;
     querySelector := querySelector w; transitionRunning := transitionRunning w;
     styles := f (styles w); attrs := attrs w; listeners := listeners w;
     pending := pending w; nextId := nextId w; log := log w |}.

Definition set_attrs f (w : World) : World :=
  {| innerWidth := innerWidth w; innerHeight := innerHeight w;
     boundingRect := boundingRect w; contains := contains w;
     querySelector := querySelector w; transitionRunning := transitionRunning w;
     styles := styles w; attrs := f (attrs w); listeners := listeners w;
     pending := pending w; nextId := nextId w; log := log w |}.

Definition set_listeners f (w : World) : World :=
  {| innerWidth := innerWidth w; innerHeight := innerHeight w;
     boundingRect := boundingRect w; contains := contains w;
     querySelector := querySelector w; transitionRunning := transitionRunning w;
     styles := styles w; attrs := attrs w; listeners := f (listeners w);
     pending := pending w; nextId := nextId w; log := log w |}.

Definition set_pending f (w : World) : World :=
  {| innerWidth := innerWidth w; innerHeight := innerHeight w;
     boundingRect := boundingRect w; contains := contains w;
     querySelector := querySelector w; transitionRunning := transitionRunning w;
     styles := styles w; attrs := attrs w; listeners := listeners w;
     pending := f (pending w); nextId := nextId w; log := log w |}.

Definition set_nextId f (w : World) : World :=
  {| innerWidth := innerWidth w; innerHeight := innerHeight w;
     boundingRect := boundingRect w; contains := contains w;
     querySelector := querySelector w; transitionRunning := transitionRunning w;
     styles := styles w; attrs := attrs w; listeners := listeners w;
     pending := pending w; nextId := f (nextId w); log := log w |}.

Definition emit (e : Effect) (w : World) : World :=
  {| innerWidth := innerWidth w; innerHeight := innerHeight w;
     boundingRect := boundingRect w; contains := contains w;
     querySelector := querySelector w; transitionRunning := transitionRunning w;
     styles := styles w; attrs := attrs w; listeners := listeners w;
     pending := pending w; nextId := nextId w; log := (log w ++ [e])%list |}.

(** ** Computations: a state monad over the browser, with exceptions.
    A [throw] keeps the browser as it was when the exception left. *)

Inductive Result (A : Type) :=
| Ok (a : A) (w : World)
| Throw (msg : string) (w : World).
Arguments Ok {A} a w.
Arguments Throw {A} msg w.

Definition M (A : Type) : Type := World -> Result A.

Definition ret {A} (a : A) : M A := fun w => Ok a w.
Definition throw {A} (msg : string) : M A := fun w => Throw msg w.
Definition bind {A B} (m : M A) (k : A -> M B) : M B :=
  fun w => match m w with
           | Ok a w' => k a w'
           | Throw msg w' => Throw msg w'
           end.
Definition modify (f : World -> World) : M unit := fun w => Ok tt (f w).
Definition gets {A} (f : World -> A) : M A := fun w => Ok (f w) w.
Definition when (b : bool) (m : M unit) : M unit := if b then m else ret tt.

Notation "x <- m ;; k" := (bind m (fun x => k))
  (at level 200, m at level 99, k at level 200, only parsing).
Notation "m ;;; k" := (bind m (fun _ => k))
  (at level 200, k at level 200, only parsing).

Definition world_of {A} (r : Result A) : World :=
  match r with Ok _ w => w | Throw _ w => w end.

(** *** DOM primitives *)

Definition w_setProperty (e : Element) (name : string) (v : CssValue) (w : World)
  : World :=
  emit (ESetProperty e name v) (set_styles <[(e, name) := v]> w).

Definition w_setAttribute (e : Element) (name value : string) (w : World) : World :=
  emit (ESetAttribute e name value) (set_attrs <[(e, name) := value]> w).

Definition has_listener (l : Listener) (ls : list Listener) : bool :=
  bool_decide (l ∈ ls).

(** A listener already in the target's list (same type, same callback)
    is not added again. *)
Definition add_listener (l : Listener) (ls : list Listener) : list Listener :=
  if has_listener l ls then ls else (ls ++ [l])%list.

Definition remove_listener (l : Listener) (ls : list Listener) : list Listener :=
  filter (fun l' => l' ≠ l) ls.

Definition w_addEventListener (l : Listener) (w : World) : World :=
  emit (EAddEventListener l) (set_listeners (add_listener l) w).

Definition w_removeEventListener (l : Listener) (w : World) : World :=
  emit (ERemoveEventListener l) (set_listeners (remove_listener l) w).

Definition getBoundingClientRect (e : Element) : M DOMRect :=
  modify (emit (EGetBoundingClientRect e)) ;;; gets (fun w => boundingRect w e).

Definition setProperty (e : Element) (name : string) (v : CssValue) : M unit :=
  modify (w_setProperty e name v).

(** [setAttributes] of the utilities package, for one attribute. *)
Definition setAttribute (e : Element) (name value : string) : M unit :=
  modify (w_setAttribute e name value).

Definition getAttribute (e : Element) (name : string) : M (option string) :=
  gets (fun w => attrs w !! (e, name)).

Definition addEventListener (t : EventTarget) (ty : string) (cb : Callback) : M unit :=
  modify (w_addEventListener (t, ty, cb)).

Definition removeEventListener (t : EventTarget) (ty : string) (cb : Callback) : M unit :=
  modify (w_removeEventListener (t, ty, cb)).

Definition fresh : M nat :=
  n <- gets nextId ;; modify (set_nextId S) ;;; ret n.

(** ** utils.ts: getDimensions *)

Record Dimensions := {
  dim_popperHeight : Q;
  dim_popperWidth : Q;
  dim_refHeight : Q;
  dim_refWidth : Q;
  dim_refLeft : Q;
  dim_refTop : Q;
  dim_refRight : Q
}.

(** The inner [getRect], with the [WeakMap] it closes over passed
    explicitly.  A value without a [getBoundingClientRect] method makes
    the call a [TypeError]. *)
Definition getRect (cache : gmap Element DOMRect) (element : JsVal)
  : M (DOMRect * gmap Element DOMRect) :=
  match element with
  | JElem e =>
      cache' <- (if bool_decide (is_Some (cache !! e)) then ret cache
                 else (r <- getBoundingClientRect e ;; ret (<[e := r]> cache))) ;;
      match cache' !! e with
      | Some r => ret (r, cache')
      | None => throw "TypeError: Cannot read properties of undefined"
      end
  | _ => throw "TypeError: element.getBoundingClientRect is not a function"
  end.

Definition getDimensions (reference popper : JsVal) : M Dimensions :=
  if negb (truthy reference) || negb (truthy popper)
  then throw "Reference or popper element is null or undefined"
  else
    let cache : gmap Element DOMRect := ∅ in
    pc <- getRect cache popper ;;
    rc <- getRect (snd pc) reference ;;
    let popperRect := fst pc in
    let refRect := fst rc in
    ret {| dim_popperHeight := rect_height popperRect;
           dim_popperWidth := rect_width popperRect;
           dim_refHeight := rect_height refRect;
           dim_refWidth := rect_width refRect;
           dim_refLeft := rect_left refRect;
           dim_refTop := rect_top refRect;
           dim_refRight := rect_right refRect |}.

(** How often [getBoundingClientRect] was invoked on [e] in a log. *)
Definition is_measure (e : Element) (ef : Effect) : bool :=
  match ef with EGetBoundingClientRect e' => Nat.eqb e e' | _ => false end.

Definition measurements (e : Element) (l : list Effect) : nat :=
  length (List.filter (is_measure e) l).

(** ** Options of the popper controller ([types.ts], as destructured by
    the constructor) *)

Record EventEffect := {
  ee_disableOnResize : option bool;
  ee_disableOnScroll : option bool
}.

Record PopperOptions := {
  opt_offsetDistance : JsVal;             (* [JUndefined] when absent *)
  opt_placement : option Placement;
  opt_eventEffect : option EventEffect;
  opt_onUpdate : bool                      (* is a callback supplied *)
}.

Definition noOptions : PopperOptions :=
  {| opt_offsetDistance := JUndefined; opt_placement := None;
     opt_eventEffect := None; opt_onUpdate := false |}.

(** Modelled from the spec: [const.ts] is not among the sources; section
    4.3 gives the defaults [placement = "bottom"], [offsetDistance = 0]. *)
Definition DEFAULT_PLACEMENT : Placement := mkPlacement bottom None.
Definition DEFAULT_OFFSETDISTANCE : JsVal := JNum 0.

Definition InvalidReferenceElement := "Invalid HTMLElement for Reference Element".
Definition InvalidPopperElement := "Invalid HTMLElement for Popper".
Definition InvalidOffsetDistance := "OffsetDistance must be a number".

Definition prop_x := "--fx-popper-placement-x".
Definition prop_y := "--fx-popper-placement-y".

Definition or_false (o : option bool) : bool :=
  match o with Some b => b | None => false end.

Definition elem_of_val (v : JsVal) : Element :=
  match v with JElem e => e | _ => O end.

(** ** popper.ts: class CreatePopper *)

Module Popper.

Record CreatePopper := {
  reference : Element;
  popper : Element;
  offsetDistance : JsVal;
  placement : Placement;
  disableOnResize : bool;
  disableOnScroll : bool;
  onUpdate : bool;
  isEventRegistrer : bool;
  self : nat
}.

Definition set_isEventRegistrer (b : bool) (p : CreatePopper) : CreatePopper :=
  {| reference := reference p; popper := popper p;
     offsetDistance := offsetDistance p; placement := placement p;
     disableOnResize := disableOnResize p; disableOnScroll := disableOnScroll p;
     onUpdate := onUpdate p; isEventRegistrer := b; self := self p |}.

Definition constructor (reference popper : JsVal) (options : PopperOptions)
  : M CreatePopper :=
  let offsetDistance :=
    match opt_offsetDistance options with
    | JUndefined => DEFAULT_OFFSETDISTANCE
    | v => v
    end in
  let placement :=
    match opt_placement options with Some p => p | None => DEFAULT_PLACEMENT end in
  let eventEffect :=
    match opt_eventEffect options with
    | Some e => e
    | None => {| ee_disableOnResize := None; ee_disableOnScroll := None |}
    end in
  if negb (instanceof_HTMLElement reference) then throw InvalidReferenceElement
  else if negb (instanceof_HTMLElement popper) then throw InvalidPopperElement
  else if truthy (opt_offsetDistance options)
          && negb (typeof_number (opt_offsetDistance options))
  then throw InvalidOffsetDistance
  else
    id <- fresh ;;
    ret {| reference := elem_of_val reference;
           popper := elem_of_val popper;
           offsetDistance := offsetDistance;
           placement := placement;
           disableOnResize := or_false (ee_disableOnResize eventEffect);
           disableOnScroll := or_false (ee_disableOnScroll eventEffect);
           onUpdate := opt_onUpdate options;
           isEventRegistrer := false;
           self := id |}.

Definition validateElements (this : CreatePopper) : M unit :=
  if negb (instanceof_HTMLElement (JElem (reference this)))
  then throw InvalidReferenceElement
  else if negb (instanceof_HTMLElement (JElem (popper this)))
  then throw InvalidPopperElement
  else if negb (typeof_number (offsetDistance this))
  then throw InvalidOffsetDistance
  else ret tt.

Definition setPopperStyleProperty (this : CreatePopper) (x y : Q) : M unit :=
  setProperty (popper this) prop_x (css_px x) ;;;
  setProperty (popper this) prop_y (css_px y).

Definition setInitialStyles (this : CreatePopper) : M unit :=
  setProperty (popper this) prop_x css_empty ;;;
  setProperty (popper this) prop_y css_empty.

Definition initPlacement (this : CreatePopper)
    (placement_ : option Placement) (offsetDistance_ : option Q) : M unit :=
  validateElements this ;;;
  setInitialStyles this ;;;
  windowWidth <- gets innerWidth ;;
  windowHeight <- gets innerHeight ;;
  d <- getDimensions (JElem (reference this)) (JElem (popper this)) ;;
  let pl := match placement_ with Some p => p | None => placement this end in
  let c := determinePosition
    (mkCtx pl (dim_refHeight d) (dim_refWidth d) (dim_refLeft d) (dim_refTop d)
           (dim_popperHeight d) (dim_popperWidth d) windowHeight windowWidth
           (or_num offsetDistance_ (num_of (offsetDistance this)))) in
  setPopperStyleProperty this (x c) (y c) ;;;
  when (onUpdate this) (modify (emit (EOnUpdate (x c) (y c) pl))).

Definition initPositionate_ (this : CreatePopper) : M unit :=
  initPlacement this None None.

Definition attachWindowEvent (this : CreatePopper) : M CreatePopper :=
  when (negb (disableOnResize this))
       (addEventListener Window "resize" (initPositionate (self this))) ;;;
  when (negb (disableOnScroll this))
       (addEventListener Window "scroll" (initPositionate (self this))) ;;;
  ret (set_isEventRegistrer true this).

Definition resetPosition (this : CreatePopper) : M unit :=
  setInitialStyles this.

Definition updatePosition (this : CreatePopper) : M CreatePopper :=
  initPositionate_ this ;;;
  attachWindowEvent this.

Definition cleanEvents (this : CreatePopper) : M unit :=
  when (negb (disableOnResize this))
       (removeEventListener Window "resize" (initPositionate (self this))) ;;;
  when (negb (disableOnScroll this))
       (removeEventListener Window "scroll" (initPositionate (self this))).

Definition setOptions (this : CreatePopper)
    (placement_ : Placement) (offsetDistance_ : option Q) : M CreatePopper :=
  initPlacement this (Some placement_) offsetDistance_ ;;;
  when (isEventRegistrer this) (cleanEvents this) ;;;
  attachWindowEvent this.

Definition cleanupEvents (this : CreatePopper) : M CreatePopper :=
  setInitialStyles this ;;;
  if isEventRegistrer this
  then cleanEvents this ;;; ret (set_isEventRegistrer false this)
  else ret this.

(** The browser firing a window event of type [ty]: the controller's
    listener runs when it is registered for that type. *)
Definition dispatchWindowEvent (ty : string) (this : CreatePopper) : M unit :=
  ls <- gets listeners ;;
  when (has_listener (Window, ty, initPositionate (self this)) ls)
       (initPositionate_ this).

End Popper.

(** ** The second CreatePopper implementation (the class carried by
    [__test__/determinePosition.test.ts]) *)

Module PopperDup.

Record CreatePopper := {
  reference : Element;
  popper : Element;
  offsetDistance : JsVal;
  placement : Placement;
  disableOnResize : bool;
  disableOnScroll : bool;
  onUpdate : bool;
  isWindowEventsRegistered : bool;
  self : nat
}.

Definition set_isWindowEventsRegistered (b : bool) (p : CreatePopper) : CreatePopper :=
  {| reference := reference p; popper := popper p;
     offsetDistance := offsetDistance p; placement := placement p;
     disableOnResize := disableOnResize p; disableOnScroll := disableOnScroll p;
     onUpdate := onUpdate p; isWindowEventsRegistered := b; self := self p |}.

Definition set_placement_offset (pl : Placement) (off : JsVal) (p : CreatePopper)
  : CreatePopper :=
  {| reference := reference p; popper := popper p;
     offsetDistance := off; placement := pl;
     disableOnResize := disableOnResize p; disableOnScroll := disableOnScroll p;
     onUpdate := onUpdate p;
     isWindowEventsRegistered := isWindowEventsRegistered p; self := self p |}.

Definition constructor (reference popper : JsVal) (options : PopperOptions)
  : M CreatePopper :=
  let offsetDistance :=
    match opt_offsetDistance options with
    | JUndefined => DEFAULT_OFFSETDISTANCE
    | v => v
    end in
  let placement :=
    match opt_placement options with Some p => p | None => DEFAULT_PLACEMENT end in
  let eventEffect :=
    match opt_eventEffect options with
    | Some e => e
    | None => {| ee_disableOnResize := None; ee_disableOnScroll := None |}
    end in
  if negb (instanceof_HTMLElement reference) then throw InvalidReferenceElement
  else if negb (instanceof_HTMLElement popper) then throw InvalidPopperElement
  else if truthy (opt_offsetDistance options)
          && negb (typeof_number (opt_offsetDistance options))
  then throw InvalidOffsetDistance
  else
    id <- fresh ;;
    ret {| reference := elem_of_val reference;
           popper := elem_of_val popper;
           offsetDistance := offsetDistance;
           placement := placement;
           disableOnResize := or_false (ee_disableOnResize eventEffect);
           disableOnScroll := or_false (ee_disableOnScroll eventEffect);
           onUpdate := opt_onUpdate options;
           isWindowEventsRegistered := false;
           self := id |}.

Definition validateElements (this : CreatePopper) : M unit :=
  if negb (instanceof_HTMLElement (JElem (reference this)))
  then throw InvalidReferenceElement
  else if negb (instanceof_HTMLElement (JElem (popper this)))
  then throw InvalidPopperElement
  else if negb (typeof_number (offsetDistance this))
  then throw InvalidOffsetDistance
  else ret tt.

Definition setPopperStyleProperty (this : CreatePopper) (x y : Q) : M unit :=
  setProperty (popper this) prop_x (css_px x) ;;;
  setProperty (popper this) prop_y (css_px y).

Definition setInitialStyles (this : CreatePopper) : M unit :=
  setProperty (popper this) prop_x css_empty ;;;
  setProperty (popper this) prop_y css_empty.

Definition initPlacement (this : CreatePopper) : M unit :=
  validateElements this ;;;
  setInitialStyles this ;;;
  windowWidth <- gets innerWidth ;;
  windowHeight <- gets innerHeight ;;
  d <- getDimensions (JElem (reference this)) (JElem (popper this)) ;;
  let c := determinePosition
    (mkCtx (placement this)
           (dim_refHeight d) (dim_refWidth d) (dim_refLeft d) (dim_refTop d)
           (dim_popperHeight d) (dim_popperWidth d) windowHeight windowWidth
           (num_of (offsetDistance this))) in
  setPopperStyleProperty this (x c) (y c) ;;;
  when (onUpdate this) (modify (emit (EOnUpdate (x c) (y c) (placement this)))).

Definition removeWindowEvents (this : CreatePopper) : M CreatePopper :=
  if isWindowEventsRegistered this
  then
    when (negb (disableOnResize this))
         (removeEventListener Window "resize" (updatePosition_ (self this))) ;;;
    when (negb (disableOnScroll this))
         (removeEventListener Window "scroll" (updatePosition_ (self this))) ;;;
    ret (set_isWindowEventsRegistered false this)
  else ret this.

Definition attachWindowEvent (this : CreatePopper) : M CreatePopper :=
  this <- (if isWindowEventsRegistered this then removeWindowEvents this
           else ret this) ;;
  when (negb (disableOnResize this))
       (addEventListener Window "resize" (updatePosition_ (self this))) ;;;
  when (negb (disableOnScroll this))
       (addEventListener Window "scroll" (updatePosition_ (self this))) ;;;
  ret (set_isWindowEventsRegistered true this).

Definition resetPosition (this : CreatePopper) : M unit :=
  setInitialStyles this.

Definition updatePosition (this : CreatePopper) : M CreatePopper :=
  initPlacement this ;;;
  attachWindowEvent this.

Definition setOptions (this : CreatePopper)
    (placement_ : Placement) (offsetDistance_ : option Q) : M CreatePopper :=
  let off := match offsetDistance_ with
             | Some q => if Qeq_bool q 0 then offsetDistance this else JNum q
             | None => offsetDistance this
             end in
  let this := set_placement_offset placement_ off this in
  initPlacement this ;;;
  attachWindowEvent this.

Definition cleanupEvents (this : CreatePopper) : M CreatePopper :=
  setInitialStyles this ;;;
  removeWindowEvents this.

Definition dispatchWindowEvent (ty : string) (this : CreatePopper) : M CreatePopper :=
  ls <- gets listeners ;;
  if has_listener (Window, ty, updatePosition_ (self this)) ls
  then updatePosition this
  else ret this.

End PopperDup.

(** ** create-overlay/helpers.ts *)

(** [state] is typed ["open" | "close"]; [isOpen] is computed from it and
    rendered by the template literal as ["true"] or ["false"]. *)
Definition updateOverlayState (state : string) (trigger popper : Element) : M unit :=
  let isOpen := String.eqb state "open" in
  setAttribute popper "data-state" state ;;;
  setAttribute trigger "aria-expanded" (if isOpen then "true" else "false").

Definition showOverlay (trigger popper : Element) : M unit :=
  updateOverlayState "open" trigger popper.

Definition hideOverlay (trigger popper : Element) : M unit :=
  updateOverlayState "close" trigger popper.

(** ** create-overlay/types.ts and create-overlay/create-overlay.ts *)

Inductive OverlayState := open | close.

Definition state_string (s : OverlayState) : string :=
  match s with open => "open" | close => "close" end.

Inductive TriggerStrategy := click | hover.

Definition is_hover (s : TriggerStrategy) : bool :=
  match s with hover => true | click => false end.

Definition is_click (s : TriggerStrategy) : bool :=
  match s with click => true | hover => false end.

Record OverlayOptions := {
  oo_defaultState : option OverlayState;
  oo_preventFromCloseOutside : option bool;
  oo_preventCloseFromInside : option bool;
  oo_placement : option Placement;
  oo_offsetDistance : option Q;
  oo_triggerStrategy : option TriggerStrategy;
  oo_popper : option EventEffect;        (* [options.popper?.eventEffect] *)
  oo_beforeShow : bool;                  (* is the callback supplied *)
  oo_beforeHide : bool;
  oo_onShow : bool;
  oo_onHide : bool;
  oo_onToggle : bool
}.

Record MouseEvent := { target : Element }.
Record KeyboardEvent := { key : string; defaultPrevented : bool }.

Module Overlay.

Record CreateOverlay := {
  triggerElement : Element;
  contentElement : Element;
  triggerStrategy : TriggerStrategy;
  placement : Placement;
  offsetDistance : Q;
  preventFromCloseOutside : bool;
  preventFromCloseInside : bool;
  options : OverlayOptions;
  defaultState : OverlayState;
  popper : Popper.CreatePopper;
  eventEffect : option EventEffect;
  self : nat
}.

Definition set_popper (p : Popper.CreatePopper) (o : CreateOverlay) : CreateOverlay :=
  {| triggerElement := triggerElement o; contentElement := contentElement o;
     triggerStrategy := triggerStrategy o; placement := placement o;
     offsetDistance := offsetDistance o;
     preventFromCloseOutside := preventFromCloseOutside o;
     preventFromCloseInside := preventFromCloseInside o;
     options := options o; defaultState := defaultState o;
     popper := p; eventEffect := eventEffect o; self := self o |}.

Definition set_triggerElement (t : Element) (o : CreateOverlay) : CreateOverlay :=
  {| triggerElement := t; contentElement := contentElement o;
     triggerStrategy := triggerStrategy o; placement := placement o;
     offsetDistance := offsetDistance o;
     preventFromCloseOutside := preventFromCloseOutside o;
     preventFromCloseInside := preventFromCloseInside o;
     options := options o; defaultState := defaultState o;
     popper := popper o; eventEffect := eventEffect o; self := self o |}.

(** Modelled from the spec: [$] belongs to the utilities package, which is
    not among the sources; section 6 (a) has it resolve a selector to a
    single element handle or nothing. *)
Definition getElement (el : JsVal) : M JsVal :=
  match el with
  | JStr s => gets (fun w => match querySelector w s with
                             | Some e => JElem e
                             | None => JUndefined
                             end)
  | JElem e => ret (JElem e)
  | _ => ret JUndefined
  end.

Definition onToggleState (this : CreateOverlay) (isHidden : bool) : M unit :=
  when (oo_onToggle (options this)) (modify (emit (EOnToggle isHidden))).

(** The arrow function [hide] hands to [afterTransition]. *)
Definition hideCallback (this : CreateOverlay) : M CreateOverlay :=
  onToggleState this true ;;;
  p <- Popper.cleanupEvents (popper this) ;;
  when (oo_onHide (options this)) (modify (emit EOnHide)) ;;;
  ret (set_popper p this).

(** Modelled from the spec: [afterTransition] belongs to the utilities
    package, which is not among the sources; section 6 (c) has it invoke
    the callback once a CSS transition on the element completes, or
    immediately if none is running. *)
Definition afterTransition (this : CreateOverlay) (element : Element)
  : M CreateOverlay :=
  modify (emit (EAfterTransition element)) ;;;
  running <- gets (fun w => transitionRunning w element) ;;
  if running
  then modify (set_pending
                 (fun p => (p ++ [(element, hideTeardown (self this))])%list)) ;;;
       ret this
  else hideCallback this.

Definition hide (this : CreateOverlay) : M CreateOverlay :=
  when (oo_beforeHide (options this)) (modify (emit EBeforeHide)) ;;;
  updateOverlayState "close" (triggerElement this) (contentElement this) ;;;
  when (is_click (triggerStrategy this))
       (removeEventListener Document "click" (handleDocumentClick_ (self this))) ;;;
  removeEventListener Document "keydown" (handleKeyDown_ (self this)) ;;;
  when (is_hover (triggerStrategy this))
       (removeEventListener (Node (triggerElement this)) "mouseleave"
                            (hideOnMouseLeaseTrigger_ (self this)) ;;;
        removeEventListener (Node (contentElement this)) "mouseleave"
                            (hideOnMouseLeave_ (self this))) ;;;
  afterTransition this (contentElement this).

Definition handleDocumentClick (event : MouseEvent) (this : CreateOverlay)
  : M CreateOverlay :=
  st <- getAttribute (contentElement this) "data-state" ;;
  if bool_decide (st = Some "open") then
    inTrigger <- gets (fun w => contains w (triggerElement this) (target event)) ;;
    inContent <- gets (fun w => contains w (contentElement this) (target event)) ;;
    if negb inTrigger && negb (preventFromCloseInside this)
       && negb (preventFromCloseOutside this)
    then hide this
    else if negb inTrigger && negb inContent && negb (preventFromCloseOutside this)
    then hide this
    else if negb inTrigger && negb inContent && negb (preventFromCloseOutside this)
    then hide this
    else if negb inTrigger && inContent && negb (preventFromCloseInside this)
    then hide this
    else ret this
  else ret this.

Definition handleKeyDown (event : KeyboardEvent) (this : CreateOverlay)
  : M (KeyboardEvent * CreateOverlay) :=
  modify (emit EPreventDefault) ;;;
  let event := {| key := key event; defaultPrevented := true |} in
  if negb (is_hover (triggerStrategy this)) && String.eqb (key event) "Escape"
  then
    st <- getAttribute (contentElement this) "data-state" ;;
    if bool_decide (st = Some "open") then
      if negb (preventFromCloseOutside this)
      then (this <- hide this ;; ret (event, this))
      else ret (event, this)
    else ret (event, this)
  else ret (event, this).

Definition addEventOnMouseEnter (this : CreateOverlay) : M unit :=
  addEventListener (Node (triggerElement this)) "mouseleave"
                   (hideOnMouseLeaseTrigger_ (self this)) ;;;
  addEventListener (Node (contentElement this)) "mouseleave"
                   (hideOnMouseLeave_ (self this)).

Definition show (this : CreateOverlay) : M CreateOverlay :=
  p <- Popper.updatePosition (popper this) ;;
  let this := set_popper p this in
  addEventListener Document "keydown" (handleKeyDown_ (self this)) ;;;
  addEventListener Document "click" (handleDocumentClick_ (self this)) ;;;
  when (oo_beforeShow (options this)) (modify (emit EBeforeShow)) ;;;
  updateOverlayState "open" (triggerElement this) (contentElement this) ;;;
  onToggleState this false ;;;
  when (oo_onShow (options this)) (modify (emit EOnShow)) ;;;
  ret this.

Definition toggleStateOnClick (this : CreateOverlay) : M CreateOverlay :=
  st <- getAttribute (contentElement this) "data-state" ;;
  let state := match st with
               | Some s => if String.eqb s EmptyString then "close" else s
               | None => "close"
               end in
  if String.eqb state "close"
  then this <- show this ;;
       when (is_hover (triggerStrategy this)) (addEventOnMouseEnter this) ;;;
       ret this
  else hide this.

Definition showOnMouseEnter (this : CreateOverlay) : M CreateOverlay :=
  this <- show this ;;
  addEventOnMouseEnter this ;;;
  ret this.

Definition setShowOptions (this : CreateOverlay)
    (placement_ : Placement) (offsetDistance_ : option Q) : M CreateOverlay :=
  p <- Popper.setOptions (popper this) placement_ offsetDistance_ ;;
  let this := set_popper p this in
  addEventListener Document "keydown" (handleKeyDown_ (self this)) ;;;
  addEventListener Document "click" (handleDocumentClick_ (self this)) ;;;
  when (oo_beforeShow (options this)) (modify (emit EBeforeShow)) ;;;
  updateOverlayState "open" (triggerElement this) (contentElement this) ;;;
  onToggleState this false ;;;
  when (oo_onShow (options this)) (modify (emit EOnShow)) ;;;
  ret this.

Definition setPopperOptions (this : CreateOverlay)
    (placement_ : Placement) (offsetDistance_ : option Q) : M CreateOverlay :=
  p <- Popper.setOptions (popper this) placement_
         (Some (or_num offsetDistance_ (offsetDistance this))) ;;
  ret (set_popper p this).

Definition cleanup (this : CreateOverlay) : M unit :=
  removeEventListener (Node (triggerElement this)) "click"
                      (toggleStateOnClick_ (self this)) ;;;
  when (is_hover (triggerStrategy this))
       (removeEventListener (Node (triggerElement this)) "mouseenter"
                            (showOnMouseEnter_ (self this))).

Definition setPopperTrigger (this : CreateOverlay) (trigger : Element)
    (placement_ : option Placement) (offsetDistance_ : option Q) : M CreateOverlay :=
  cleanup this ;;;
  p <- Popper.setOptions (popper this)
         (match placement_ with Some p => p | None => placement this end)
         (Some (or_num offsetDistance_ (offsetDistance this))) ;;
  let this := set_triggerElement trigger (set_popper p this) in
  addEventListener (Node (triggerElement this)) "click"
                   (toggleStateOnClick_ (self this)) ;;;
  when (is_hover (triggerStrategy this))
       (addEventListener (Node (triggerElement this)) "mouseenter"
                         (showOnMouseEnter_ (self this))) ;;;
  ret this.

Definition initInstance (this : CreateOverlay) : M CreateOverlay :=
  updateOverlayState (state_string (defaultState this))
                     (triggerElement this) (contentElement this) ;;;
  this <- (match defaultState this with
           | open => show this
           | close => updateOverlayState "close" (triggerElement this)
                                         (contentElement this) ;;; ret this
           end) ;;
  addEventListener (Node (triggerElement this)) "click"
                   (toggleStateOnClick_ (self this)) ;;;
  when (is_hover (triggerStrategy this))
       (addEventListener (Node (triggerElement this)) "mouseenter"
                         (showOnMouseEnter_ (self this))) ;;;
  ret this.

Definition InvalidTriggerElement := "Trigger element must be a valid HTML element".
Definition InvalidContentElement := "Content element must be a valid HTML element".

Definition constructor (trigger content : JsVal) (options : OverlayOptions)
  : M CreateOverlay :=
  id <- fresh ;;
  contentElement <- getElement content ;;
  triggerElement <- getElement trigger ;;
  if negb (instanceof_HTMLElement triggerElement) then throw InvalidTriggerElement
  else if negb (instanceof_HTMLElement contentElement) then throw InvalidContentElement
  else
    let triggerStrategy :=
      match oo_triggerStrategy options with Some s => s | None => click end in
    let placement :=
      match oo_placement options with Some p => p | None => mkPlacement bottom None end in
    let offsetDistance := or_num (oo_offsetDistance options) 6 in
    let defaultState :=
      match oo_defaultState options with Some s => s | None => close end in
    let eventEffect := oo_popper options in
    popper <- Popper.constructor triggerElement contentElement
                {| opt_offsetDistance := JNum offsetDistance;
                   opt_placement := Some placement;
                   opt_eventEffect := eventEffect;
                   opt_onUpdate := false |} ;;
    initInstance
      {| triggerElement := elem_of_val triggerElement;
         contentElement := elem_of_val contentElement;
         triggerStrategy := triggerStrategy;
         placement := placement;
         offsetDistance := offsetDistance;
         preventFromCloseOutside := or_false (oo_preventFromCloseOutside options);
         preventFromCloseInside := or_false (oo_preventCloseFromInside options);
         options := options;
         defaultState := defaultState;
         popper := popper;
         eventEffect := eventEffect;
         self := id |}.

(** *** The browser delivering events *)

(** A [transitionend] on [element]: the callbacks waiting on it run, in
    the order they were scheduled, and are forgotten. *)
Fixpoint run_deferred (ds : list (Element * Deferred)) (element : Element)
    (this : CreateOverlay) : M CreateOverlay :=
  match ds with
  | [] => ret this
  | (e, hideTeardown id) :: ds' =>
      this <- (if Nat.eqb e element && Nat.eqb id (self this)
               then hideCallback this else ret this) ;;
      run_deferred ds' element this
  end.

Definition transitionEnd (element : Element) (this : CreateOverlay)
  : M CreateOverlay :=
  ds <- gets pending ;;
  modify (set_pending (filter (fun d => fst d ≠ element))) ;;;
  run_deferred ds element this.

Definition dispatchDocumentClick (event : MouseEvent) (this : CreateOverlay)
  : M CreateOverlay :=
  ls <- gets listeners ;;
  if has_listener (Document, "click", handleDocumentClick_ (self this)) ls
  then handleDocumentClick event this
  else ret this.

Definition dispatchKeyDown (event : KeyboardEvent) (this : CreateOverlay)
  : M (KeyboardEvent * CreateOverlay) :=
  ls <- gets listeners ;;
  if has_listener (Document, "keydown", handleKeyDown_ (self this)) ls
  then handleKeyDown event this
  else ret (event, this).

Definition dispatchTriggerClick (this : CreateOverlay) : M CreateOverlay :=
  ls <- gets listeners ;;
  if has_listener (Node (triggerElement this), "click",
                   toggleStateOnClick_ (self this)) ls
  then toggleStateOnClick this
  else ret this.

End Overlay.

(** ** Notions used to state the properties *)

(** The unclipped coordinate already lies within the clipping ranges. *)
Definition in_clip_range (c : PositioningContext) : Prop :=
  0 <= x (unclipped c) <= windowWidth c - popperWidth c /\
  0 <= y (unclipped c) <= windowHeight c - popperHeight c.

(** The record [getDimensions] builds from two rectangles. *)
Definition dimensions_of (refRect popperRect : DOMRect) : Dimensions :=
  {| dim_popperHeight := rect_height popperRect;
     dim_popperWidth := rect_width popperRect;
     dim_refHeight := rect_height refRect;
     dim_refWidth := rect_width refRect;
     dim_refLeft := rect_left refRect;
     dim_refTop := rect_top refRect;
     dim_refRight := rect_right refRect |}.

(** The measurements one read performs: the popper first, then the
    reference unless it is the same element. *)
Definition measure_once (reference popper : Element) (w : World) : World :=
  if decide (reference = popper)
  then emit (EGetBoundingClientRect popper) w
  else emit (EGetBoundingClientRect reference)
            (emit (EGetBoundingClientRect popper) w).

(** *** A concrete page, used to run the code

    Element 1 is a reference with rectangle
    [{left: 10, top: 20, width: 100, height: 50}], element 2 a popper of
    60 by 30 at the origin, in a 1024 by 768 window; nothing is styled,
    attributed or listened to yet.  Element 3 lies outside both. *)
Definition page : World :=
  {| innerWidth := 1024; innerHeight := 768;
     boundingRect := fun e =>
       match e with
       | 1%nat => {| rect_x := 10; rect_y := 20; rect_width := 100; rect_height := 50 |}
       | 2%nat => {| rect_x := 0; rect_y := 0; rect_width := 60; rect_height := 30 |}
       | _ => {| rect_x := 0; rect_y := 0; rect_width := 0; rect_height := 0 |}
       end;
     contains := fun a b => Nat.eqb a b;
     querySelector := fun _ => None;
     transitionRunning := fun e => Nat.eqb e 2;
     styles := ∅; attrs := ∅; listeners := []; pending := [];
     nextId := 0; log := [] |}.

Definition dimensions_eqb (a b : Dimensions) : bool :=
  Qeq_bool (dim_popperHeight a) (dim_popperHeight b)
  && Qeq_bool (dim_popperWidth a) (dim_popperWidth b)
  && Qeq_bool (dim_refHeight a) (dim_refHeight b)
  && Qeq_bool (dim_refWidth a) (dim_refWidth b)
  && Qeq_bool (dim_refLeft a) (dim_refLeft b)
  && Qeq_bool (dim_refTop a) (dim_refTop b)
  && Qeq_bool (dim_refRight a) (dim_refRight b).

(** [1] when [e] is one of the two elements of a read, else [0]. *)
Definition measured (e reference popper : Element) : nat :=
  if bool_decide (e = reference \/ e = popper) then 1 else 0.

Definition referenceEl : Element := 1%nat.
Definition popperEl : Element := 2%nat.
Definition outsideEl : Element := 3%nat.

(** *** What the controller's steps do to the browser

    The steps of [CreatePopper] written as functions on the browser; the
    properties section proves that the methods compute them. *)

Definition w_setInitialStyles (popper : Element) (w : World) : World :=
  w_setProperty popper prop_y css_empty (w_setProperty popper prop_x css_empty w).

(** The coordinate [initPlacement] resolves in browser [w]. *)
Definition resolve (reference popper : Element) (pl : Placement) (off : Q)
    (w : World) : Coordinate :=
  let d := dimensions_of (boundingRect w reference) (boundingRect w popper) in
  determinePosition
    (mkCtx pl (dim_refHeight d) (dim_refWidth d) (dim_refLeft d) (dim_refTop d)
           (dim_popperHeight d) (dim_popperWidth d)
           (innerHeight w) (innerWidth w) off).

Definition w_onUpdate (onUpdate : bool) (c : Coordinate) (pl : Placement)
    (w : World) : World :=
  if onUpdate then emit (EOnUpdate (x c) (y c) pl) w else w.

Definition w_initPlacement (reference popper : Element) (pl : Placement) (off : Q)
    (onUpdate : bool) (w : World) : World :=
  let c := resolve reference popper pl off w in
  w_onUpdate onUpdate c pl
    (w_setProperty popper prop_y (css_px (y c))
       (w_setProperty popper prop_x (css_px (x c))
          (measure_once reference popper (w_setInitialStyles popper w)))).

Definition w_when (b : bool) (f : World -> World) (w : World) : World :=
  if b then f w else w.

Definition w_attach (cb : Callback) (disableOnResize disableOnScroll : bool)
    (w : World) : World :=
  w_when (negb disableOnScroll) (w_addEventListener (Window, "scroll", cb))
    (w_when (negb disableOnResize) (w_addEventListener (Window, "resize", cb)) w).

Definition w_clean (cb : Callback) (disableOnResize disableOnScroll : bool)
    (w : World) : World :=
  w_when (negb disableOnScroll) (w_removeEventListener (Window, "scroll", cb))
    (w_when (negb disableOnResize) (w_removeEventListener (Window, "resize", cb)) w).

(** The effects a browser has logged since it was [w]. *)
Definition since (w w' : World) : list Effect := drop (length (log w)) (log w').

(** The arguments of the [onUpdate] invocations in a stretch of log. *)
Definition onUpdate_calls (l : list Effect) : list (Q * Q * Placement) :=
  flat_map (fun ef => match ef with
                      | EOnUpdate x y p => [(x, y, p)]
                      | _ => []
                      end) l.

(** The browser's inputs to positioning are the same in [w] and [w']. *)
Definition same_layout (w w' : World) : Prop :=
  innerWidth w' = innerWidth w /\ innerHeight w' = innerHeight w /\
  boundingRect w' = boundingRect w.

(** [a || b] on an optional placement and a placement. *)
Definition or_placement (a : option Placement) (b : Placement) : Placement :=
  match a with Some p => p | None => b end.

(** The effects one read logs. *)
Definition measure_effects (reference popper : Element) : list Effect :=
  if decide (reference = popper)
  then [EGetBoundingClientRect popper]
  else [EGetBoundingClientRect popper; EGetBoundingClientRect reference].

Definition onUpdate_effects (onUpdate : bool) (c : Coordinate) (pl : Placement)
  : list Effect :=
  if onUpdate then [EOnUpdate (x c) (y c) pl] else [].

(** The effect [ef] when [b] holds, nothing otherwise. *)
Definition emitted (b : bool) (ef : Effect) : list Effect :=
  if b then [ef] else [].

(** *** Scenarios on the concrete page *)

Definition onUpdate_placements (l : list Effect) : list Placement :=
  map snd (onUpdate_calls l).

(** [new CreatePopper(referenceEl, popperEl, {onUpdate})]; [updatePosition()];
    [setOptions({placement: "top"})]; then the window is resized. *)
Definition scenario_setOptions_then_resize : M Popper.CreatePopper :=
  p <- Popper.constructor (JElem referenceEl) (JElem popperEl)
         {| opt_offsetDistance := JUndefined; opt_placement := None;
            opt_eventEffect := None; opt_onUpdate := true |} ;;
  p <- Popper.updatePosition p ;;
  p <- Popper.setOptions p (mkPlacement top None) None ;;
  Popper.dispatchWindowEvent "resize" p ;;;
  ret p.

(** The same calls on the second implementation. *)
Definition scenario_setOptions_then_resize_dup : M PopperDup.CreatePopper :=
  p <- PopperDup.constructor (JElem referenceEl) (JElem popperEl)
         {| opt_offsetDistance := JUndefined; opt_placement := None;
            opt_eventEffect := None; opt_onUpdate := true |} ;;
  p <- PopperDup.updatePosition p ;;
  p <- PopperDup.setOptions p (mkPlacement top None) None ;;
  PopperDup.dispatchWindowEvent "resize" p.

(** [new CreatePopper(referenceEl, popperEl, {offsetDistance: EMPTY})], where
    [EMPTY] is the empty string. *)
Definition emptyStringOffset : PopperOptions :=
  {| opt_offsetDistance := JStr EmptyString; opt_placement := None;
     opt_eventEffect := None; opt_onUpdate := false |}.

(** A controller as the constructor leaves it for
    [{placement: "right", onUpdate}] (the demo page's second popper). *)
Definition pagePopper : Popper.CreatePopper :=
  {| Popper.reference := referenceEl; Popper.popper := popperEl;
     Popper.offsetDistance := JNum 0;
     Popper.placement := mkPlacement right None;
     Popper.disableOnResize := false; Popper.disableOnScroll := false;
     Popper.onUpdate := true; Popper.isEventRegistrer := false;
     Popper.self := 0%nat |}.

(** *** Window listeners of a controller *)

(** The controller's listener [cb] is in the window's list for [ty]. *)
Definition attached (cb : Callback) (ty : string) (w : World) : Prop :=
  (Window, ty, cb) ∈ listeners w.

(** The listeners are attached exactly according to the disable flags. *)
Definition attached_per_flags (cb : Callback) (disableOnResize disableOnScroll : bool)
    (w : World) : Prop :=
  (attached cb "resize" w <-> disableOnResize = false) /\
  (attached cb "scroll" w <-> disableOnScroll = false).

(** What holds of every browser a controller can meet: no listener is in
    a list twice, and a disabled event has no listener of the controller
    (the flags never change after construction). *)
Definition listeners_wf (cb : Callback) (disableOnResize disableOnScroll : bool)
    (w : World) : Prop :=
  NoDup (listeners w) /\
  (disableOnResize = true -> ~ attached cb "resize" w) /\
  (disableOnScroll = true -> ~ attached cb "scroll" w).

(** The listeners other than the controller's two are those of [w]. *)
Definition others_kept (cb : Callback) (w w' : World) : Prop :=
  forall l, l <> (Window, "resize", cb) -> l <> (Window, "scroll", cb) ->
            (l ∈ listeners w' <-> l ∈ listeners w).

(** The offset [setOptions] of the second implementation stores:
    [offsetDistance || this.offsetDistance]. *)
Definition or_offset (a : option Q) (b : JsVal) : JsVal :=
  match a with
  | Some q => if Qeq_bool q 0 then b else JNum q
  | None => b
  end.

(** *** What the overlay's steps do to the browser *)

Definition w_updateOverlayState (state : string) (trigger popper : Element)
    (w : World) : World :=
  w_setAttribute trigger "aria-expanded"
    (if String.eqb state "open" then "true" else "false")
    (w_setAttribute popper "data-state" state w).

Definition w_cleanupEvents (p : Popper.CreatePopper) (w : World) : World :=
  w_when (Popper.isEventRegistrer p)
    (w_clean (initPositionate (Popper.self p))
       (Popper.disableOnResize p) (Popper.disableOnScroll p))
    (w_setInitialStyles (Popper.popper p) w).

Definition w_hideCallback (this : Overlay.CreateOverlay) (w : World) : World :=
  w_when (oo_onHide (Overlay.options this)) (emit EOnHide)
    (w_cleanupEvents (Overlay.popper this)
       (w_when (oo_onToggle (Overlay.options this)) (emit (EOnToggle true)) w)).

Definition after_hideCallback (this : Overlay.CreateOverlay) : Overlay.CreateOverlay :=
  Overlay.set_popper (Popper.set_isEventRegistrer false (Overlay.popper this)) this.

Definition keydownListener (this : Overlay.CreateOverlay) : Listener :=
  (Document, "keydown", handleKeyDown_ (Overlay.self this)).

Definition clickListener (this : Overlay.CreateOverlay) : Listener :=
  (Document, "click", handleDocumentClick_ (Overlay.self this)).

(** The listeners [hide] detaches. *)
Definition w_detach (this : Overlay.CreateOverlay) (w : World) : World :=
  w_when (is_hover (Overlay.triggerStrategy this))
    (fun w =>
       w_removeEventListener
         (Node (Overlay.contentElement this), "mouseleave",
          hideOnMouseLeave_ (Overlay.self this))
         (w_removeEventListener
            (Node (Overlay.triggerElement this), "mouseleave",
             hideOnMouseLeaseTrigger_ (Overlay.self this)) w))
    (w_removeEventListener (keydownListener this)
       (w_when (is_click (Overlay.triggerStrategy this))
          (w_removeEventListener (clickListener this)) w)).

(** [hide] up to and including the call of [afterTransition]. *)
Definition w_hide_now (this : Overlay.CreateOverlay) (w : World) : World :=
  emit (EAfterTransition (Overlay.contentElement this))
    (w_detach this
       (w_updateOverlayState "close" (Overlay.triggerElement this)
          (Overlay.contentElement this)
          (w_when (oo_beforeHide (Overlay.options this)) (emit EBeforeHide) w))).

Definition schedule_teardown (this : Overlay.CreateOverlay) (w : World) : World :=
  set_pending
    (fun p => (p ++ [(Overlay.contentElement this,
                      hideTeardown (Overlay.self this))])%list) w.

Definition w_hide (this : Overlay.CreateOverlay) (w : World) : World :=
  if transitionRunning w (Overlay.contentElement this)
  then schedule_teardown this (w_hide_now this w)
  else w_hideCallback this (w_hide_now this w).

Definition after_hide (this : Overlay.CreateOverlay) (w : World) : Overlay.CreateOverlay :=
  if transitionRunning w (Overlay.contentElement this)
  then this else after_hideCallback this.

(** The effects of [hide] before the transition, and of the callback
    after it, in order. *)

Definition hide_now_effects (this : Overlay.CreateOverlay) : list Effect :=
  (emitted (oo_beforeHide (Overlay.options this)) EBeforeHide
   ++ [ESetAttribute (Overlay.contentElement this) "data-state" "close";
       ESetAttribute (Overlay.triggerElement this) "aria-expanded" "false"]
   ++ emitted (is_click (Overlay.triggerStrategy this))
        (ERemoveEventListener (clickListener this))
   ++ [ERemoveEventListener (keydownListener this)]
   ++ (if is_hover (Overlay.triggerStrategy this)
       then [ERemoveEventListener
               (Node (Overlay.triggerElement this), "mouseleave",
                hideOnMouseLeaseTrigger_ (Overlay.self this));
             ERemoveEventListener
               (Node (Overlay.contentElement this), "mouseleave",
                hideOnMouseLeave_ (Overlay.self this))]
       else [])
   ++ [EAfterTransition (Overlay.contentElement this)])%list.

Definition cleanupEvents_effects (p : Popper.CreatePopper) : list Effect :=
  ([ESetProperty (Popper.popper p) prop_x css_empty;
    ESetProperty (Popper.popper p) prop_y css_empty]
   ++ (if Popper.isEventRegistrer p
       then emitted (negb (Popper.disableOnResize p))
              (ERemoveEventListener (Window, "resize", initPositionate (Popper.self p)))
            ++ emitted (negb (Popper.disableOnScroll p))
                 (ERemoveEventListener (Window, "scroll", initPositionate (Popper.self p)))
       else []))%list.

Definition hide_teardown_effects (this : Overlay.CreateOverlay) : list Effect :=
  (emitted (oo_onToggle (Overlay.options this)) (EOnToggle true)
   ++ cleanupEvents_effects (Overlay.popper this)
   ++ emitted (oo_onHide (Overlay.options this)) EOnHide)%list.

(** The content's [data-state] and the trigger's [aria-expanded] agree:
    ["open"] with ["true"], or ["close"] with ["false"]. *)
Definition state_inv (this : Overlay.CreateOverlay) (w : World) : Prop :=
  (attrs w !! (Overlay.contentElement this, "data-state") = Some "open" /\
   attrs w !! (Overlay.triggerElement this, "aria-expanded") = Some "true") \/
  (attrs w !! (Overlay.contentElement this, "data-state") = Some "close" /\
   attrs w !! (Overlay.triggerElement this, "aria-expanded") = Some "false").

(** The owned popper controller holds a numeric offset, as the overlay's
    constructor leaves it. *)
Definition popper_ok (this : Overlay.CreateOverlay) : Prop :=
  typeof_number (Popper.offsetDistance (Overlay.popper this)) = true.

(** The listeners [show] attaches and the state it writes, after the
    popper has been positioned. *)
Definition w_open (this : Overlay.CreateOverlay) (w : World) : World :=
  w_when (oo_onShow (Overlay.options this)) (emit EOnShow)
    (w_when (oo_onToggle (Overlay.options this)) (emit (EOnToggle false))
       (w_updateOverlayState "open" (Overlay.triggerElement this)
          (Overlay.contentElement this)
          (w_when (oo_beforeShow (Overlay.options this)) (emit EBeforeShow)
             (w_addEventListener (clickListener this)
                (w_addEventListener (keydownListener this) w))))).

Definition w_show (this : Overlay.CreateOverlay) (w : World) : World :=
  let p := Overlay.popper this in
  w_open this
    (w_attach (initPositionate (Popper.self p))
       (Popper.disableOnResize p) (Popper.disableOnScroll p)
       (w_initPlacement (Popper.reference p) (Popper.popper p)
          (Popper.placement p) (num_of (Popper.offsetDistance p))
          (Popper.onUpdate p) w)).

Definition after_show (this : Overlay.CreateOverlay) : Overlay.CreateOverlay :=
  Overlay.set_popper (Popper.set_isEventRegistrer true (Overlay.popper this)) this.

(** Case analysis on every flag a browser function branches on. *)
Ltac split_flags :=
  repeat match goal with
         | |- context [w_when ?b _ _] => destruct b; cbn [w_when]
         | |- context [decide ?P] => destruct (decide P)
         | |- context [if ?b then _ else _] => destruct b
         end.

(** What holds of the browser and the popper controller an overlay owns:
    the window's listener list is well formed for the controller, and a
    controller marked unregistered has no window listener. *)
Definition popper_inv (p : Popper.CreatePopper) (w : World) : Prop :=
  listeners_wf (initPositionate (Popper.self p))
    (Popper.disableOnResize p) (Popper.disableOnScroll p) w /\
  (Popper.isEventRegistrer p = false ->
   ~ attached (initPositionate (Popper.self p)) "resize" w /\
   ~ attached (initPositionate (Popper.self p)) "scroll" w).

(** The controller has no window listener left. *)
Definition window_detached (p : Popper.CreatePopper) (w : World) : Prop :=
  ~ attached (initPositionate (Popper.self p)) "resize" w /\
  ~ attached (initPositionate (Popper.self p)) "scroll" w.

(** [setShowOptions] on the browser: the popper's [setOptions], then the
    same opening steps as [show]. *)
Definition w_setShowOptions (this : Overlay.CreateOverlay) (pl : Placement)
    (off : option Q) (w : World) : World :=
  let p := Overlay.popper this in
  w_open this
    (w_attach (initPositionate (Popper.self p))
       (Popper.disableOnResize p) (Popper.disableOnScroll p)
       (w_when (Popper.isEventRegistrer p)
          (w_clean (initPositionate (Popper.self p))
             (Popper.disableOnResize p) (Popper.disableOnScroll p))
          (w_initPlacement (Popper.reference p) (Popper.popper p) pl
             (or_num off (num_of (Popper.offsetDistance p)))
             (Popper.onUpdate p) w))).

(** The leave watchers of the hover strategy. *)
Definition w_addEventOnMouseEnter (this : Overlay.CreateOverlay) (w : World) : World :=
  w_addEventListener
    (Node (Overlay.contentElement this), "mouseleave",
     hideOnMouseLeave_ (Overlay.self this))
    (w_addEventListener
       (Node (Overlay.triggerElement this), "mouseleave",
        hideOnMouseLeaseTrigger_ (Overlay.self this)) w).

(** The listeners [initInstance] puts on the trigger. *)
Definition w_listen_trigger (this : Overlay.CreateOverlay) (w : World) : World :=
  w_when (is_hover (Overlay.triggerStrategy this))
    (w_addEventListener
       (Node (Overlay.triggerElement this), "mouseenter",
        showOnMouseEnter_ (Overlay.self this)))
    (w_addEventListener
       (Node (Overlay.triggerElement this), "click",
        toggleStateOnClick_ (Overlay.self this)) w).

(** An overlay on the concrete page: click strategy, every callback
    supplied, everything else defaulted. *)
Definition overlayOptions : OverlayOptions :=
  {| oo_defaultState := None; oo_preventFromCloseOutside := None;
     oo_preventCloseFromInside := None; oo_placement := None;
     oo_offsetDistance := None; oo_triggerStrategy := None; oo_popper := None;
     oo_beforeShow := true; oo_beforeHide := true; oo_onShow := true;
     oo_onHide := true; oo_onToggle := true |}.

(** The object [new CreateOverlay({trigger, content, options})] builds on
    the page. *)
Definition pageOverlay : Overlay.CreateOverlay :=
  {| Overlay.triggerElement := referenceEl;
     Overlay.contentElement := popperEl;
     Overlay.triggerStrategy := click;
     Overlay.placement := mkPlacement bottom None;
     Overlay.offsetDistance := 6;
     Overlay.preventFromCloseOutside := false;
     Overlay.preventFromCloseInside := false;
     Overlay.options := overlayOptions;
     Overlay.defaultState := close;
     Overlay.popper :=
       {| Popper.reference := referenceEl; Popper.popper := popperEl;
          Popper.offsetDistance := JNum 6;
          Popper.placement := mkPlacement bottom None;
          Popper.disableOnResize := false; Popper.disableOnScroll := false;
          Popper.onUpdate := false; Popper.isEventRegistrer := false;
          Popper.self := 1%nat |};
     Overlay.eventEffect := None;
     Overlay.self := 0%nat |}.

(** Construct the overlay, then click its trigger. *)
Definition scenario_open : M Overlay.CreateOverlay :=
  this <- Overlay.constructor (JElem referenceEl) (JElem popperEl) overlayOptions ;;
  Overlay.dispatchTriggerClick this.

(** The overlay and the browser once the scenario has run. *)
Definition opened : Overlay.CreateOverlay * World :=
  match scenario_open page with
  | Ok this w => (this, w)
  | Throw _ w => (pageOverlay, w)
  end.

(** Then a click lands on an element outside trigger and content, and the
    content's transition completes. *)
Definition scenario_click_outside : M Overlay.CreateOverlay :=
  this <- scenario_open ;;
  this <- Overlay.dispatchDocumentClick {| target := outsideEl |} this ;;
  Overlay.transitionEnd popperEl this.

Definition keyA : KeyboardEvent := {| key := "a"; defaultPrevented := false |}.

(** *** Teardowns still waiting for a transition *)

(** [d] is a teardown that the overlay [id] handed to [afterTransition]
    for [element]. *)
Definition is_teardown_of (element : Element) (id : nat)
    (d : Element * Deferred) : bool :=
  match d with
  | (e, hideTeardown i) => Nat.eqb e element && Nat.eqb i id
  end.

(** How many teardowns of earlier [hide] calls of this overlay still wait
    for the content's transition to end (an overlay hidden, shown again
    and hidden again before the transition ends has one). *)
Definition teardowns_waiting (this : Overlay.CreateOverlay) (w : World) : nat :=
  length (List.filter
            (is_teardown_of (Overlay.contentElement this) (Overlay.self this))
            (pending w)).

(** The browser after [n] teardowns of the overlay ran one after the
    other. *)
Fixpoint w_teardowns (n : nat) (this : Overlay.CreateOverlay) (w : World) : World :=
  match n with
  | O => w
  | S k => w_teardowns k (after_hideCallback this) (w_hideCallback this w)
  end.

(** The overlay object after [n] teardowns: the first one marks the popper
    controller unregistered, the later ones leave it so. *)
Definition after_teardowns (n : nat) (this : Overlay.CreateOverlay)
  : Overlay.CreateOverlay :=
  match n with
  | O => this
  | S _ => after_hideCallback this
  end.

(** The effects of the teardowns run when the transition ends after a
    [hide] that found [n] earlier teardowns waiting: the first to run sees
    the popper controller as [hide] left it, the [n] that follow see it
    unregistered. *)
Definition teardown_effects (this : Overlay.CreateOverlay) (n : nat) : list Effect :=
  (hide_teardown_effects this
   ++ concat (replicate n (hide_teardown_effects (after_hideCallback this))))%list.
(** The overlay is hidden and shown again while the content's exit
    transition is still running: the first [hide]'s teardown waits. *)
Definition scenario_reopen : M Overlay.CreateOverlay :=
  this <- scenario_open ;;
  this <- Overlay.hide this ;;
  Overlay.show this.

Definition reopened : Overlay.CreateOverlay * World :=
  match scenario_reopen page with
  | Ok this w => (this, w)
  | Throw _ w => (pageOverlay, w)
  end.

(** Discharges a decidable statement about the concrete page by running
    its decision procedure. *)
Ltac by_running := apply (bool_decide_unpack _); vm_compute; exact I.

(** ** Further notions: listener lists, positions, scenarios *)

(** Both position custom properties of [popper] hold the empty string. *)
Definition position_cleared (popper : Element) (w : World) : Prop :=
  styles w !! (popper, prop_x) = Some css_empty /\
  styles w !! (popper, prop_y) = Some css_empty.

(** Both position custom properties of [popper] hold coordinate [c]. *)
Definition positioned_at (popper : Element) (c : Coordinate) (w : World) : Prop :=
  styles w !! (popper, prop_x) = Some (css_px (x c)) /\
  styles w !! (popper, prop_y) = Some (css_px (y c)).

(** The callback [cb] has no window listener. *)
Definition detached (cb : Callback) (w : World) : Prop :=
  ~ attached cb "resize" w /\ ~ attached cb "scroll" w.

(** The controller the constructor of [popper.ts] returns for the empty
    string as [offsetDistance]. *)
Definition emptyOffsetPopper : Popper.CreatePopper :=
  {| Popper.reference := referenceEl; Popper.popper := popperEl;
     Popper.offsetDistance := JStr EmptyString;
     Popper.placement := mkPlacement bottom None;
     Popper.disableOnResize := false; Popper.disableOnScroll := false;
     Popper.onUpdate := false; Popper.isEventRegistrer := false;
     Popper.self := 0%nat |}.

Definition MissingElement := "Reference or popper element is null or undefined".

(** A controller of the second implementation on the page, as its
    constructor leaves it for [{onUpdate}]. *)
Definition pagePopperDup : PopperDup.CreatePopper :=
  {| PopperDup.reference := referenceEl; PopperDup.popper := popperEl;
     PopperDup.offsetDistance := JNum 0;
     PopperDup.placement := mkPlacement bottom None;
     PopperDup.disableOnResize := false; PopperDup.disableOnScroll := false;
     PopperDup.onUpdate := true; PopperDup.isWindowEventsRegistered := false;
     PopperDup.self := 0%nat |}.

(** *** The overlay: further notions *)

(** What [getElement] returns in browser [w]. *)
Definition resolveElement (el : JsVal) (w : World) : JsVal :=
  match el with
  | JStr s => match querySelector w s with
              | Some e => JElem e
              | None => JUndefined
              end
  | JElem e => JElem e
  | _ => JUndefined
  end.

(** The object the overlay's constructor hands to [initInstance]: the
    overlay is numbered [id], its popper controller [S id]. *)
Definition constructed (trigger content : Element) (options : OverlayOptions)
    (id : nat) : Overlay.CreateOverlay :=
  let placement :=
    match oo_placement options with Some p => p | None => mkPlacement bottom None end in
  let offsetDistance := or_num (oo_offsetDistance options) 6 in
  let eventEffect :=
    match oo_popper options with
    | Some e => e
    | None => {| ee_disableOnResize := None; ee_disableOnScroll := None |}
    end in
  {| Overlay.triggerElement := trigger;
     Overlay.contentElement := content;
     Overlay.triggerStrategy :=
       match oo_triggerStrategy options with Some s => s | None => click end;
     Overlay.placement := placement;
     Overlay.offsetDistance := offsetDistance;
     Overlay.preventFromCloseOutside := or_false (oo_preventFromCloseOutside options);
     Overlay.preventFromCloseInside := or_false (oo_preventCloseFromInside options);
     Overlay.options := options;
     Overlay.defaultState :=
       match oo_defaultState options with Some s => s | None => close end;
     Overlay.popper :=
       {| Popper.reference := trigger; Popper.popper := content;
          Popper.offsetDistance := JNum offsetDistance;
          Popper.placement := placement;
          Popper.disableOnResize := or_false (ee_disableOnResize eventEffect);
          Popper.disableOnScroll := or_false (ee_disableOnScroll eventEffect);
          Popper.onUpdate := false; Popper.isEventRegistrer := false;
          Popper.self := S id |};
     Overlay.eventEffect := oo_popper options;
     Overlay.self := id |}.

(** The toggle reads the content's [data-state] as closed when it is
    absent, empty or ["close"]. *)
Definition reads_closed (st : option string) : bool :=
  match st with
  | Some s => if String.eqb s EmptyString then true else String.eqb s "close"
  | None => true
  end.

(** When the document click handler closes the overlay. *)
Definition closes_on_click (this : Overlay.CreateOverlay) (event : MouseEvent)
    (w : World) : bool :=
  bool_decide (attrs w !! (Overlay.contentElement this, "data-state") = Some "open")
  && negb (contains w (Overlay.triggerElement this) (target event))
  && (if contains w (Overlay.contentElement this) (target event)
      then negb (Overlay.preventFromCloseInside this)
      else negb (Overlay.preventFromCloseOutside this)).

(** When the keydown handler closes the overlay. *)
Definition closes_on_key (this : Overlay.CreateOverlay) (event : KeyboardEvent)
    (w : World) : bool :=
  negb (is_hover (Overlay.triggerStrategy this))
  && String.eqb (key event) "Escape"
  && bool_decide (attrs w !! (Overlay.contentElement this, "data-state") = Some "open")
  && negb (Overlay.preventFromCloseOutside this).

Definition toggleListener (this : Overlay.CreateOverlay) : Listener :=
  (Node (Overlay.triggerElement this), "click", toggleStateOnClick_ (Overlay.self this)).

Definition enterListener (this : Overlay.CreateOverlay) : Listener :=
  (Node (Overlay.triggerElement this), "mouseenter",
   showOnMouseEnter_ (Overlay.self this)).

Definition leaveTriggerListener (this : Overlay.CreateOverlay) : Listener :=
  (Node (Overlay.triggerElement this), "mouseleave",
   hideOnMouseLeaseTrigger_ (Overlay.self this)).

Definition leaveContentListener (this : Overlay.CreateOverlay) : Listener :=
  (Node (Overlay.contentElement this), "mouseleave",
   hideOnMouseLeave_ (Overlay.self this)).

(** [cleanup] on the browser. *)
Definition w_cleanup (this : Overlay.CreateOverlay) (w : World) : World :=
  w_when (is_hover (Overlay.triggerStrategy this))
    (w_removeEventListener (enterListener this))
    (w_removeEventListener (toggleListener this) w).

(** [setOptions] of [popper.ts] on the browser. *)
Definition w_setOptions (p : Popper.CreatePopper) (pl : Placement) (off : option Q)
    (w : World) : World :=
  w_attach (initPositionate (Popper.self p))
    (Popper.disableOnResize p) (Popper.disableOnScroll p)
    (w_when (Popper.isEventRegistrer p)
       (w_clean (initPositionate (Popper.self p))
          (Popper.disableOnResize p) (Popper.disableOnScroll p))
       (w_initPlacement (Popper.reference p) (Popper.popper p) pl
          (or_num off (num_of (Popper.offsetDistance p)))
          (Popper.onUpdate p) w)).

(** No listener of the overlay or of its popper controller is in the
    browser's list yet. *)
Definition overlay_unwired (this : Overlay.CreateOverlay) (w : World) : Prop :=
  (keydownListener this ∉ listeners w) /\
  (clickListener this ∉ listeners w) /\
  detached (initPositionate (Popper.self (Overlay.popper this))) w.

(** A hover overlay on the page. *)
Definition hoverOptions : OverlayOptions :=
  {| oo_defaultState := None; oo_preventFromCloseOutside := None;
     oo_preventCloseFromInside := None; oo_placement := None;
     oo_offsetDistance := Some 0; oo_triggerStrategy := Some hover;
     oo_popper := None;
     oo_beforeShow := false; oo_beforeHide := false; oo_onShow := false;
     oo_onHide := false; oo_onToggle := false |}.

(** The page with two selectors that resolve: ["#trigger"] to the
    reference element and ["#content"] to the popper element. *)
Definition selectablePage : World :=
  {| innerWidth := innerWidth page; innerHeight := innerHeight page;
     boundingRect := boundingRect page; contains := contains page;
     querySelector := fun s =>
       if String.eqb s "#trigger" then Some referenceEl
       else if String.eqb s "#content" then Some popperEl
       else None;
     transitionRunning := transitionRunning page;
     styles := styles page; attrs := attrs page; listeners := listeners page;
     pending := pending page; nextId := nextId page; log := log page |}.

(** A browser state differs from another at most in the next free
    object number. *)
Definition untouched (w w' : World) : Prop :=
  styles w' = styles w /\ attrs w' = attrs w /\ listeners w' = listeners w /\
  pending w' = pending w /\ log w' = log w.

(** Construct the hover overlay, then let the cursor enter its trigger. *)
Definition scenario_hover : M Overlay.CreateOverlay :=
  this <- Overlay.constructor (JElem referenceEl) (JElem popperEl) hoverOptions ;;
  Overlay.showOnMouseEnter this.

Definition hovered : Overlay.CreateOverlay * World :=
  match scenario_hover page with
  | Ok this w => (this, w)
  | Throw _ w => (pageOverlay, w)
  end.

(** The overlay and the browser right after construction on the page. *)
Definition justConstructed : Overlay.CreateOverlay * World :=
  match Overlay.constructor (JElem referenceEl) (JElem popperEl) overlayOptions page with
  | Ok this w => (this, w)
  | Throw _ w => (pageOverlay, w)
  end.

(** A listener list without the overlay's document listeners and without
    the window listeners its popper controller attaches (resize unless
    [disableOnResize], scroll unless [disableOnScroll]); the other
    listeners stay, in their order. *)
Definition without_overlay_listeners (this : Overlay.CreateOverlay)
    (ls : list Listener) : list Listener :=
  let p := Overlay.popper this in
  (if Popper.disableOnScroll p then (fun k : list Listener => k)
   else remove_listener (Window, "scroll", initPositionate (Popper.self p)))
    ((if Popper.disableOnResize p then (fun k : list Listener => k)
      else remove_listener (Window, "resize", initPositionate (Popper.self p)))
       (remove_listener (keydownListener this)
          (remove_listener (clickListener this) ls))).

(** * Properties *)

(** ** The placement resolver *)

Lemma clip_id v e p : 0 <= v <= e - p -> clip v e p == v.
Proof.
  intros [H0 H1]. unfold clip.
  destruct (Q.min_spec v (e - p)) as [[? Hm]|[? Hm]];
    destruct (Q.max_spec 0 (Qmin v (e - p))) as [[? HM]|[? HM]];
    rewrite HM; try rewrite Hm; lra.
Qed.

Lemma clip_bounds v e p : p <= e -> 0 <= clip v e p <= e - p.
Proof.
  intros H. unfold clip.
  destruct (Q.min_spec v (e - p)) as [[? Hm]|[? Hm]];
    destruct (Q.max_spec 0 (Qmin v (e - p))) as [[? HM]|[? HM]];
    rewrite HM; try rewrite Hm; lra.
Qed.

Lemma clip_collapse v e p : e < p -> clip v e p == 0.
Proof.
  intros H. unfold clip.
  destruct (Q.min_spec v (e - p)) as [[? Hm]|[? Hm]];
    destruct (Q.max_spec 0 (Qmin v (e - p))) as [[? HM]|[? HM]];
    rewrite HM; try rewrite Hm; lra.
Qed.

Lemma clip_low v e p : p <= e -> v < 0 -> clip v e p == 0.
Proof.
  intros H Hv. unfold clip.
  destruct (Q.min_spec v (e - p)) as [[? Hm]|[? Hm]];
    destruct (Q.max_spec 0 (Qmin v (e - p))) as [[? HM]|[? HM]];
    rewrite HM; try rewrite Hm; lra.
Qed.

Lemma clip_high v e p : p <= e -> e - p < v -> clip v e p == e - p.
Proof.
  intros H Hv. unfold clip.
  destruct (Q.min_spec v (e - p)) as [[? Hm]|[? Hm]];
    destruct (Q.max_spec 0 (Qmin v (e - p))) as [[? HM]|[? HM]];
    rewrite HM; try rewrite Hm; lra.
Qed.

(** The sixteen rows of the "Basic Placements" table and the twelve rows
    of the "Viewport Clipping" table evaluate to their expected values. *)
Example basicPlacements_pass :
  forallb (fun r => coord_eqb (determinePosition (commonCtx (fst r) 0)) (snd r))
          basicPlacements = true.
Proof. vm_compute. reflexivity. Qed.

Example clippingTestCases_pass :
  forallb (fun r => coord_eqb (determinePosition (fst r)) (snd r))
          clippingTestCases = true.
Proof. vm_compute. reflexivity. Qed.

(** C1: when the unclipped coordinate lies within the clipping ranges,
    [determinePosition] returns the formulas of the specification: the
    primary axis is [refTop - popperHeight - offsetDistance] for top,
    [refTop + refHeight + offsetDistance] for bottom,
    [refLeft - popperWidth - offsetDistance] for left and
    [refLeft + refWidth + offsetDistance] for right; the cross axis is the
    start, middle (also the default) or end formula on the reference's
    left/width for top and bottom, on its top/height for left and right;
    the cross axis is x for top and bottom and y for left and right. *)
Theorem determinePosition_formulas (c : PositioningContext) :
  in_clip_range c ->
  let r := determinePosition c in
  match side (placement c) with
  | top => y r == refTop c - popperHeight c - offsetDistance c
  | bottom => y r == refTop c + refHeight c + offsetDistance c
  | left => x r == refLeft c - popperWidth c - offsetDistance c
  | right => x r == refLeft c + refWidth c + offsetDistance c
  end /\
  match side (placement c), suffix (placement c) with
  | (top | bottom), Some start => x r == refLeft c
  | (top | bottom), (Some middle | None) =>
      x r == refLeft c + refWidth c / 2 - popperWidth c / 2
  | (top | bottom), Some end_ => x r == refLeft c + refWidth c - popperWidth c
  | (left | right), Some start => y r == refTop c
  | (left | right), (Some middle | None) =>
      y r == refTop c + refHeight c / 2 - popperHeight c / 2
  | (left | right), Some end_ => y r == refTop c + refHeight c - popperHeight c
  end.
Proof.
  intros [Hx Hy] r.
  assert (Ex : x r == x (unclipped c)) by (apply clip_id; exact Hx).
  assert (Ey : y r == y (unclipped c)) by (apply clip_id; exact Hy).
  clearbody r. clear Hx Hy.
  unfold unclipped, primary_axis, cross_axis, align_of in Ex, Ey.
  destruct (side (placement c)); destruct (suffix (placement c)) as [[| |]|];
    cbn in Ex, Ey; split; assumption.
Qed.

Lemma determinePosition_formulas_witness :
  let r := determinePosition (commonCtx (P top None) 10) in
  y r == 390 /\ x r == 475.
Proof.
  assert (H : in_clip_range (commonCtx (P top None) 10)).
  { vm_compute; repeat split; discriminate. }
  destruct (determinePosition_formulas (commonCtx (P top None) 10) H) as [Hp Hc].
  cbn in Hp, Hc. cbn zeta. split.
  - rewrite Hp. vm_compute. reflexivity.
  - rewrite Hc. vm_compute. reflexivity.
Defined.

(** C2: each axis is clipped on its own into
    [[0, viewportExtent - popperExtent]], whatever happens on the other
    axis: a coordinate already inside the range is returned unchanged, one
    below 0 becomes 0 and one above [viewportExtent - popperExtent] becomes
    that bound, so the popper is moved to the nearest admissible position
    and never to the opposite side; when the popper exceeds the viewport on
    an axis that axis's coordinate is exactly 0. *)
Theorem determinePosition_clipped (c : PositioningContext) :
  let r := determinePosition c in
  let u := unclipped c in
  (popperWidth c <= windowWidth c -> popperHeight c <= windowHeight c ->
   0 <= x r <= windowWidth c - popperWidth c /\
   0 <= y r <= windowHeight c - popperHeight c) /\
  (windowWidth c < popperWidth c -> x r == 0) /\
  (windowHeight c < popperHeight c -> y r == 0) /\
  (popperWidth c <= windowWidth c ->
   0 <= x r <= windowWidth c - popperWidth c /\
   (x u < 0 -> x r == 0) /\
   (0 <= x u <= windowWidth c - popperWidth c -> x r == x u) /\
   (windowWidth c - popperWidth c < x u -> x r == windowWidth c - popperWidth c)) /\
  (popperHeight c <= windowHeight c ->
   0 <= y r <= windowHeight c - popperHeight c /\
   (y u < 0 -> y r == 0) /\
   (0 <= y u <= windowHeight c - popperHeight c -> y r == y u) /\
   (windowHeight c - popperHeight c < y u -> y r == windowHeight c - popperHeight c)).
Proof.
  cbn zeta. unfold determinePosition; cbn [x y].
  split; [|split; [|split; [|split]]].
  - intros Hw Hh. split; apply clip_bounds; assumption.
  - apply clip_collapse.
  - apply clip_collapse.
  - intros Hw. split; [apply clip_bounds; assumption|].
    split; [apply clip_low; assumption|].
    split; [apply clip_id|apply clip_high; assumption].
  - intros Hh. split; [apply clip_bounds; assumption|].
    split; [apply clip_low; assumption|].
    split; [apply clip_id|apply clip_high; assumption].
Qed.

Lemma determinePosition_clipped_witness :
  (let r := determinePosition (commonCtx (P right (Some end_)) 600) in
   0 <= x r <= 1000 - 50 /\ 0 <= y r <= 1000 - 50) /\
  x (determinePosition (mkCtx (P left None) 100 100 450 450 50 1100 1000 1000 0)) == 0 /\
  y (determinePosition (mkCtx (P top None) 100 100 450 450 1100 50 1000 1000 0)) == 0 /\
  y (determinePosition (mkCtx (P bottom None) 100 100 450 895 20 50 1000 1000 0)) == 980 /\
  x (determinePosition (mkCtx (P bottom None) 100 100 450 895 20 50 1000 1000 0)) == 475 /\
  x (determinePosition (mkCtx (P right None) 100 100 895 450 50 20 1000 1000 0)) == 980 /\
  y (determinePosition (mkCtx (P top None) 100 100 450 5 20 50 1000 1000 0)) == 0 /\
  x (determinePosition (mkCtx (P top None) 100 100 450 450 1100 50 1000 1000 0)) == 475.
Proof.
  split; [|split; [|split; [|split; [|split; [|split; [|split]]]]]].
  - pose proof (determinePosition_clipped
             (commonCtx (P right (Some end_)) 600)) as H.
    cbn zeta in H. destruct H as (Hb & _).
    apply Hb; vm_compute; discriminate.
  - pose proof (determinePosition_clipped
             (mkCtx (P left None) 100 100 450 450 50 1100 1000 1000 0)) as H.
    cbn zeta in H. destruct H as (_ & Hx & _).
    apply Hx. vm_compute; reflexivity.
  - pose proof (determinePosition_clipped
             (mkCtx (P top None) 100 100 450 450 1100 50 1000 1000 0)) as H.
    cbn zeta in H. destruct H as (_ & _ & Hy & _).
    apply Hy. vm_compute; reflexivity.
  - pose proof (determinePosition_clipped
             (mkCtx (P bottom None) 100 100 450 895 20 50 1000 1000 0)) as H.
    cbn zeta in H. destruct H as (_ & _ & _ & _ & Hy).
    destruct Hy as (_ & _ & _ & Hhi); [vm_compute; discriminate|].
    eapply Qeq_trans; [apply Hhi; vm_compute; reflexivity|vm_compute; reflexivity].
  - pose proof (determinePosition_clipped
             (mkCtx (P bottom None) 100 100 450 895 20 50 1000 1000 0)) as H.
    cbn zeta in H. destruct H as (_ & _ & _ & Hx & _).
    destruct Hx as (_ & _ & Hid & _); [vm_compute; discriminate|].
    eapply Qeq_trans; [apply Hid; vm_compute; split; discriminate|vm_compute; reflexivity].
  - pose proof (determinePosition_clipped
             (mkCtx (P right None) 100 100 895 450 50 20 1000 1000 0)) as H.
    cbn zeta in H. destruct H as (_ & _ & _ & Hx & _).
    destruct Hx as (_ & _ & _ & Hhi); [vm_compute; discriminate|].
    eapply Qeq_trans; [apply Hhi; vm_compute; reflexivity|vm_compute; reflexivity].
  - pose proof (determinePosition_clipped
             (mkCtx (P top None) 100 100 450 5 20 50 1000 1000 0)) as H.
    cbn zeta in H. destruct H as (_ & _ & _ & _ & Hy).
    destruct Hy as (_ & Hlo & _ & _); [vm_compute; discriminate|].
    apply Hlo. vm_compute; reflexivity.
  - pose proof (determinePosition_clipped
             (mkCtx (P top None) 100 100 450 450 1100 50 1000 1000 0)) as H.
    cbn zeta in H. destruct H as (_ & _ & _ & Hx & _).
    destruct Hx as (_ & _ & Hid & _); [vm_compute; discriminate|].
    eapply Qeq_trans; [apply Hid; vm_compute; split; discriminate|vm_compute; reflexivity].
Defined.

(** ** The dimension reader *)

Lemma getRect_miss (cache : gmap Element DOMRect) (e : Element) (w : World) :
  cache !! e = None ->
  getRect cache (JElem e) w
  = Ok (boundingRect w e, <[e := boundingRect w e]> cache)
       (emit (EGetBoundingClientRect e) w).
Proof.
  intros H. unfold getRect, bind. rewrite H. cbn.
  rewrite lookup_insert_eq. reflexivity.
Qed.

Lemma getRect_hit (cache : gmap Element DOMRect) (e : Element) (r : DOMRect) (w : World) :
  cache !! e = Some r ->
  getRect cache (JElem e) w = Ok (r, cache) w.
Proof.
  intros H. unfold getRect, bind. rewrite H. cbn. rewrite H. reflexivity.
Qed.

Lemma getDimensions_elements (reference popper : Element) (w : World) :
  getDimensions (JElem reference) (JElem popper) w
  = Ok (dimensions_of (boundingRect w reference) (boundingRect w popper))
       (measure_once reference popper w).
Proof.
  unfold getDimensions, measure_once. cbn [truthy negb orb]. unfold bind at 1.
  rewrite getRect_miss by apply lookup_empty.
  cbn [snd fst]. unfold bind at 1.
  destruct (decide (reference = popper)) as [->|Hne].
  - rewrite (getRect_hit _ popper (boundingRect w popper)) by apply lookup_insert_eq.
    reflexivity.
  - rewrite getRect_miss.
    + reflexivity.
    + rewrite lookup_insert_ne by congruence. apply lookup_empty.
Qed.

Lemma measurements_emit (e : Element) (ef : Effect) (w : World) :
  measurements e (log (emit ef w))
  = (measurements e (log w) + (if is_measure e ef then 1 else 0))%nat.
Proof.
  unfold measurements. cbn [log emit]. rewrite List.filter_app, length_app.
  cbn. destruct (is_measure e ef); reflexivity.
Qed.

Lemma measurements_measure_once (e reference popper : Element) (w : World) :
  measurements e (log (measure_once reference popper w))
  = (measurements e (log w)
     + (if bool_decide (e = reference \/ e = popper) then 1 else 0))%nat.
Proof.
  unfold measure_once. destruct (decide (reference = popper)) as [->|Hne].
  - rewrite measurements_emit. cbn [is_measure].
    destruct (Nat.eqb_spec e popper) as [->|Hn].
    + rewrite bool_decide_eq_true_2 by (left; reflexivity). reflexivity.
    + rewrite bool_decide_eq_false_2 by (intros [?|?]; congruence). reflexivity.
  - rewrite !measurements_emit. cbn [is_measure].
    destruct (Nat.eqb_spec e popper) as [Heq1|Hn1];
      destruct (Nat.eqb_spec e reference) as [Heq2|Hn2].
    + congruence.
    + rewrite bool_decide_eq_true_2 by (right; assumption). lia.
    + rewrite bool_decide_eq_true_2 by (left; assumption). lia.
    + rewrite bool_decide_eq_false_2 by (intros [?|?]; congruence). lia.
Qed.

(** The scenario of the specification: the reference rectangle
    [{left: 10, top: 20, width: 100, height: 50}] and a 60 by 30 popper. *)
Example getDimensions_scenario :
  match getDimensions (JElem referenceEl) (JElem popperEl) page with
  | Ok d _ =>
      dimensions_eqb d
        {| dim_popperHeight := 30; dim_popperWidth := 60; dim_refHeight := 50;
           dim_refWidth := 100; dim_refLeft := 10; dim_refTop := 20;
           dim_refRight := 110 |}
  | Throw _ _ => false
  end = true.
Proof. vm_compute. reflexivity. Qed.

Lemma rect_right_left_width (r : DOMRect) :
  0 <= rect_width r -> rect_right r == rect_left r + rect_width r.
Proof.
  intros H. unfold rect_right, rect_left.
  destruct (Q.min_spec (rect_x r) (rect_x r + rect_width r)) as [[? Hm]|[? Hm]];
    destruct (Q.max_spec (rect_x r) (rect_x r + rect_width r)) as [[? HM]|[? HM]];
    rewrite HM, Hm; lra.
Qed.

(** C7: for two elements, [getDimensions] returns the flat record read
    off their bounding rectangles, with [refRight] the reference's right
    edge, [refLeft + refWidth]; one call invokes [getBoundingClientRect]
    exactly once on each distinct element (once in all when reference and
    popper are the same element); and nothing is remembered: a second call
    returns the same record and measures each element once more. *)
Theorem getDimensions_measures_once (reference popper : Element) (w : World) :
  0 <= rect_width (boundingRect w reference) ->
  exists d w1 w2,
    getDimensions (JElem reference) (JElem popper) w = Ok d w1 /\
    dim_refLeft d = rect_left (boundingRect w reference) /\
    dim_refTop d = rect_top (boundingRect w reference) /\
    dim_refWidth d = rect_width (boundingRect w reference) /\
    dim_refHeight d = rect_height (boundingRect w reference) /\
    dim_refRight d = rect_right (boundingRect w reference) /\
    dim_popperWidth d = rect_width (boundingRect w popper) /\
    dim_popperHeight d = rect_height (boundingRect w popper) /\
    dim_refRight d == dim_refLeft d + dim_refWidth d /\
    (forall e, measurements e (log w1)
               = (measurements e (log w) + measured e reference popper)%nat) /\
    getDimensions (JElem reference) (JElem popper) w1 = Ok d w2 /\
    (forall e, measurements e (log w2)
               = (measurements e (log w1) + measured e reference popper)%nat).
Proof.
  intros Hw.
  exists (dimensions_of (boundingRect w reference) (boundingRect w popper)),
         (measure_once reference popper w),
         (measure_once reference popper (measure_once reference popper w)).
  assert (Hrect : boundingRect (measure_once reference popper w) = boundingRect w).
  { unfold measure_once. destruct (decide (reference = popper)); reflexivity. }
  repeat split; try reflexivity.
  - apply getDimensions_elements.
  - cbn. apply rect_right_left_width. exact Hw.
  - intros e. apply measurements_measure_once.
  - rewrite getDimensions_elements, Hrect. reflexivity.
  - intros e. apply measurements_measure_once.
Qed.

Lemma getDimensions_measures_once_witness :
  exists d w1,
    getDimensions (JElem popperEl) (JElem popperEl) page = Ok d w1 /\
    measurements popperEl (log w1) = 1%nat.
Proof.
  assert (H : 0 <= rect_width (boundingRect page popperEl)) by (vm_compute; discriminate).
  destruct (getDimensions_measures_once popperEl popperEl page H)
    as (d & w1 & w2 & H1 & _ & _ & _ & _ & _ & _ & _ & _ & Hm & _).
  exists d, w1. split; [exact H1|]. rewrite Hm. reflexivity.
Defined.

(** ** The browser functions: what they leave alone, what they log *)

Lemma same_layout_refl w : same_layout w w.
Proof. repeat split. Qed.

Lemma same_layout_trans w1 w2 w3 :
  same_layout w1 w2 -> same_layout w2 w3 -> same_layout w1 w3.
Proof. unfold same_layout. intros (?&?&?) (?&?&?). repeat split; congruence. Qed.

Lemma measure_once_layout r p w : same_layout w (measure_once r p w).
Proof. unfold measure_once. destruct (decide (r = p)); repeat split. Qed.

Lemma w_when_layout b f w :
  (forall w, same_layout w (f w)) -> same_layout w (w_when b f w).
Proof. intros H. destruct b; cbn; [apply H | apply same_layout_refl]. Qed.

Lemma w_initPlacement_layout r p pl off u w :
  same_layout w (w_initPlacement r p pl off u w).
Proof.
  unfold w_initPlacement, w_onUpdate.
  pose proof (measure_once_layout r p (w_setInitialStyles p w)) as (?&?&?).
  destruct u; repeat split; cbn; assumption.
Qed.

Lemma w_attach_layout cb dr ds w : same_layout w (w_attach cb dr ds w).
Proof. unfold w_attach. destruct dr, ds; repeat split. Qed.

Lemma w_clean_layout cb dr ds w : same_layout w (w_clean cb dr ds w).
Proof. unfold w_clean. destruct dr, ds; repeat split. Qed.

Lemma resolve_layout r p pl off w w' :
  same_layout w w' -> resolve r p pl off w' = resolve r p pl off w.
Proof. intros (H1&H2&H3). unfold resolve. rewrite H1, H2, H3. reflexivity. Qed.

Lemma log_measure_once r p w :
  log (measure_once r p w) = (log w ++ measure_effects r p)%list.
Proof.
  unfold measure_once, measure_effects. destruct (decide (r = p)); cbn.
  - reflexivity.
  - rewrite <- app_assoc. reflexivity.
Qed.

Lemma log_w_initPlacement r p pl off u w :
  log (w_initPlacement r p pl off u w)
  = (log w ++ [ESetProperty p prop_x css_empty; ESetProperty p prop_y css_empty]
       ++ measure_effects r p
       ++ [ESetProperty p prop_x (css_px (x (resolve r p pl off w)));
           ESetProperty p prop_y (css_px (y (resolve r p pl off w)))]
       ++ onUpdate_effects u (resolve r p pl off w) pl)%list.
Proof.
  unfold w_initPlacement, w_onUpdate, onUpdate_effects.
  destruct u; cbn [log emit w_setProperty set_styles];
    rewrite log_measure_once; cbn [log emit w_setInitialStyles w_setProperty set_styles];
    repeat rewrite <- app_assoc; cbn [app]; try rewrite app_nil_r; reflexivity.
Qed.

Lemma log_w_attach cb dr ds w :
  log (w_attach cb dr ds w)
  = (log w ++ emitted (negb dr) (EAddEventListener (Window, "resize", cb))
       ++ emitted (negb ds) (EAddEventListener (Window, "scroll", cb)))%list.
Proof.
  unfold w_attach. destruct dr, ds; cbn; rewrite <- ?app_assoc, ?app_nil_r; reflexivity.
Qed.

Lemma log_w_clean cb dr ds w :
  log (w_clean cb dr ds w)
  = (log w ++ emitted (negb dr) (ERemoveEventListener (Window, "resize", cb))
       ++ emitted (negb ds) (ERemoveEventListener (Window, "scroll", cb)))%list.
Proof.
  unfold w_clean. destruct dr, ds; cbn; rewrite <- ?app_assoc, ?app_nil_r; reflexivity.
Qed.

Lemma since_app w w' l : log w' = (log w ++ l)%list -> since w w' = l.
Proof. intros H. unfold since. rewrite H. apply drop_app_length. Qed.

Lemma onUpdate_calls_app l1 l2 :
  onUpdate_calls (l1 ++ l2) = (onUpdate_calls l1 ++ onUpdate_calls l2)%list.
Proof. apply flat_map_app. Qed.

Lemma onUpdate_calls_measure r p : onUpdate_calls (measure_effects r p) = [].
Proof. unfold measure_effects. destruct (decide (r = p)); reflexivity. Qed.

Lemma onUpdate_calls_listener b l :
  onUpdate_calls (emitted b (EAddEventListener l)) = [] /\
  onUpdate_calls (emitted b (ERemoveEventListener l)) = [].
Proof. destruct b; split; reflexivity. Qed.

Lemma onUpdate_calls_onUpdate u c pl :
  onUpdate_calls (onUpdate_effects u c pl) = if u then [(x c, y c, pl)] else [].
Proof. destruct u; reflexivity. Qed.

Lemma measurements_app e l1 l2 :
  length (List.filter (is_measure e) (l1 ++ l2))
  = (length (List.filter (is_measure e) l1)
     + length (List.filter (is_measure e) l2))%nat.
Proof. rewrite List.filter_app, length_app. reflexivity. Qed.

Lemma styles_w_initPlacement r p pl off u w :
  styles (w_initPlacement r p pl off u w) !! (p, prop_x)
    = Some (css_px (x (resolve r p pl off w))) /\
  styles (w_initPlacement r p pl off u w) !! (p, prop_y)
    = Some (css_px (y (resolve r p pl off w))).
Proof.
  unfold w_initPlacement, w_onUpdate.
  destruct u; cbn [styles emit w_setProperty set_styles]; split.
  all: try (rewrite lookup_insert_ne by (unfold prop_x, prop_y; congruence)).
  all: apply lookup_insert_eq.
Qed.

Lemma styles_w_attach cb dr ds w : styles (w_attach cb dr ds w) = styles w.
Proof. unfold w_attach. destruct dr, ds; reflexivity. Qed.

Lemma styles_w_clean cb dr ds w : styles (w_clean cb dr ds w) = styles w.
Proof. unfold w_clean. destruct dr, ds; reflexivity. Qed.

Lemma listeners_w_initPlacement r p pl off u w :
  listeners (w_initPlacement r p pl off u w) = listeners w.
Proof.
  unfold w_initPlacement, w_onUpdate, measure_once.
  destruct u, (decide (r = p)); reflexivity.
Qed.

(** ** popper.ts: what the methods compute *)

Lemma when_modify b f w : when b (modify f) w = Ok tt (w_when b f w).
Proof. destruct b; reflexivity. Qed.

Lemma Popper_validateElements_number this w :
  typeof_number (Popper.offsetDistance this) = true ->
  Popper.validateElements this w = Ok tt w.
Proof. intros H. unfold Popper.validateElements. cbn. rewrite H. reflexivity. Qed.

Lemma Popper_validateElements_throw this w :
  typeof_number (Popper.offsetDistance this) = false ->
  Popper.validateElements this w = Throw InvalidOffsetDistance w.
Proof. intros H. unfold Popper.validateElements. cbn. rewrite H. reflexivity. Qed.

Lemma Popper_initPlacement_eq this pl off w :
  typeof_number (Popper.offsetDistance this) = true ->
  Popper.initPlacement this pl off w
  = Ok tt (w_initPlacement (Popper.reference this) (Popper.popper this)
             (or_placement pl (Popper.placement this))
             (or_num off (num_of (Popper.offsetDistance this)))
             (Popper.onUpdate this) w).
Proof.
  intros H. unfold Popper.initPlacement.
  unfold bind at 1. rewrite Popper_validateElements_number by exact H.
  unfold bind at 1. unfold Popper.setInitialStyles at 1.
  change (bind (setProperty ?e prop_x css_empty) _ w)
    with (Ok tt (w_setInitialStyles e w)).
  unfold bind at 1, gets at 1. unfold bind at 1, gets at 1.
  unfold bind at 1. rewrite getDimensions_elements.
  unfold w_initPlacement, Popper.setPopperStyleProperty, w_onUpdate, or_placement.
  destruct (Popper.onUpdate this); reflexivity.
Qed.

Lemma Popper_initPlacement_throw this pl off w :
  typeof_number (Popper.offsetDistance this) = false ->
  Popper.initPlacement this pl off w = Throw InvalidOffsetDistance w.
Proof.
  intros H. unfold Popper.initPlacement.
  unfold bind at 1. rewrite Popper_validateElements_throw by exact H. reflexivity.
Qed.

Lemma Popper_attachWindowEvent_eq this w :
  Popper.attachWindowEvent this w
  = Ok (Popper.set_isEventRegistrer true this)
       (w_attach (initPositionate (Popper.self this))
                 (Popper.disableOnResize this) (Popper.disableOnScroll this) w).
Proof.
  unfold Popper.attachWindowEvent, w_attach, addEventListener.
  unfold bind at 1. rewrite when_modify.
  unfold bind at 1. rewrite when_modify. reflexivity.
Qed.

Lemma Popper_cleanEvents_eq this w :
  Popper.cleanEvents this w
  = Ok tt (w_clean (initPositionate (Popper.self this))
                   (Popper.disableOnResize this) (Popper.disableOnScroll this) w).
Proof.
  unfold Popper.cleanEvents, w_clean, removeEventListener.
  unfold bind at 1. rewrite when_modify. rewrite when_modify. reflexivity.
Qed.

Lemma Popper_updatePosition_eq this w :
  typeof_number (Popper.offsetDistance this) = true ->
  Popper.updatePosition this w
  = Ok (Popper.set_isEventRegistrer true this)
       (w_attach (initPositionate (Popper.self this))
          (Popper.disableOnResize this) (Popper.disableOnScroll this)
          (w_initPlacement (Popper.reference this) (Popper.popper this)
             (Popper.placement this) (num_of (Popper.offsetDistance this))
             (Popper.onUpdate this) w)).
Proof.
  intros H. unfold Popper.updatePosition, Popper.initPositionate_.
  unfold bind at 1. rewrite Popper_initPlacement_eq by exact H.
  apply Popper_attachWindowEvent_eq.
Qed.

Lemma Popper_updatePosition_throw this w :
  typeof_number (Popper.offsetDistance this) = false ->
  Popper.updatePosition this w = Throw InvalidOffsetDistance w.
Proof.
  intros H. unfold Popper.updatePosition, Popper.initPositionate_.
  unfold bind at 1. rewrite Popper_initPlacement_throw by exact H. reflexivity.
Qed.

Lemma Popper_setOptions_eq this pl off w :
  typeof_number (Popper.offsetDistance this) = true ->
  Popper.setOptions this pl off w
  = Ok (Popper.set_isEventRegistrer true this)
       (w_attach (initPositionate (Popper.self this))
          (Popper.disableOnResize this) (Popper.disableOnScroll this)
          (w_when (Popper.isEventRegistrer this)
             (w_clean (initPositionate (Popper.self this))
                (Popper.disableOnResize this) (Popper.disableOnScroll this))
             (w_initPlacement (Popper.reference this) (Popper.popper this)
                pl (or_num off (num_of (Popper.offsetDistance this)))
                (Popper.onUpdate this) w))).
Proof.
  intros H. unfold Popper.setOptions.
  unfold bind at 1. rewrite Popper_initPlacement_eq by exact H.
  unfold bind at 1. cbn [or_placement].
  destruct (Popper.isEventRegistrer this); cbn [when w_when].
  - rewrite Popper_cleanEvents_eq. apply Popper_attachWindowEvent_eq.
  - unfold ret at 1. apply Popper_attachWindowEvent_eq.
Qed.

Lemma Popper_cleanupEvents_eq this w :
  Popper.cleanupEvents this w
  = Ok (Popper.set_isEventRegistrer false this)
       (w_when (Popper.isEventRegistrer this)
          (w_clean (initPositionate (Popper.self this))
             (Popper.disableOnResize this) (Popper.disableOnScroll this))
          (w_setInitialStyles (Popper.popper this) w)).
Proof.
  unfold Popper.cleanupEvents. unfold bind at 1.
  change (Popper.setInitialStyles this w)
    with (Ok tt (w_setInitialStyles (Popper.popper this) w)).
  cbv beta iota.
  destruct (Popper.isEventRegistrer this) eqn:E; cbn [w_when].
  - unfold bind at 1. rewrite Popper_cleanEvents_eq. reflexivity.
  - unfold ret. f_equal. destruct this; cbn in *; subst; reflexivity.
Qed.

Lemma measurements_w_setProperty e p n v w :
  measurements e (log (w_setProperty p n v w)) = measurements e (log w).
Proof.
  unfold w_setProperty. rewrite measurements_emit.
  cbn [is_measure log set_styles]. apply Nat.add_0_r.
Qed.

Lemma measurements_w_initPlacement e r p pl off u w :
  measurements e (log (w_initPlacement r p pl off u w))
  = (measurements e (log w) + measured e r p)%nat.
Proof.
  unfold w_initPlacement, w_onUpdate, w_setInitialStyles, measured.
  destruct u; [rewrite measurements_emit; cbn [is_measure]|];
    rewrite !measurements_w_setProperty, measurements_measure_once,
            !measurements_w_setProperty; lia.
Qed.

Lemma measurements_w_attach e cb dr ds w :
  measurements e (log (w_attach cb dr ds w)) = measurements e (log w).
Proof.
  unfold w_attach, w_when.
  destruct dr, ds; cbn [negb]; unfold w_addEventListener;
    repeat first [rewrite measurements_emit
                 | progress cbn [is_measure log set_listeners]];
    rewrite ?Nat.add_0_r; reflexivity.
Qed.

(** ** Repositioning *)

(** C8: two calls of [updatePosition] with nothing changed in between
    (same rectangles, same window size, same configuration) leave the same
    values in the two position custom properties and invoke [onUpdate]
    with the same [{x, y, placement}]; each call measures both elements
    again. *)
Theorem updatePosition_idempotent (this : Popper.CreatePopper) (w : World) :
  typeof_number (Popper.offsetDistance this) = true ->
  let c := resolve (Popper.reference this) (Popper.popper this)
             (Popper.placement this) (num_of (Popper.offsetDistance this)) w in
  exists this1 w1 this2 w2,
    Popper.updatePosition this w = Ok this1 w1 /\
    Popper.updatePosition this1 w1 = Ok this2 w2 /\
    styles w1 !! (Popper.popper this, prop_x) = Some (css_px (x c)) /\
    styles w1 !! (Popper.popper this, prop_y) = Some (css_px (y c)) /\
    styles w2 !! (Popper.popper this, prop_x) = styles w1 !! (Popper.popper this, prop_x) /\
    styles w2 !! (Popper.popper this, prop_y) = styles w1 !! (Popper.popper this, prop_y) /\
    onUpdate_calls (since w w1)
      = (if Popper.onUpdate this then [(x c, y c, Popper.placement this)] else []) /\
    onUpdate_calls (since w1 w2) = onUpdate_calls (since w w1) /\
    (forall e, measurements e (log w1)
               = (measurements e (log w)
                  + measured e (Popper.reference this) (Popper.popper this))%nat) /\
    (forall e, measurements e (log w2)
               = (measurements e (log w1)
                  + measured e (Popper.reference this) (Popper.popper this))%nat).
Proof.
  intros H c.
  set (this1 := Popper.set_isEventRegistrer true this).
  assert (H1 : typeof_number (Popper.offsetDistance this1) = true) by exact H.
  pose proof (Popper_updatePosition_eq this w H) as E1.
  pose proof (Popper_updatePosition_eq this1 (world_of (Popper.updatePosition this w)) H1) as E2.
  rewrite E1 in E2. cbn [world_of] in E2.
  cbn [this1 Popper.set_isEventRegistrer Popper.self Popper.disableOnResize
       Popper.disableOnScroll Popper.reference Popper.popper Popper.placement
       Popper.offsetDistance Popper.onUpdate] in E2.
  set (cb := initPositionate (Popper.self this)) in *.
  set (dr := Popper.disableOnResize this) in *.
  set (ds := Popper.disableOnScroll this) in *.
  set (r := Popper.reference this) in *.
  set (p := Popper.popper this) in *.
  set (pl := Popper.placement this) in *.
  set (off := num_of (Popper.offsetDistance this)) in *.
  set (u := Popper.onUpdate this) in *.
  set (w1 := w_attach cb dr ds (w_initPlacement r p pl off u w)) in *.
  set (w2 := w_attach cb dr ds (w_initPlacement r p pl off u w1)) in *.
  assert (L1 : same_layout w w1).
  { eapply same_layout_trans; [apply w_initPlacement_layout | apply w_attach_layout]. }
  assert (R1 : resolve r p pl off w1 = c) by (apply resolve_layout; exact L1).
  assert (S1 : styles w1 !! (p, prop_x) = Some (css_px (x c)) /\
               styles w1 !! (p, prop_y) = Some (css_px (y c))).
  { unfold w1. rewrite styles_w_attach. apply styles_w_initPlacement. }
  assert (S2 : styles w2 !! (p, prop_x) = Some (css_px (x c)) /\
               styles w2 !! (p, prop_y) = Some (css_px (y c))).
  { unfold w2. rewrite styles_w_attach, <- R1. apply styles_w_initPlacement. }
  assert (C1 : onUpdate_calls (since w w1) = if u then [(x c, y c, pl)] else []).
  { erewrite since_app.
    2:{ unfold w1. rewrite log_w_attach, log_w_initPlacement.
        rewrite <- app_assoc. reflexivity. }
    rewrite !onUpdate_calls_app, onUpdate_calls_measure, onUpdate_calls_onUpdate.
    rewrite !(proj1 (onUpdate_calls_listener _ _)). cbn. rewrite app_nil_r.
    reflexivity. }
  assert (C2 : onUpdate_calls (since w1 w2) = if u then [(x c, y c, pl)] else []).
  { erewrite since_app.
    2:{ unfold w2. rewrite log_w_attach, log_w_initPlacement.
        rewrite <- app_assoc. reflexivity. }
    rewrite R1.
    rewrite !onUpdate_calls_app, onUpdate_calls_measure, onUpdate_calls_onUpdate.
    rewrite !(proj1 (onUpdate_calls_listener _ _)). cbn. rewrite app_nil_r.
    reflexivity. }
  exists this1, w1, (Popper.set_isEventRegistrer true this1), w2.
  destruct S1 as [S1x S1y], S2 as [S2x S2y].
  split; [exact E1|]. split; [exact E2|].
  split; [exact S1x|]. split; [exact S1y|].
  split; [congruence|]. split; [congruence|].
  split; [exact C1|]. split; [congruence|].
  split; intros e.
  - unfold w1. rewrite measurements_w_attach. apply measurements_w_initPlacement.
  - unfold w2. rewrite measurements_w_attach. apply measurements_w_initPlacement.
Qed.

Lemma updatePosition_idempotent_witness :
  exists this1 w1 this2 w2,
    Popper.updatePosition pagePopper page = Ok this1 w1 /\
    Popper.updatePosition this1 w1 = Ok this2 w2 /\
    styles w2 !! (popperEl, prop_x) = styles w1 !! (popperEl, prop_x) /\
    styles w2 !! (popperEl, prop_y) = styles w1 !! (popperEl, prop_y) /\
    onUpdate_calls (since w1 w2) = onUpdate_calls (since page w1).
Proof.
  destruct (updatePosition_idempotent pagePopper page eq_refl)
    as (this1 & w1 & this2 & w2 & E1 & E2 & _ & _ & Sx & Sy & _ & C & _).
  exists this1, w1, this2, w2. repeat split; assumption.
Defined.

(** ** Construction *)

Lemma Popper_constructor_invalid_reference reference popper options w :
  instanceof_HTMLElement reference = false ->
  Popper.constructor reference popper options w = Throw InvalidReferenceElement w.
Proof. intros H. unfold Popper.constructor. rewrite H. reflexivity. Qed.

Lemma Popper_constructor_invalid_popper reference popper options w :
  instanceof_HTMLElement reference = true ->
  instanceof_HTMLElement popper = false ->
  Popper.constructor reference popper options w = Throw InvalidPopperElement w.
Proof. intros H1 H2. unfold Popper.constructor. rewrite H1, H2. reflexivity. Qed.

Lemma Popper_constructor_invalid_offset reference popper options w :
  instanceof_HTMLElement reference = true ->
  instanceof_HTMLElement popper = true ->
  truthy (opt_offsetDistance options) = true ->
  typeof_number (opt_offsetDistance options) = false ->
  Popper.constructor reference popper options w = Throw InvalidOffsetDistance w.
Proof.
  intros H1 H2 H3 H4. unfold Popper.constructor. rewrite H1, H2, H3, H4. reflexivity.
Qed.

(** A successful construction positions nothing: no style is written, no
    listener attached, no effect logged. *)
Lemma Popper_constructor_no_positioning reference popper options w this w' :
  Popper.constructor reference popper options w = Ok this w' ->
  styles w' = styles w /\ listeners w' = listeners w /\ log w' = log w /\
  Popper.isEventRegistrer this = false.
Proof.
  unfold Popper.constructor.
  destruct (instanceof_HTMLElement reference); [|discriminate].
  destruct (instanceof_HTMLElement popper); [|discriminate].
  destruct (truthy (opt_offsetDistance options)
            && negb (typeof_number (opt_offsetDistance options))); [discriminate|].
  cbn. intros [= <- <-]. repeat split.
Qed.

(** Any falsy [offsetDistance] passes the constructor's check, numeric or
    not, and is stored unless it is [undefined]. *)
Lemma Popper_constructor_accepts_falsy (reference popper : Element) options w :
  truthy (opt_offsetDistance options) = false ->
  exists this,
    Popper.constructor (JElem reference) (JElem popper) options w
      = Ok this (set_nextId S w) /\
    Popper.offsetDistance this
      = match opt_offsetDistance options with
        | JUndefined => DEFAULT_OFFSETDISTANCE
        | v => v
        end.
Proof.
  intros H. unfold Popper.constructor. cbn [instanceof_HTMLElement negb].
  rewrite H. cbn [andb]. eexists. split; reflexivity.
Qed.

(** C6, at the input where the code departs from it: the empty string is a
    supplied, non-numeric [offsetDistance], yet the constructor returns a
    controller holding it; the error only surfaces at the first
    [updatePosition], from [validateElements]. *)
Theorem constructor_accepts_empty_string_offset :
  exists this w',
    Popper.constructor (JElem referenceEl) (JElem popperEl) emptyStringOffset page
      = Ok this w' /\
    Popper.offsetDistance this = JStr EmptyString /\
    typeof_number (opt_offsetDistance emptyStringOffset) = false /\
    Popper.updatePosition this w' = Throw InvalidOffsetDistance w'.
Proof.
  eexists _, _. split; [reflexivity|]. split; [reflexivity|].
  split; [reflexivity|]. apply Popper_updatePosition_throw. reflexivity.
Qed.

(** ** setOptions *)

Lemma Popper_setOptions_keeps_configuration this pl off w this' w' :
  Popper.setOptions this pl off w = Ok this' w' ->
  Popper.placement this' = Popper.placement this /\
  Popper.offsetDistance this' = Popper.offsetDistance this.
Proof.
  destruct (typeof_number (Popper.offsetDistance this)) eqn:H.
  - rewrite Popper_setOptions_eq by exact H. intros [= <- _]. split; reflexivity.
  - unfold Popper.setOptions. unfold bind at 1.
    rewrite Popper_initPlacement_throw by exact H. discriminate.
Qed.

(** C3, at the input where [popper.ts] departs from it: after
    [setOptions({placement: "top"})] the stored placement is still
    ["bottom"], and the next resize repositions with it: [onUpdate] sees
    ["bottom"], ["top"], ["bottom"]. *)
Theorem setOptions_placement_not_stored :
  exists this w',
    scenario_setOptions_then_resize page = Ok this w' /\
    Popper.placement this = mkPlacement bottom None /\
    onUpdate_placements (log w')
      = [mkPlacement bottom None; mkPlacement top None; mkPlacement bottom None].
Proof.
  eexists _, _. split; [vm_compute; reflexivity|]. split; reflexivity.
Qed.

(** *** Listener lists *)

Lemma elem_of_add_listener (l l' : Listener) (ls : list Listener) :
  l' ∈ add_listener l ls <-> l' = l \/ l' ∈ ls.
Proof.
  unfold add_listener, has_listener. case_bool_decide as H.
  - split; [auto|]. intros [->|?]; assumption.
  - split.
    + intros Hin. apply elem_of_app in Hin as [?|Hin]; [auto|].
      apply list_elem_of_singleton in Hin. auto.
    + intros [->|?]; apply elem_of_app; [right; apply list_elem_of_singleton|left];
        auto.
Qed.

Lemma elem_of_remove_listener (l l' : Listener) (ls : list Listener) :
  l' ∈ remove_listener l ls <-> l' <> l /\ l' ∈ ls.
Proof.
  unfold remove_listener.
  exact (list_elem_of_filter (fun x => x <> l) ls l').
Qed.

Lemma NoDup_add_listener (l : Listener) (ls : list Listener) :
  NoDup ls -> NoDup (add_listener l ls).
Proof.
  intros H. unfold add_listener, has_listener. case_bool_decide as Hin; [assumption|].
  apply NoDup_app. split; [assumption|]. split; [|apply NoDup_singleton].
  intros x Hx Hx'. apply list_elem_of_singleton in Hx'. subst. contradiction.
Qed.

Lemma NoDup_remove_listener (l : Listener) (ls : list Listener) :
  NoDup ls -> NoDup (remove_listener l ls).
Proof. apply NoDup_filter. Qed.

Lemma w_when_false f w : w_when false f w = w.
Proof. reflexivity. Qed.

Lemma listeners_w_attach cb dr ds w :
  listeners (w_attach cb dr ds w)
  = (if ds then (fun ls => ls) else add_listener (Window, "scroll", cb))
      ((if dr then (fun ls => ls) else add_listener (Window, "resize", cb))
         (listeners w)).
Proof. destruct dr, ds; reflexivity. Qed.

Lemma listeners_w_clean cb dr ds w :
  listeners (w_clean cb dr ds w)
  = (if ds then (fun ls => ls) else remove_listener (Window, "scroll", cb))
      ((if dr then (fun ls => ls) else remove_listener (Window, "resize", cb))
         (listeners w)).
Proof. destruct dr, ds; reflexivity. Qed.

Lemma resize_neq_scroll (cb : Callback) : (Window, "resize", cb) <> (Window, "scroll", cb).
Proof. intros [=]. Qed.

(** Attaching, whether or not the controller's listeners were detached
    first, leaves them attached exactly per the flags, and once. *)
Lemma attach_per_flags cb dr ds (reg : bool) w :
  listeners_wf cb dr ds w ->
  let w' := w_attach cb dr ds (w_when reg (w_clean cb dr ds) w) in
  attached_per_flags cb dr ds w' /\ listeners_wf cb dr ds w' /\ others_kept cb w w'.
Proof.
  intros (Hnd & Hr & Hs) w'. unfold attached_per_flags, listeners_wf, others_kept, attached in *.
  pose proof (resize_neq_scroll cb) as Hne.
  assert (Hl : forall l, l ∈ listeners w'
                 <-> (ds = false /\ l = (Window, "scroll", cb))
                     \/ (dr = false /\ l = (Window, "resize", cb))
                     \/ (l ∈ listeners w
                         /\ (reg = true -> dr = false -> l <> (Window, "resize", cb))
                         /\ (reg = true -> ds = false -> l <> (Window, "scroll", cb)))).
  { intros l. unfold w'. rewrite listeners_w_attach.
    destruct reg; cbn [w_when]; [rewrite listeners_w_clean|];
      destruct dr, ds;
      rewrite ?elem_of_add_listener, ?elem_of_remove_listener;
      intuition congruence. }
  assert (Hnd' : NoDup (listeners w')).
  { unfold w'. rewrite listeners_w_attach.
    destruct reg; cbn [w_when]; [rewrite listeners_w_clean|];
      destruct dr, ds;
      repeat first [apply NoDup_add_listener | apply NoDup_remove_listener];
      exact Hnd. }
  repeat split.
  - intros Hin. apply Hl in Hin. destruct dr; [|reflexivity].
    exfalso. destruct Hin as [[_ ?]|[[? _]|[Hin _]]];
      [congruence | discriminate | exact (Hr eq_refl Hin)].
  - intros ->. apply Hl. right. left. auto.
  - intros Hin. apply Hl in Hin. destruct ds; [|reflexivity].
    exfalso. destruct Hin as [[? _]|[[_ ?]|[Hin _]]];
      [discriminate | congruence | exact (Hs eq_refl Hin)].
  - intros ->. apply Hl. left. auto.
  - exact Hnd'.
  - intros -> Hin. apply Hl in Hin.
    destruct Hin as [[_ ?]|[[? _]|[Hin _]]];
      [congruence | discriminate | exact (Hr eq_refl Hin)].
  - intros -> Hin. apply Hl in Hin.
    destruct Hin as [[? _]|[[_ ?]|[Hin _]]];
      [discriminate | congruence | exact (Hs eq_refl Hin)].
  - intros Hin. apply Hl in Hin. destruct Hin as [[_ ?]|[[_ ?]|[Hin _]]];
      [contradiction | contradiction | exact Hin].
  - intros Hin. apply Hl. right. right. split; [exact Hin|]. split; intros; assumption.
Qed.

(** On [popper.ts] the listener half of what the specification says of
    [setOptions] does hold: whatever was attached before, the listeners end up
    attached exactly per the flags, each once. *)
Lemma Popper_setOptions_listeners this pl off w :
  typeof_number (Popper.offsetDistance this) = true ->
  listeners_wf (initPositionate (Popper.self this))
               (Popper.disableOnResize this) (Popper.disableOnScroll this) w ->
  exists this' w',
    Popper.setOptions this pl off w = Ok this' w' /\
    Popper.isEventRegistrer this' = true /\
    attached_per_flags (initPositionate (Popper.self this))
      (Popper.disableOnResize this) (Popper.disableOnScroll this) w' /\
    listeners_wf (initPositionate (Popper.self this))
      (Popper.disableOnResize this) (Popper.disableOnScroll this) w' /\
    others_kept (initPositionate (Popper.self this)) w w'.
Proof.
  intros H Hwf. eexists _, _. split; [apply Popper_setOptions_eq; exact H|].
  split; [reflexivity|].
  set (w0 := w_initPlacement _ _ _ _ _ w).
  assert (Hl : listeners w0 = listeners w) by apply listeners_w_initPlacement.
  assert (Hwf0 : listeners_wf (initPositionate (Popper.self this))
                   (Popper.disableOnResize this) (Popper.disableOnScroll this) w0).
  { unfold listeners_wf, attached in *. rewrite Hl. exact Hwf. }
  destruct (attach_per_flags _ _ _ (Popper.isEventRegistrer this) w0 Hwf0)
    as (Ha & Hw & Ho).
  split; [exact Ha|]. split; [exact Hw|].
  unfold others_kept in *. rewrite <- Hl. exact Ho.
Qed.

(** ** The second implementation: what the methods compute *)

Lemma PopperDup_initPlacement_eq this w :
  typeof_number (PopperDup.offsetDistance this) = true ->
  PopperDup.initPlacement this w
  = Ok tt (w_initPlacement (PopperDup.reference this) (PopperDup.popper this)
             (PopperDup.placement this) (num_of (PopperDup.offsetDistance this))
             (PopperDup.onUpdate this) w).
Proof.
  intros H. unfold PopperDup.initPlacement, PopperDup.validateElements.
  cbn [instanceof_HTMLElement negb]. rewrite H. cbn [negb].
  unfold bind at 1. unfold ret at 1.
  unfold bind at 1. unfold PopperDup.setInitialStyles at 1.
  change (bind (setProperty ?e prop_x css_empty) _ w)
    with (Ok tt (w_setInitialStyles e w)).
  unfold bind at 1, gets at 1. unfold bind at 1, gets at 1.
  unfold bind at 1. rewrite getDimensions_elements.
  unfold w_initPlacement, PopperDup.setPopperStyleProperty, w_onUpdate.
  destruct (PopperDup.onUpdate this); reflexivity.
Qed.

Lemma PopperDup_removeWindowEvents_eq this w :
  PopperDup.removeWindowEvents this w
  = Ok (PopperDup.set_isWindowEventsRegistered false this)
       (w_when (PopperDup.isWindowEventsRegistered this)
          (w_clean (updatePosition_ (PopperDup.self this))
             (PopperDup.disableOnResize this) (PopperDup.disableOnScroll this)) w).
Proof.
  unfold PopperDup.removeWindowEvents, w_clean, removeEventListener.
  destruct (PopperDup.isWindowEventsRegistered this) eqn:E; cbn [w_when].
  - unfold bind at 1. rewrite when_modify.
    unfold bind at 1. rewrite when_modify. reflexivity.
  - unfold ret. f_equal. destruct this; cbn in *; subst; reflexivity.
Qed.

Lemma PopperDup_attachWindowEvent_eq this w :
  PopperDup.attachWindowEvent this w
  = Ok (PopperDup.set_isWindowEventsRegistered true this)
       (w_attach (updatePosition_ (PopperDup.self this))
          (PopperDup.disableOnResize this) (PopperDup.disableOnScroll this)
          (w_when (PopperDup.isWindowEventsRegistered this)
             (w_clean (updatePosition_ (PopperDup.self this))
                (PopperDup.disableOnResize this) (PopperDup.disableOnScroll this)) w)).
Proof.
  unfold PopperDup.attachWindowEvent, w_attach, addEventListener.
  unfold bind at 1.
  destruct (PopperDup.isWindowEventsRegistered this) eqn:E.
  - rewrite PopperDup_removeWindowEvents_eq, E. cbn [w_when].
    unfold bind at 1. rewrite when_modify.
    unfold bind at 1. rewrite when_modify. reflexivity.
  - unfold ret at 1. cbn [w_when].
    unfold bind at 1. rewrite when_modify.
    unfold bind at 1. rewrite when_modify. reflexivity.
Qed.

Lemma PopperDup_updatePosition_eq this w :
  typeof_number (PopperDup.offsetDistance this) = true ->
  PopperDup.updatePosition this w
  = Ok (PopperDup.set_isWindowEventsRegistered true this)
       (w_attach (updatePosition_ (PopperDup.self this))
          (PopperDup.disableOnResize this) (PopperDup.disableOnScroll this)
          (w_when (PopperDup.isWindowEventsRegistered this)
             (w_clean (updatePosition_ (PopperDup.self this))
                (PopperDup.disableOnResize this) (PopperDup.disableOnScroll this))
             (w_initPlacement (PopperDup.reference this) (PopperDup.popper this)
                (PopperDup.placement this) (num_of (PopperDup.offsetDistance this))
                (PopperDup.onUpdate this) w))).
Proof.
  intros H. unfold PopperDup.updatePosition.
  unfold bind at 1. rewrite PopperDup_initPlacement_eq by exact H.
  apply PopperDup_attachWindowEvent_eq.
Qed.

Lemma PopperDup_setOptions_unfold this pl off :
  PopperDup.setOptions this pl off
  = PopperDup.updatePosition
      (PopperDup.set_placement_offset pl (or_offset off (PopperDup.offsetDistance this))
                                      this).
Proof. reflexivity. Qed.

Lemma or_offset_number off v :
  typeof_number v = true ->
  typeof_number (or_offset off v) = true /\
  num_of (or_offset off v) = or_num off (num_of v).
Proof.
  intros H. unfold or_offset, or_num.
  destruct off as [q|]; [destruct (Qeq_bool q 0)|]; split; auto.
Qed.

Lemma log_w_when_clean reg cb dr ds w :
  log (w_when reg (w_clean cb dr ds) w)
  = (log w ++ if reg
              then emitted (negb dr) (ERemoveEventListener (Window, "resize", cb))
                   ++ emitted (negb ds)
                        (ERemoveEventListener (Window, "scroll", cb))
              else [])%list.
Proof.
  destruct reg; cbn [w_when]; [apply log_w_clean | symmetry; apply app_nil_r].
Qed.

Lemma onUpdate_calls_since_update cb dr ds reg r p pl off u w :
  onUpdate_calls
    (since w (w_attach cb dr ds (w_when reg (w_clean cb dr ds)
                                   (w_initPlacement r p pl off u w))))
  = if u then [(x (resolve r p pl off w), y (resolve r p pl off w), pl)] else [].
Proof.
  erewrite since_app.
  2:{ rewrite log_w_attach, log_w_when_clean, log_w_initPlacement.
      rewrite <- !app_assoc. reflexivity. }
  rewrite !onUpdate_calls_app, onUpdate_calls_measure, onUpdate_calls_onUpdate.
  rewrite !(proj1 (onUpdate_calls_listener _ _)).
  assert (Hc : onUpdate_calls
                 (if reg
                  then (emitted (negb dr)
                          (ERemoveEventListener (Window, "resize", cb))
                        ++ emitted (negb ds)
                             (ERemoveEventListener (Window, "scroll", cb)))%list
                  else []) = []).
  { destruct reg; [|reflexivity].
    rewrite onUpdate_calls_app, !(proj2 (onUpdate_calls_listener _ _)). reflexivity. }
  rewrite Hc. cbn [onUpdate_calls flat_map app]. rewrite !app_nil_r. reflexivity.
Qed.

(** The second implementation does what the specification says of
    [setOptions]: the new placement and offset are stored (an offset of 0
    is skipped by [||] and the old one kept), the position is recomputed
    with them, the listeners end up attached exactly per the
    flags, and a later resize repositions with the new placement. *)
Lemma PopperDup_setOptions_stores this pl off w :
  typeof_number (PopperDup.offsetDistance this) = true ->
  listeners_wf (updatePosition_ (PopperDup.self this))
               (PopperDup.disableOnResize this) (PopperDup.disableOnScroll this) w ->
  let c := resolve (PopperDup.reference this) (PopperDup.popper this) pl
             (or_num off (num_of (PopperDup.offsetDistance this))) w in
  exists this' w',
    PopperDup.setOptions this pl off w = Ok this' w' /\
    PopperDup.placement this' = pl /\
    PopperDup.offsetDistance this' = or_offset off (PopperDup.offsetDistance this) /\
    styles w' !! (PopperDup.popper this, prop_x) = Some (css_px (x c)) /\
    styles w' !! (PopperDup.popper this, prop_y) = Some (css_px (y c)) /\
    attached_per_flags (updatePosition_ (PopperDup.self this))
      (PopperDup.disableOnResize this) (PopperDup.disableOnScroll this) w' /\
    listeners_wf (updatePosition_ (PopperDup.self this))
      (PopperDup.disableOnResize this) (PopperDup.disableOnScroll this) w' /\
    others_kept (updatePosition_ (PopperDup.self this)) w w' /\
    (PopperDup.disableOnResize this = false ->
     exists this'' w'',
       PopperDup.dispatchWindowEvent "resize" this' w' = Ok this'' w'' /\
       onUpdate_calls (since w' w'')
       = if PopperDup.onUpdate this then [(x c, y c, pl)] else []).
Proof.
  intros H Hwf c.
  destruct (or_offset_number off _ H) as [Hn Hv].
  set (this1 := PopperDup.set_placement_offset pl
                  (or_offset off (PopperDup.offsetDistance this)) this).
  assert (H1 : typeof_number (PopperDup.offsetDistance this1) = true) by exact Hn.
  pose proof (PopperDup_updatePosition_eq this1 w H1) as E.
  cbn [this1 PopperDup.set_placement_offset PopperDup.self PopperDup.disableOnResize
       PopperDup.disableOnScroll PopperDup.reference PopperDup.popper
       PopperDup.placement PopperDup.offsetDistance PopperDup.onUpdate
       PopperDup.isWindowEventsRegistered] in E.
  rewrite Hv in E.
  set (cb := updatePosition_ (PopperDup.self this)) in *.
  set (dr := PopperDup.disableOnResize this) in *.
  set (ds := PopperDup.disableOnScroll this) in *.
  set (reg := PopperDup.isWindowEventsRegistered this) in *.
  set (w0 := w_initPlacement _ _ _ _ _ w) in E.
  assert (Hl : listeners w0 = listeners w) by apply listeners_w_initPlacement.
  assert (Hwf0 : listeners_wf cb dr ds w0).
  { unfold listeners_wf, attached in *. rewrite Hl. exact Hwf. }
  destruct (attach_per_flags cb dr ds reg w0 Hwf0) as (Ha & Hw & Ho).
  set (w' := w_attach cb dr ds (w_when reg (w_clean cb dr ds) w0)) in *.
  assert (Hst : styles w' = styles w0).
  { unfold w'. rewrite styles_w_attach. destruct reg; cbn [w_when];
      [apply styles_w_clean | reflexivity]. }
  assert (Hlay : same_layout w w').
  { eapply same_layout_trans; [apply w_initPlacement_layout|].
    eapply same_layout_trans; [|apply w_attach_layout].
    apply w_when_layout. intros ?. apply w_clean_layout. }
  eexists _, w'. rewrite PopperDup_setOptions_unfold.
  split; [exact E|]. split; [reflexivity|]. split; [reflexivity|].
  cbn [PopperDup.set_isWindowEventsRegistered PopperDup.popper this1
       PopperDup.set_placement_offset].
  split; [rewrite Hst; apply styles_w_initPlacement|].
  split; [rewrite Hst; apply styles_w_initPlacement|].
  split; [exact Ha|]. split; [exact Hw|].
  split; [unfold others_kept in *; rewrite <- Hl; exact Ho|].
  intros Hdr.
  set (this' := PopperDup.set_isWindowEventsRegistered true this1).
  assert (H2 : typeof_number (PopperDup.offsetDistance this') = true) by exact Hn.
  pose proof (PopperDup_updatePosition_eq this' w' H2) as E2.
  cbn [this' this1 PopperDup.set_isWindowEventsRegistered
       PopperDup.set_placement_offset PopperDup.self PopperDup.disableOnResize
       PopperDup.disableOnScroll PopperDup.reference PopperDup.popper
       PopperDup.placement PopperDup.offsetDistance PopperDup.onUpdate
       PopperDup.isWindowEventsRegistered] in E2.
  rewrite Hv in E2. fold cb dr ds in E2.
  eexists _, _. split.
  - unfold PopperDup.dispatchWindowEvent. unfold bind at 1, gets at 1.
    cbn [this' this1 PopperDup.set_isWindowEventsRegistered
         PopperDup.set_placement_offset PopperDup.self].
    fold cb. unfold has_listener.
    rewrite bool_decide_eq_true_2 by (apply Ha; exact Hdr).
    exact E2.
  - rewrite onUpdate_calls_since_update.
    rewrite (resolve_layout _ _ _ _ w w' Hlay). reflexivity.
Qed.

(** On the concrete page the second implementation repositions with the
    new placement after the resize: [onUpdate] sees ["bottom"], ["top"],
    ["top"]. *)
Example setOptions_placement_stored_dup :
  exists this w',
    scenario_setOptions_then_resize_dup page = Ok this w' /\
    PopperDup.placement this = mkPlacement top None /\
    onUpdate_placements (log w')
      = [mkPlacement bottom None; mkPlacement top None; mkPlacement top None].
Proof.
  eexists _, _. split; [vm_compute; reflexivity|]. split; reflexivity.
Qed.

(** ** The overlay: what the methods compute *)

Lemma when_emit b ef w : when b (modify (emit ef)) w = Ok tt (w_when b (emit ef) w).
Proof. apply when_modify. Qed.

Lemma log_w_when_emit b ef w :
  log (w_when b (emit ef) w) = (log w ++ emitted b ef)%list.
Proof. destruct b; cbn; [reflexivity | symmetry; apply app_nil_r]. Qed.

Lemma updateOverlayState_eq state trigger popper w :
  updateOverlayState state trigger popper w
  = Ok tt (w_updateOverlayState state trigger popper w).
Proof. reflexivity. Qed.

Lemma Overlay_hideCallback_eq this w :
  Overlay.hideCallback this w = Ok (after_hideCallback this) (w_hideCallback this w).
Proof.
  unfold Overlay.hideCallback, Overlay.onToggleState.
  unfold bind at 1. rewrite when_emit.
  unfold bind at 1. rewrite Popper_cleanupEvents_eq.
  unfold bind at 1. rewrite when_emit. reflexivity.
Qed.

Lemma Overlay_hide_eq this w :
  Overlay.hide this w = Ok (after_hide this w) (w_hide this w).
Proof.
  unfold Overlay.hide.
  unfold bind at 1. rewrite when_emit.
  unfold bind at 1. rewrite updateOverlayState_eq.
  unfold bind at 1. unfold removeEventListener at 1. rewrite when_modify.
  unfold bind at 1. unfold removeEventListener at 1, modify at 1.
  set (w3 := w_removeEventListener _ (w_when (is_click _) _ _)).
  assert (E : forall k : unit -> M Overlay.CreateOverlay,
            bind (when (is_hover (Overlay.triggerStrategy this))
                    (bind (removeEventListener (Node (Overlay.triggerElement this))
                             "mouseleave" (hideOnMouseLeaseTrigger_ (Overlay.self this)))
                       (fun _ => removeEventListener (Node (Overlay.contentElement this))
                             "mouseleave" (hideOnMouseLeave_ (Overlay.self this)))))
                 k w3
            = k tt (w_detach this
                      (w_updateOverlayState "close" (Overlay.triggerElement this)
                         (Overlay.contentElement this)
                         (w_when (oo_beforeHide (Overlay.options this))
                            (emit EBeforeHide) w)))).
  { intros k. unfold w_detach. fold w3.
    destruct (is_hover (Overlay.triggerStrategy this)); reflexivity. }
  rewrite E. clear E w3.
  unfold Overlay.afterTransition. unfold bind at 1, modify at 1.
  fold (w_hide_now this w).
  unfold bind at 1, gets at 1.
  unfold w_hide, after_hide.
  assert (R : transitionRunning (w_hide_now this w) (Overlay.contentElement this)
              = transitionRunning w (Overlay.contentElement this)).
  { unfold w_hide_now, w_detach, w_when.
    destruct (is_hover _), (is_click _), (oo_beforeHide _); reflexivity. }
  rewrite R. destruct (transitionRunning w (Overlay.contentElement this)).
  - reflexivity.
  - apply Overlay_hideCallback_eq.
Qed.

(** *** Logs *)

Lemma log_w_updateOverlayState state trigger popper w :
  log (w_updateOverlayState state trigger popper w)
  = (log w ++ [ESetAttribute popper "data-state" state;
               ESetAttribute trigger "aria-expanded"
                 (if String.eqb state "open" then "true" else "false")])%list.
Proof. cbn. rewrite <- app_assoc. reflexivity. Qed.

Lemma log_w_detach this w :
  log (w_detach this w)
  = (log w
     ++ emitted (is_click (Overlay.triggerStrategy this))
          (ERemoveEventListener (clickListener this))
     ++ [ERemoveEventListener (keydownListener this)]
     ++ (if is_hover (Overlay.triggerStrategy this)
         then [ERemoveEventListener
                 (Node (Overlay.triggerElement this), "mouseleave",
                  hideOnMouseLeaseTrigger_ (Overlay.self this));
               ERemoveEventListener
                 (Node (Overlay.contentElement this), "mouseleave",
                  hideOnMouseLeave_ (Overlay.self this))]
         else []))%list.
Proof.
  unfold w_detach. destruct (Overlay.triggerStrategy this); cbn;
    rewrite <- ?app_assoc; reflexivity.
Qed.

Lemma log_w_hide_now this w :
  log (w_hide_now this w) = (log w ++ hide_now_effects this)%list.
Proof.
  unfold w_hide_now, hide_now_effects.
  change (log (emit ?e ?w')) with (log w' ++ [e])%list.
  rewrite log_w_detach, log_w_updateOverlayState, log_w_when_emit.
  cbn [String.eqb Ascii.eqb Bool.eqb]. rewrite <- !app_assoc. reflexivity.
Qed.

Lemma log_w_cleanupEvents p w :
  log (w_cleanupEvents p w) = (log w ++ cleanupEvents_effects p)%list.
Proof.
  unfold w_cleanupEvents, cleanupEvents_effects.
  rewrite log_w_when_clean. cbn [log w_setInitialStyles w_setProperty emit set_styles].
  rewrite <- !app_assoc. reflexivity.
Qed.

Lemma log_w_hideCallback this w :
  log (w_hideCallback this w) = (log w ++ hide_teardown_effects this)%list.
Proof.
  unfold w_hideCallback, hide_teardown_effects.
  rewrite log_w_when_emit, log_w_cleanupEvents, log_w_when_emit.
  rewrite <- !app_assoc. reflexivity.
Qed.

Lemma log_w_hide this w :
  log (w_hide this w)
  = (log w ++ hide_now_effects this
       ++ if transitionRunning w (Overlay.contentElement this)
          then [] else hide_teardown_effects this)%list.
Proof.
  unfold w_hide. destruct (transitionRunning w (Overlay.contentElement this)).
  - cbn [schedule_teardown set_pending log]. rewrite log_w_hide_now, app_nil_r.
    reflexivity.
  - rewrite log_w_hideCallback, log_w_hide_now, <- app_assoc. reflexivity.
Qed.

(** *** What the steps leave alone *)

Lemma attrs_w_initPlacement r p pl off u w :
  attrs (w_initPlacement r p pl off u w) = attrs w.
Proof. unfold w_initPlacement, w_onUpdate, measure_once. split_flags; reflexivity. Qed.

Lemma attrs_w_attach cb dr ds w : attrs (w_attach cb dr ds w) = attrs w.
Proof. unfold w_attach. destruct dr, ds; reflexivity. Qed.

Lemma attrs_w_cleanupEvents p w : attrs (w_cleanupEvents p w) = attrs w.
Proof. unfold w_cleanupEvents, w_clean. split_flags; reflexivity. Qed.

Lemma attrs_w_hideCallback this w : attrs (w_hideCallback this w) = attrs w.
Proof.
  unfold w_hideCallback.
  destruct (oo_onHide _), (oo_onToggle _); cbn [w_when attrs emit];
    rewrite attrs_w_cleanupEvents; reflexivity.
Qed.

Lemma attrs_w_detach this w : attrs (w_detach this w) = attrs w.
Proof. unfold w_detach. destruct (Overlay.triggerStrategy this); reflexivity. Qed.

Lemma attrs_w_hide this w :
  attrs (w_hide this w)
  = <[(Overlay.triggerElement this, "aria-expanded") := "false"]>
      (<[(Overlay.contentElement this, "data-state") := "close"]> (attrs w)).
Proof.
  unfold w_hide.
  assert (H : attrs (w_hide_now this w)
              = <[(Overlay.triggerElement this, "aria-expanded") := "false"]>
                  (<[(Overlay.contentElement this, "data-state") := "close"]> (attrs w))).
  { unfold w_hide_now. cbn [attrs emit]. rewrite attrs_w_detach.
    destruct (oo_beforeHide _); reflexivity. }
  destruct (transitionRunning w _).
  - exact H.
  - rewrite attrs_w_hideCallback. exact H.
Qed.

Lemma state_written (t c : Element) (s a : string) (m : gmap (Element * string) string) :
  <[(t, "aria-expanded") := a]> (<[(c, "data-state") := s]> m) !! (c, "data-state")
    = Some s /\
  <[(t, "aria-expanded") := a]> (<[(c, "data-state") := s]> m) !! (t, "aria-expanded")
    = Some a.
Proof.
  split.
  - rewrite lookup_insert_ne by congruence. apply lookup_insert_eq.
  - apply lookup_insert_eq.
Qed.

(** *** Listeners after [hide] *)

Lemma listeners_w_hide_now this w :
  listeners (w_hide_now this w) = listeners (w_detach this w).
Proof.
  unfold w_hide_now, w_detach. destruct (Overlay.triggerStrategy this), (oo_beforeHide _);
    reflexivity.
Qed.

Lemma detached_w_detach this w :
  (keydownListener this ∉ listeners (w_detach this w)) /\
  (Overlay.triggerStrategy this = click ->
   clickListener this ∉ listeners (w_detach this w)).
Proof.
  unfold w_detach, keydownListener, clickListener.
  destruct (Overlay.triggerStrategy this);
    cbn [is_hover is_click w_when w_removeEventListener listeners emit set_listeners];
    split; try discriminate; intros; rewrite ?elem_of_remove_listener;
    intuition congruence.
Qed.

Lemma listeners_w_cleanupEvents_subset p w (l : Listener) :
  l ∈ listeners (w_cleanupEvents p w) -> l ∈ listeners w.
Proof.
  unfold w_cleanupEvents.
  destruct (Popper.isEventRegistrer p); cbn [w_when]; [|auto].
  rewrite listeners_w_clean.
  destruct (Popper.disableOnResize p), (Popper.disableOnScroll p);
    rewrite ?elem_of_remove_listener; cbn; tauto.
Qed.

Lemma listeners_w_hideCallback this w :
  listeners (w_hideCallback this w) = listeners (w_cleanupEvents (Overlay.popper this) w).
Proof.
  unfold w_hideCallback.
  destruct (oo_onHide _), (oo_onToggle _); cbn [w_when listeners emit];
    unfold w_cleanupEvents; destruct (Popper.isEventRegistrer _); cbn [w_when];
    rewrite ?listeners_w_clean; reflexivity.
Qed.

Lemma window_detached_cleanup p w :
  popper_inv p w -> window_detached p (w_cleanupEvents p w).
Proof.
  intros ((_ & Hr & Hs) & Hreg). unfold window_detached, attached in *.
  unfold w_cleanupEvents.
  destruct (Popper.isEventRegistrer p); cbn [w_when].
  - rewrite listeners_w_clean.
    destruct (Popper.disableOnResize p), (Popper.disableOnScroll p);
      rewrite ?elem_of_remove_listener; cbn; intuition congruence.
  - apply Hreg. reflexivity.
Qed.

Lemma popper_inv_listeners p w w' :
  (forall l : Listener, l ∈ listeners w' -> l ∈ listeners w) ->
  NoDup (listeners w') ->
  popper_inv p w -> popper_inv p w'.
Proof.
  intros Hsub Hnd ((_ & Hr & Hs) & Hreg). unfold popper_inv, listeners_wf, attached in *.
  split; [split; [exact Hnd|]; split|]; intros.
  - intros Hin. apply (Hr H), Hsub, Hin.
  - intros Hin. apply (Hs H), Hsub, Hin.
  - destruct (Hreg H) as [H1 H2]. split; intros Hin; [apply H1|apply H2]; apply Hsub, Hin.
Qed.

Lemma NoDup_w_detach this w : NoDup (listeners w) -> NoDup (listeners (w_detach this w)).
Proof.
  intros H. unfold w_detach.
  destruct (Overlay.triggerStrategy this);
    cbn [is_hover is_click w_when w_removeEventListener listeners emit set_listeners];
    repeat apply NoDup_remove_listener; exact H.
Qed.

Lemma listeners_w_detach_subset this w (l : Listener) :
  l ∈ listeners (w_detach this w) -> l ∈ listeners w.
Proof.
  unfold w_detach.
  destruct (Overlay.triggerStrategy this);
    cbn [is_hover is_click w_when w_removeEventListener listeners emit set_listeners];
    rewrite ?elem_of_remove_listener; tauto.
Qed.

Lemma popper_inv_w_hide_now this w :
  popper_inv (Overlay.popper this) w -> popper_inv (Overlay.popper this) (w_hide_now this w).
Proof.
  intros H. apply (popper_inv_listeners _ w).
  - intros l. rewrite listeners_w_hide_now. apply listeners_w_detach_subset.
  - rewrite listeners_w_hide_now. apply NoDup_w_detach. apply H.
  - exact H.
Qed.

Lemma popper_inv_same_listeners p w w' :
  listeners w' = listeners w -> popper_inv p w -> popper_inv p w'.
Proof.
  intros E H. unfold popper_inv, listeners_wf, attached in *. rewrite E. exact H.
Qed.

Lemma pending_w_hide_now this w : pending (w_hide_now this w) = pending w.
Proof.
  unfold w_hide_now, w_detach.
  destruct (Overlay.triggerStrategy this), (oo_beforeHide _); reflexivity.
Qed.

Lemma window_detached_hideCallback this w :
  popper_inv (Overlay.popper this) w ->
  window_detached (Overlay.popper this) (w_hideCallback this w).
Proof.
  intros H. pose proof (window_detached_cleanup _ _ H) as D.
  unfold window_detached, attached in *.
  rewrite listeners_w_hideCallback. exact D.
Qed.

(** *** Any number of teardowns waiting *)

Lemma run_deferred_eq ds element this w :
  Overlay.run_deferred ds element this w
  = let n := length (List.filter (is_teardown_of element (Overlay.self this)) ds) in
    Ok (after_teardowns n this) (w_teardowns n this w).
Proof.
  revert this w. induction ds as [|[e [id]] ds IH]; intros this w; [reflexivity|].
  cbn [Overlay.run_deferred List.filter is_teardown_of]. unfold bind at 1.
  destruct (Nat.eqb e element && Nat.eqb id (Overlay.self this)).
  - rewrite Overlay_hideCallback_eq. rewrite IH. cbv zeta.
    change (Overlay.self (after_hideCallback this)) with (Overlay.self this).
    cbn [length w_teardowns after_teardowns].
    destruct (length _); reflexivity.
  - unfold ret at 1. apply IH.
Qed.

Lemma transitionEnd_eq element this w :
  Overlay.transitionEnd element this w
  = let n := length (List.filter (is_teardown_of element (Overlay.self this))
                       (pending w)) in
    Ok (after_teardowns n this)
       (w_teardowns n this (set_pending (filter (fun d => fst d <> element)) w)).
Proof.
  unfold Overlay.transitionEnd.
  unfold bind at 1, gets at 1. unfold bind at 1, modify at 1.
  apply run_deferred_eq.
Qed.

Lemma teardowns_waiting_scheduled this w :
  length (List.filter
            (is_teardown_of (Overlay.contentElement this) (Overlay.self this))
            (pending (schedule_teardown this (w_hide_now this w))))
  = S (teardowns_waiting this w).
Proof.
  cbn [schedule_teardown set_pending pending]. rewrite pending_w_hide_now.
  rewrite List.filter_app, length_app. unfold teardowns_waiting.
  cbn [List.filter is_teardown_of]. rewrite !Nat.eqb_refl. cbn [andb length].
  lia.
Qed.

Lemma log_w_teardowns_unregistered n this w :
  Popper.isEventRegistrer (Overlay.popper this) = false ->
  log (w_teardowns n this w)
  = (log w ++ concat (replicate n (hide_teardown_effects this)))%list.
Proof.
  revert this w. induction n as [|n IH]; intros this w H.
  - cbn. symmetry. apply app_nil_r.
  - cbn [w_teardowns replicate concat].
    rewrite (IH (after_hideCallback this)) by reflexivity.
    rewrite log_w_hideCallback, <- app_assoc.
    assert (E : hide_teardown_effects (after_hideCallback this)
                = hide_teardown_effects this).
    { unfold hide_teardown_effects, cleanupEvents_effects, after_hideCallback.
      cbn [Overlay.options Overlay.popper Overlay.set_popper Popper.popper
           Popper.isEventRegistrer Popper.set_isEventRegistrer].
      rewrite H. reflexivity. }
    rewrite E. reflexivity.
Qed.

Lemma log_w_teardowns n this w :
  log (w_teardowns (S n) this w) = (log w ++ teardown_effects this n)%list.
Proof.
  cbn [w_teardowns]. rewrite log_w_teardowns_unregistered by reflexivity.
  rewrite log_w_hideCallback, <- app_assoc. reflexivity.
Qed.

Lemma listeners_w_teardowns_unregistered n this w :
  Popper.isEventRegistrer (Overlay.popper this) = false ->
  listeners (w_teardowns n this w) = listeners w.
Proof.
  revert this w. induction n as [|n IH]; intros this w H; [reflexivity|].
  cbn [w_teardowns]. rewrite (IH (after_hideCallback this)) by reflexivity.
  rewrite listeners_w_hideCallback. unfold w_cleanupEvents. rewrite H. reflexivity.
Qed.

Lemma listeners_w_teardowns n this w :
  listeners (w_teardowns (S n) this w)
  = listeners (w_cleanupEvents (Overlay.popper this) w).
Proof.
  cbn [w_teardowns]. rewrite listeners_w_teardowns_unregistered by reflexivity.
  apply listeners_w_hideCallback.
Qed.

Lemma window_detached_w_teardowns n this w :
  popper_inv (Overlay.popper this) w ->
  window_detached (Overlay.popper this) (w_teardowns (S n) this w).
Proof.
  intros H. pose proof (window_detached_cleanup _ _ H) as D.
  unfold window_detached, attached in *.
  rewrite listeners_w_teardowns. exact D.
Qed.

(** ** hide *)

(** C4: [hide] writes [data-state="close"] and [aria-expanded="false"]
    and detaches the click listener (click strategy) and the keydown
    listener before it hands the teardown to [afterTransition]; nothing of
    the teardown happens until the content's transition completes, and then
    [onToggle({isHidden: true})], the popper's [cleanupEvents] and [onHide]
    run in that order and leave the popper without window listeners.
    Teardowns of earlier [hide] calls that still wait for the same
    transition run along, each with the same three steps in the same order;
    when none waits, the three steps are all that happens.  (Without a
    running transition [afterTransition] runs the teardown at once, after
    the same immediate effects.) *)
Theorem hide_flips_then_tears_down (this : Overlay.CreateOverlay) (w : World) :
  popper_inv (Overlay.popper this) w ->
  exists this1 w1,
    Overlay.hide this w = Ok this1 w1 /\
    attrs w1 !! (Overlay.contentElement this, "data-state") = Some "close" /\
    attrs w1 !! (Overlay.triggerElement this, "aria-expanded") = Some "false" /\
    (keydownListener this ∉ listeners w1) /\
    (Overlay.triggerStrategy this = click -> clickListener this ∉ listeners w1) /\
    if transitionRunning w (Overlay.contentElement this)
    then since w w1 = hide_now_effects this /\
         exists this2 w2,
           Overlay.transitionEnd (Overlay.contentElement this) this1 w1 = Ok this2 w2 /\
           since w1 w2 = teardown_effects this (teardowns_waiting this w) /\
           (teardowns_waiting this w = O ->
            since w1 w2 = hide_teardown_effects this) /\
           window_detached (Overlay.popper this) w2
    else since w w1 = (hide_now_effects this ++ hide_teardown_effects this)%list /\
         window_detached (Overlay.popper this) w1.
Proof.
  intros Hinv.
  exists (after_hide this w), (w_hide this w).
  split; [apply Overlay_hide_eq|].
  rewrite attrs_w_hide.
  split; [apply state_written|]. split; [apply state_written|].
  pose proof (detached_w_detach this w) as [Dk Dc].
  pose proof (popper_inv_w_hide_now this w Hinv) as Hinv1.
  unfold w_hide, after_hide.
  destruct (transitionRunning w (Overlay.contentElement this)) eqn:R.
  - change (listeners (schedule_teardown this (w_hide_now this w)))
      with (listeners (w_hide_now this w)).
    rewrite listeners_w_hide_now.
    split; [exact Dk|]. split; [exact Dc|].
    split.
    { apply since_app. cbn [schedule_teardown set_pending log]. apply log_w_hide_now. }
    rewrite transitionEnd_eq, teardowns_waiting_scheduled. cbv zeta.
    eexists _, _. split; [reflexivity|].
    assert (S2 : since (schedule_teardown this (w_hide_now this w))
                   (w_teardowns (S (teardowns_waiting this w)) this
                      (set_pending
                         (filter (fun d => fst d <> Overlay.contentElement this))
                         (schedule_teardown this (w_hide_now this w))))
                 = teardown_effects this (teardowns_waiting this w)).
    { apply since_app. rewrite log_w_teardowns. reflexivity. }
    split; [exact S2|]. split.
    { intros Z. rewrite S2, Z. unfold teardown_effects. cbn [replicate concat].
      apply app_nil_r. }
    apply window_detached_w_teardowns.
    apply (popper_inv_same_listeners _ (w_hide_now this w)); [reflexivity | exact Hinv1].
  - assert (Hsub : forall l : Listener,
               l ∈ listeners (w_hideCallback this (w_hide_now this w)) ->
               l ∈ listeners (w_detach this w)).
    { intros l. rewrite listeners_w_hideCallback, <- listeners_w_hide_now.
      apply listeners_w_cleanupEvents_subset. }
    split; [intros Hin; exact (Dk (Hsub _ Hin))|].
    split; [intros Hc Hin; exact (Dc Hc (Hsub _ Hin))|].
    split.
    { apply since_app. rewrite log_w_hideCallback, log_w_hide_now, <- app_assoc.
      reflexivity. }
    apply window_detached_hideCallback. exact Hinv1.
Qed.

(** ** show, setShowOptions, the toggle, construction *)

Lemma Overlay_open_steps this (k : M Overlay.CreateOverlay) w :
  (addEventListener Document "keydown" (handleKeyDown_ (Overlay.self this)) ;;;
   addEventListener Document "click" (handleDocumentClick_ (Overlay.self this)) ;;;
   when (oo_beforeShow (Overlay.options this)) (modify (emit EBeforeShow)) ;;;
   updateOverlayState "open" (Overlay.triggerElement this) (Overlay.contentElement this) ;;;
   Overlay.onToggleState this false ;;;
   when (oo_onShow (Overlay.options this)) (modify (emit EOnShow)) ;;;
   k) w
  = k (w_open this w).
Proof.
  unfold Overlay.onToggleState, w_open, keydownListener, clickListener.
  unfold bind at 1. unfold addEventListener at 1, modify at 1.
  unfold bind at 1. unfold addEventListener at 1, modify at 1.
  unfold bind at 1. rewrite when_emit.
  unfold bind at 1. rewrite updateOverlayState_eq.
  unfold bind at 1. rewrite when_emit.
  unfold bind at 1. rewrite when_emit. reflexivity.
Qed.

Lemma Overlay_show_eq this w :
  popper_ok this ->
  Overlay.show this w = Ok (after_show this) (w_show this w).
Proof.
  intros H. unfold Overlay.show.
  unfold bind at 1. rewrite Popper_updatePosition_eq by exact H.
  cbv zeta.
  change (Overlay.self (Overlay.set_popper _ this)) with (Overlay.self this).
  change (Overlay.options (Overlay.set_popper _ this)) with (Overlay.options this).
  change (Overlay.triggerElement (Overlay.set_popper _ this))
    with (Overlay.triggerElement this).
  change (Overlay.contentElement (Overlay.set_popper _ this))
    with (Overlay.contentElement this).
  change (Overlay.onToggleState (Overlay.set_popper _ this) false)
    with (Overlay.onToggleState this false).
  rewrite Overlay_open_steps. reflexivity.
Qed.

Lemma Overlay_show_throw this w :
  ~ popper_ok this ->
  Overlay.show this w = Throw InvalidOffsetDistance w.
Proof.
  intros H. unfold Overlay.show. unfold bind at 1.
  rewrite Popper_updatePosition_throw; [reflexivity|].
  unfold popper_ok in H. destruct (typeof_number _); [contradiction H|]; reflexivity.
Qed.

Lemma Overlay_setShowOptions_eq this pl off w :
  popper_ok this ->
  Overlay.setShowOptions this pl off w
  = Ok (after_show this) (w_setShowOptions this pl off w).
Proof.
  intros H. unfold Overlay.setShowOptions.
  unfold bind at 1. rewrite Popper_setOptions_eq by exact H.
  cbv zeta.
  change (Overlay.self (Overlay.set_popper _ this)) with (Overlay.self this).
  change (Overlay.options (Overlay.set_popper _ this)) with (Overlay.options this).
  change (Overlay.triggerElement (Overlay.set_popper _ this))
    with (Overlay.triggerElement this).
  change (Overlay.contentElement (Overlay.set_popper _ this))
    with (Overlay.contentElement this).
  change (Overlay.onToggleState (Overlay.set_popper _ this) false)
    with (Overlay.onToggleState this false).
  rewrite Overlay_open_steps. reflexivity.
Qed.

Lemma attrs_w_open this w :
  attrs (w_open this w)
  = <[(Overlay.triggerElement this, "aria-expanded") := "true"]>
      (<[(Overlay.contentElement this, "data-state") := "open"]> (attrs w)).
Proof.
  unfold w_open.
  destruct (oo_onShow _), (oo_onToggle _), (oo_beforeShow _); reflexivity.
Qed.

Lemma attrs_w_show this w :
  attrs (w_show this w)
  = <[(Overlay.triggerElement this, "aria-expanded") := "true"]>
      (<[(Overlay.contentElement this, "data-state") := "open"]> (attrs w)).
Proof.
  unfold w_show. cbv zeta.
  rewrite attrs_w_open, attrs_w_attach, attrs_w_initPlacement. reflexivity.
Qed.

Lemma attrs_w_when_clean reg cb dr ds w :
  attrs (w_when reg (w_clean cb dr ds) w) = attrs w.
Proof. destruct reg, dr, ds; reflexivity. Qed.

Lemma attrs_w_setShowOptions this pl off w :
  attrs (w_setShowOptions this pl off w)
  = <[(Overlay.triggerElement this, "aria-expanded") := "true"]>
      (<[(Overlay.contentElement this, "data-state") := "open"]> (attrs w)).
Proof.
  unfold w_setShowOptions. cbv zeta.
  rewrite attrs_w_open, attrs_w_attach, attrs_w_when_clean, attrs_w_initPlacement.
  reflexivity.
Qed.

Lemma listeners_w_open this w (l : Listener) :
  l ∈ listeners (w_open this w)
  <-> l = clickListener this \/ l = keydownListener this \/ l ∈ listeners w.
Proof.
  unfold w_open.
  destruct (oo_onShow _), (oo_onToggle _), (oo_beforeShow _);
    cbn [w_when listeners emit w_updateOverlayState w_setAttribute set_attrs
         w_addEventListener set_listeners];
    rewrite !elem_of_add_listener; tauto.
Qed.

Lemma Overlay_addEventOnMouseEnter_eq this w :
  Overlay.addEventOnMouseEnter this w = Ok tt (w_addEventOnMouseEnter this w).
Proof. reflexivity. Qed.

Lemma state_inv_open this this' w w' :
  Overlay.triggerElement this' = Overlay.triggerElement this ->
  Overlay.contentElement this' = Overlay.contentElement this ->
  attrs w' = <[(Overlay.triggerElement this, "aria-expanded") := "true"]>
               (<[(Overlay.contentElement this, "data-state") := "open"]> (attrs w)) ->
  state_inv this' w'.
Proof.
  intros Et Ec E. left. rewrite Et, Ec, E. apply state_written.
Qed.

Lemma state_inv_close this this' w w' :
  Overlay.triggerElement this' = Overlay.triggerElement this ->
  Overlay.contentElement this' = Overlay.contentElement this ->
  attrs w' = <[(Overlay.triggerElement this, "aria-expanded") := "false"]>
               (<[(Overlay.contentElement this, "data-state") := "close"]> (attrs w)) ->
  state_inv this' w'.
Proof.
  intros Et Ec E. right. rewrite Et, Ec, E. apply state_written.
Qed.

Lemma after_hide_fields this w :
  Overlay.triggerElement (after_hide this w) = Overlay.triggerElement this /\
  Overlay.contentElement (after_hide this w) = Overlay.contentElement this /\
  (popper_ok this -> popper_ok (after_hide this w)).
Proof.
  unfold after_hide. destruct (transitionRunning w _); repeat split; auto.
Qed.

Lemma Overlay_show_inv this w :
  popper_ok this ->
  exists this' w',
    Overlay.show this w = Ok this' w' /\ popper_ok this' /\ state_inv this' w' /\
    attrs w' !! (Overlay.contentElement this, "data-state") = Some "open".
Proof.
  intros H. exists (after_show this), (w_show this w).
  split; [apply Overlay_show_eq; exact H|]. split; [exact H|].
  split; [|rewrite attrs_w_show; apply state_written].
  eapply (state_inv_open this); [reflexivity | reflexivity | apply attrs_w_show].
Qed.

Lemma Overlay_hide_inv this w :
  exists this' w',
    Overlay.hide this w = Ok this' w' /\ (popper_ok this -> popper_ok this') /\
    state_inv this' w' /\
    attrs w' !! (Overlay.contentElement this, "data-state") = Some "close".
Proof.
  exists (after_hide this w), (w_hide this w).
  destruct (after_hide_fields this w) as (Et & Ec & Hok).
  split; [apply Overlay_hide_eq|]. split; [exact Hok|].
  split; [|rewrite attrs_w_hide; apply state_written].
  eapply (state_inv_close this); [exact Et | exact Ec | apply attrs_w_hide].
Qed.

Lemma Overlay_setShowOptions_inv this pl off w :
  popper_ok this ->
  exists this' w',
    Overlay.setShowOptions this pl off w = Ok this' w' /\ popper_ok this' /\
    state_inv this' w'.
Proof.
  intros H. exists (after_show this), (w_setShowOptions this pl off w).
  split; [apply Overlay_setShowOptions_eq; exact H|]. split; [exact H|].
  eapply (state_inv_open this); [reflexivity | reflexivity | apply attrs_w_setShowOptions].
Qed.

Lemma Overlay_toggleStateOnClick_inv this w :
  popper_ok this ->
  exists this' w',
    Overlay.toggleStateOnClick this w = Ok this' w' /\ popper_ok this' /\
    state_inv this' w'.
Proof.
  intros H. unfold Overlay.toggleStateOnClick.
  unfold bind at 1, getAttribute at 1, gets at 1. cbv zeta.
  destruct (String.eqb _ "close").
  - unfold bind at 1. rewrite Overlay_show_eq by exact H.
    unfold bind at 1.
    change (Overlay.triggerStrategy (after_show this)) with (Overlay.triggerStrategy this).
    destruct (is_hover (Overlay.triggerStrategy this)); cbn [when].
    + rewrite Overlay_addEventOnMouseEnter_eq. eexists _, _.
      split; [reflexivity|]. split; [exact H|].
      eapply (state_inv_open this); [reflexivity | reflexivity | apply attrs_w_show].
    + eexists _, _. split; [reflexivity|]. split; [exact H|].
      eapply (state_inv_open this); [reflexivity | reflexivity | apply attrs_w_show].
  - destruct (Overlay_hide_inv this w) as (this' & w' & E & Hok & Hinv & _).
    exists this', w'. auto.
Qed.

Lemma Overlay_initInstance_inv this w :
  popper_ok this ->
  exists this' w',
    Overlay.initInstance this w = Ok this' w' /\ popper_ok this' /\
    state_inv this' w' /\
    Overlay.triggerElement this' = Overlay.triggerElement this /\
    Overlay.contentElement this' = Overlay.contentElement this /\
    attrs w' !! (Overlay.contentElement this, "data-state")
      = Some (state_string (Overlay.defaultState this)).
Proof.
  intros H. unfold Overlay.initInstance.
  unfold bind at 1. rewrite updateOverlayState_eq.
  set (w0 := w_updateOverlayState _ _ _ w).
  assert (L : forall (that : Overlay.CreateOverlay) w1,
             (addEventListener (Node (Overlay.triggerElement that)) "click"
                (toggleStateOnClick_ (Overlay.self that)) ;;;
              when (is_hover (Overlay.triggerStrategy that))
                (addEventListener (Node (Overlay.triggerElement that)) "mouseenter"
                   (showOnMouseEnter_ (Overlay.self that))) ;;;
              ret that) w1
             = Ok that (w_listen_trigger that w1)).
  { intros that w1. unfold w_listen_trigger, addEventListener.
    unfold bind at 1, modify at 1. unfold bind at 1. rewrite when_modify. reflexivity. }
  assert (A : forall that w1, attrs (w_listen_trigger that w1) = attrs w1).
  { intros that w1. unfold w_listen_trigger. destruct (is_hover _); reflexivity. }
  unfold bind at 1.
  destruct (Overlay.defaultState this) eqn:D.
  - rewrite Overlay_show_eq by exact H. rewrite L.
    eexists _, _. split; [reflexivity|]. split; [exact H|].
    split; [|split; [reflexivity|split; [reflexivity|]]].
    + eapply (state_inv_open this); [reflexivity | reflexivity |].
      rewrite A. apply attrs_w_show.
    + rewrite A, attrs_w_show. apply state_written.
  - unfold bind at 1. rewrite updateOverlayState_eq. unfold ret at 1. rewrite L.
    eexists _, _. split; [reflexivity|]. split; [exact H|].
    split; [|split; [reflexivity|split; [reflexivity|]]].
    + eapply (state_inv_close this); [reflexivity | reflexivity |].
      rewrite A. reflexivity.
    + rewrite A. apply state_written.
Qed.

Lemma or_num_six_nonzero o : Qeq_bool (or_num o 6) 0 = false.
Proof.
  unfold or_num. destruct o as [q|]; [|reflexivity].
  destruct (Qeq_bool q 0) eqn:E; [reflexivity | exact E].
Qed.

Lemma Overlay_constructor_inv (trigger content : Element) options w :
  exists this w',
    Overlay.constructor (JElem trigger) (JElem content) options w = Ok this w' /\
    popper_ok this /\ state_inv this w' /\
    Overlay.triggerElement this = trigger /\
    Overlay.contentElement this = content /\
    attrs w' !! (content, "data-state")
      = Some (state_string (match oo_defaultState options with
                            | Some s => s | None => close end)).
Proof.
  unfold Overlay.constructor.
  unfold bind at 1. unfold fresh at 1.
  unfold bind at 1, gets at 1. unfold bind at 1, modify at 1. unfold ret at 1.
  unfold bind at 1. cbn [Overlay.getElement]. unfold ret at 1.
  unfold bind at 1. unfold ret at 1.
  cbn [instanceof_HTMLElement negb]. cbv zeta.
  unfold bind at 1. unfold Popper.constructor.
  cbn [instanceof_HTMLElement negb opt_offsetDistance typeof_number].
  rewrite andb_false_r.
  unfold bind at 1. unfold fresh at 1.
  unfold bind at 1, gets at 1. unfold bind at 1, modify at 1. unfold ret at 1.
  unfold ret at 1.
  match goal with
  | |- context [Overlay.initInstance ?t ?w1] =>
      destruct (Overlay_initInstance_inv t w1) as (this' & w' & E & Hok & Hinv & Et & Ec & Ha);
        [reflexivity|]
  end.
  exists this', w'. cbn in Et, Ec, Ha.
  split; [exact E|]. split; [exact Hok|]. split; [exact Hinv|].
  split; [exact Et|]. split; [exact Ec|]. exact Ha.
Qed.

Example opened_is_open :
  fst opened = after_show pageOverlay /\
  attrs (snd opened) !! (popperEl, "data-state") = Some "open" /\
  attrs (snd opened) !! (referenceEl, "aria-expanded") = Some "true" /\
  has_listener (keydownListener pageOverlay) (listeners (snd opened)) = true /\
  has_listener (clickListener pageOverlay) (listeners (snd opened)) = true /\
  transitionRunning (snd opened) popperEl = true.
Proof. vm_compute. repeat split; reflexivity. Qed.

Lemma opened_popper_inv : popper_inv (Overlay.popper (fst opened)) (snd opened).
Proof.
  unfold popper_inv, listeners_wf, attached.
  split; [split; [by_running | split; vm_compute; discriminate]
         | vm_compute; discriminate].
Qed.

Example reopened_is_open :
  attrs (snd reopened) !! (popperEl, "data-state") = Some "open" /\
  teardowns_waiting (fst reopened) (snd reopened) = 1%nat /\
  transitionRunning (snd reopened) popperEl = true.
Proof. vm_compute. repeat split; reflexivity. Qed.

Lemma reopened_popper_inv : popper_inv (Overlay.popper (fst reopened)) (snd reopened).
Proof.
  unfold popper_inv, listeners_wf, attached.
  split; [split; [by_running | split; vm_compute; discriminate]
         | vm_compute; discriminate].
Qed.

Lemma hide_flips_then_tears_down_witness :
  (exists this1 w1 this2 w2,
     Overlay.hide (fst opened) (snd opened) = Ok this1 w1 /\
     since (snd opened) w1
     = [EBeforeHide;
        ESetAttribute popperEl "data-state" "close";
        ESetAttribute referenceEl "aria-expanded" "false";
        ERemoveEventListener (Document, "click", handleDocumentClick_ 0);
        ERemoveEventListener (Document, "keydown", handleKeyDown_ 0);
        EAfterTransition popperEl] /\
     Overlay.transitionEnd popperEl this1 w1 = Ok this2 w2 /\
     since w1 w2
     = [EOnToggle true;
        ESetProperty popperEl prop_x css_empty;
        ESetProperty popperEl prop_y css_empty;
        ERemoveEventListener (Window, "resize", initPositionate 1);
        ERemoveEventListener (Window, "scroll", initPositionate 1);
        EOnHide] /\
     window_detached (Overlay.popper (fst opened)) w2) /\
  (exists this1 w1 this2 w2,
     Overlay.hide (fst reopened) (snd reopened) = Ok this1 w1 /\
     since (snd reopened) w1
     = [EBeforeHide;
        ESetAttribute popperEl "data-state" "close";
        ESetAttribute referenceEl "aria-expanded" "false";
        ERemoveEventListener (Document, "click", handleDocumentClick_ 0);
        ERemoveEventListener (Document, "keydown", handleKeyDown_ 0);
        EAfterTransition popperEl] /\
     Overlay.transitionEnd popperEl this1 w1 = Ok this2 w2 /\
     since w1 w2
     = [EOnToggle true;
        ESetProperty popperEl prop_x css_empty;
        ESetProperty popperEl prop_y css_empty;
        ERemoveEventListener (Window, "resize", initPositionate 1);
        ERemoveEventListener (Window, "scroll", initPositionate 1);
        EOnHide;
        EOnToggle true;
        ESetProperty popperEl prop_x css_empty;
        ESetProperty popperEl prop_y css_empty;
        EOnHide] /\
     window_detached (Overlay.popper (fst reopened)) w2).
Proof.
  split.
  - destruct (hide_flips_then_tears_down (fst opened) (snd opened) opened_popper_inv)
      as (this1 & w1 & E & _ & _ & _ & _ & Hif).
    assert (R : transitionRunning (snd opened) (Overlay.contentElement (fst opened)) = true)
      by (vm_compute; reflexivity).
    rewrite R in Hif. destruct Hif as (S1 & this2 & w2 & E2 & _ & S2 & D).
    exists this1, w1, this2, w2.
    split; [exact E|]. split; [rewrite S1; vm_compute; reflexivity|].
    split; [exact E2|].
    split; [rewrite S2; vm_compute; reflexivity|]. exact D.
  - destruct (hide_flips_then_tears_down (fst reopened) (snd reopened)
                reopened_popper_inv)
      as (this1 & w1 & E & _ & _ & _ & _ & Hif).
    assert (R : transitionRunning (snd reopened) (Overlay.contentElement (fst reopened))
                = true)
      by (vm_compute; reflexivity).
    rewrite R in Hif. destruct Hif as (S1 & this2 & w2 & E2 & S2 & _ & D).
    exists this1, w1, this2, w2.
    split; [exact E|]. split; [rewrite S1; vm_compute; reflexivity|].
    split; [exact E2|].
    split; [rewrite S2; vm_compute; reflexivity|]. exact D.
Defined.

(** ** Clicks on the document *)

(** C5: while the content carries [data-state="open"], a click whose
    target is inside neither the trigger nor the content closes the
    overlay when neither prevention flag is set ([hide] runs and
    [data-state] becomes ["close"]); a click whose target is inside the
    trigger never makes the handler close it. *)
Theorem handleDocumentClick_closes_outside (this : Overlay.CreateOverlay)
    (event : MouseEvent) (w : World) :
  (attrs w !! (Overlay.contentElement this, "data-state") = Some "open" ->
   contains w (Overlay.triggerElement this) (target event) = false ->
   contains w (Overlay.contentElement this) (target event) = false ->
   Overlay.preventFromCloseOutside this = false ->
   Overlay.preventFromCloseInside this = false ->
   exists this' w',
     Overlay.handleDocumentClick event this w = Ok this' w' /\
     Overlay.hide this w = Ok this' w' /\
     attrs w' !! (Overlay.contentElement this, "data-state") = Some "close" /\
     attrs w' !! (Overlay.triggerElement this, "aria-expanded") = Some "false") /\
  (contains w (Overlay.triggerElement this) (target event) = true ->
   Overlay.handleDocumentClick event this w = Ok this w).
Proof.
  split.
  - intros Hopen Ht Hc Ho Hi.
    exists (after_hide this w), (w_hide this w).
    rewrite attrs_w_hide.
    split; [|split; [apply Overlay_hide_eq | apply state_written]].
    unfold Overlay.handleDocumentClick.
    unfold bind at 1, getAttribute at 1, gets at 1. rewrite Hopen.
    rewrite bool_decide_eq_true_2 by reflexivity.
    unfold bind at 1, gets at 1. unfold bind at 1, gets at 1.
    rewrite Ht, Ho, Hi. cbn [negb andb]. apply Overlay_hide_eq.
  - intros Ht. unfold Overlay.handleDocumentClick.
    unfold bind at 1, getAttribute at 1, gets at 1.
    case_bool_decide; [|reflexivity].
    unfold bind at 1, gets at 1. unfold bind at 1, gets at 1.
    rewrite Ht. reflexivity.
Qed.

Lemma handleDocumentClick_closes_outside_witness :
  (exists this' w',
     Overlay.handleDocumentClick {| target := outsideEl |} (fst opened) (snd opened)
       = Ok this' w' /\
     attrs w' !! (popperEl, "data-state") = Some "close") /\
  Overlay.handleDocumentClick {| target := referenceEl |} (fst opened) (snd opened)
    = Ok (fst opened) (snd opened).
Proof.
  destruct (handleDocumentClick_closes_outside (fst opened) {| target := outsideEl |}
              (snd opened)) as [Hout _].
  destruct (handleDocumentClick_closes_outside (fst opened) {| target := referenceEl |}
              (snd opened)) as [_ Hin].
  split.
  - destruct Hout as (this' & w' & E & _ & A & _); try (vm_compute; reflexivity).
    exists this', w'. split; [exact E | exact A].
  - apply Hin. vm_compute. reflexivity.
Defined.

(** The scenario of the specification, through the listeners: construct,
    click the trigger, click outside, let the transition end. *)
Example click_outside_scenario :
  exists this w,
    scenario_click_outside page = Ok this w /\
    attrs w !! (popperEl, "data-state") = Some "close" /\
    attrs w !! (referenceEl, "aria-expanded") = Some "false" /\
    listeners w = [(Node referenceEl, "click", toggleStateOnClick_ 0)] /\
    Popper.isEventRegistrer (Overlay.popper this) = false.
Proof.
  eexists _, _. split; [vm_compute; reflexivity|]. repeat split; reflexivity.
Qed.

(** ** The state attributes *)

(** C9: after construction, [show], [hide], [setShowOptions] and the
    trigger-click toggle, the content's [data-state] is ["open"] or
    ["close"], and the trigger's [aria-expanded] is ["true"] exactly when
    it is ["open"] (and ["false"] when it is ["close"]): every one of them
    ends by writing both through [updateOverlayState]. *)
Theorem overlay_state_consistent :
  (forall (trigger content : Element) options w,
     exists this w',
       Overlay.constructor (JElem trigger) (JElem content) options w = Ok this w' /\
       popper_ok this /\ state_inv this w') /\
  (forall this w, popper_ok this ->
     exists this' w',
       Overlay.show this w = Ok this' w' /\ popper_ok this' /\ state_inv this' w') /\
  (forall this w, popper_ok this ->
     exists this' w',
       Overlay.hide this w = Ok this' w' /\ popper_ok this' /\ state_inv this' w') /\
  (forall this pl off w, popper_ok this ->
     exists this' w',
       Overlay.setShowOptions this pl off w = Ok this' w' /\ popper_ok this' /\
       state_inv this' w') /\
  (forall this w, popper_ok this ->
     exists this' w',
       Overlay.toggleStateOnClick this w = Ok this' w' /\ popper_ok this' /\
       state_inv this' w').
Proof.
  split; [|split; [|split; [|split]]].
  - intros trigger content options w.
    destruct (Overlay_constructor_inv trigger content options w)
      as (this & w' & E & Hok & Hinv & _).
    exists this, w'. auto.
  - intros this w H.
    destruct (Overlay_show_inv this w H) as (this' & w' & E & Hok & Hinv & _).
    exists this', w'. auto.
  - intros this w H.
    destruct (Overlay_hide_inv this w) as (this' & w' & E & Hok & Hinv & _).
    exists this', w'. auto.
  - intros this pl off w H. apply Overlay_setShowOptions_inv. exact H.
  - intros this w H. apply Overlay_toggleStateOnClick_inv. exact H.
Qed.

Lemma overlay_state_consistent_witness :
  (exists this w',
     Overlay.show pageOverlay page = Ok this w' /\ state_inv this w') /\
  (exists this w',
     Overlay.toggleStateOnClick (fst opened) (snd opened) = Ok this w' /\
     state_inv this w') /\
  (exists this w',
     Overlay.hide (fst opened) (snd opened) = Ok this w' /\ state_inv this w').
Proof.
  destruct overlay_state_consistent as (_ & Hshow & Hhide & _ & Htoggle).
  split; [|split].
  - destruct (Hshow pageOverlay page) as (this & w' & E & _ & I);
      [reflexivity|]. exists this, w'. auto.
  - destruct (Htoggle (fst opened) (snd opened)) as (this & w' & E & _ & I);
      [vm_compute; reflexivity|]. exists this, w'. auto.
  - destruct (Hhide (fst opened) (snd opened)) as (this & w' & E & _ & I);
      [vm_compute; reflexivity|]. exists this, w'. auto.
Defined.

(** ** Key presses *)

Lemma Overlay_handleKeyDown_eq this event w :
  let event' := {| key := key event; defaultPrevented := true |} in
  let w0 := emit EPreventDefault w in
  Overlay.handleKeyDown event this w
  = if negb (is_hover (Overlay.triggerStrategy this)) && String.eqb (key event) "Escape"
    then if bool_decide (attrs w !! (Overlay.contentElement this, "data-state")
                         = Some "open")
         then if negb (Overlay.preventFromCloseOutside this)
              then Ok (event', after_hide this w0) (w_hide this w0)
              else Ok (event', this) w0
         else Ok (event', this) w0
    else Ok (event', this) w0.
Proof.
  intros event' w0. unfold Overlay.handleKeyDown.
  unfold bind at 1, modify at 1. fold w0. cbv zeta. cbn [key]. fold event'.
  destruct (negb (is_hover _) && String.eqb (key event) "Escape"); [|reflexivity].
  unfold bind at 1, getAttribute at 1, gets at 1.
  change (attrs w0) with (attrs w).
  case_bool_decide; [|reflexivity].
  destruct (negb (Overlay.preventFromCloseOutside this)); [|reflexivity].
  unfold bind at 1. rewrite Overlay_hide_eq. reflexivity.
Qed.

Lemma Overlay_handleKeyDown_cases this event w :
  let event' := {| key := key event; defaultPrevented := true |} in
  let w0 := emit EPreventDefault w in
  (Overlay.handleKeyDown event this w = Ok (event', this) w0) \/
  (Overlay.handleKeyDown event this w
   = Ok (event', after_hide this w0) (w_hide this w0) /\
   Overlay.triggerStrategy this <> hover /\ key event = "Escape" /\
   attrs w !! (Overlay.contentElement this, "data-state") = Some "open" /\
   Overlay.preventFromCloseOutside this = false).
Proof.
  intros event' w0. rewrite Overlay_handleKeyDown_eq. fold event' w0.
  destruct (Overlay.triggerStrategy this) eqn:S; cbn [is_hover negb andb];
    [|left; reflexivity].
  destruct (String.eqb_spec (key event) "Escape") as [K|K]; [|left; reflexivity].
  case_bool_decide as A; [|left; reflexivity].
  destruct (Overlay.preventFromCloseOutside this) eqn:Po; cbn [negb];
    [left; reflexivity|].
  right. repeat split; [discriminate | exact K | exact A].
Qed.

(** C10: the keydown handler calls [preventDefault()] first and on every
    event, whatever the key, the strategy and the state; only then does it
    look at the key and the close conditions.  The handler is the
    document's keydown listener from [show] on. *)
Theorem handleKeyDown_prevents_default (this : Overlay.CreateOverlay)
    (event : KeyboardEvent) (w : World) :
  (exists event' this' w' rest,
     Overlay.handleKeyDown event this w = Ok (event', this') w' /\
     defaultPrevented event' = true /\
     since w w' = EPreventDefault :: rest /\
     (key event <> "Escape" -> rest = [] /\ this' = this)) /\
  (keydownListener this ∈ listeners w ->
   Overlay.dispatchKeyDown event this w = Overlay.handleKeyDown event this w) /\
  (popper_ok this ->
   exists this1 w1,
     Overlay.show this w = Ok this1 w1 /\ keydownListener this1 ∈ listeners w1).
Proof.
  split; [|split].
  - destruct (Overlay_handleKeyDown_cases this event w) as [E|(E & _ & K & _)].
    + eexists _, _, _, []. split; [exact E|]. split; [reflexivity|].
      split; [apply since_app; reflexivity|]. auto.
    + eexists _, _, _, _. split; [exact E|]. split; [reflexivity|].
      split; [|intros Hk; contradiction].
      apply since_app. rewrite log_w_hide. cbn [log emit].
      rewrite <- app_assoc. reflexivity.
  - intros Hin. unfold Overlay.dispatchKeyDown.
    unfold bind at 1, gets at 1. unfold has_listener.
    rewrite bool_decide_eq_true_2 by exact Hin. reflexivity.
  - intros H. exists (after_show this), (w_show this w).
    split; [apply Overlay_show_eq; exact H|].
    unfold w_show. cbv zeta. apply listeners_w_open. right. left. reflexivity.
Qed.

Lemma handleKeyDown_prevents_default_witness :
  exists event' this' w',
    Overlay.dispatchKeyDown keyA (fst opened) (snd opened) = Ok (event', this') w' /\
    defaultPrevented event' = true /\
    since (snd opened) w' = [EPreventDefault].
Proof.
  destruct (handleKeyDown_prevents_default (fst opened) keyA (snd opened))
    as ((event' & this' & w' & rest & E & D & S & K) & Hd & _).
  destruct K as [-> _]; [vm_compute; discriminate|].
  exists event', this', w'. rewrite Hd by by_running. auto.
Defined.

(** ** The listener invariant is kept by the overlay's transitions *)

Lemma popper_inv_no_window_listeners p w :
  NoDup (listeners w) ->
  (forall ty cb, (Window, ty, cb) ∉ listeners w) ->
  popper_inv p w.
Proof.
  intros Hnd Hno. unfold popper_inv, listeners_wf, attached.
  repeat split; try assumption; intros; apply Hno.
Qed.

Lemma popper_inv_window p w w' :
  NoDup (listeners w') ->
  (forall ty, (Window, ty, initPositionate (Popper.self p)) ∈ listeners w' ->
              (Window, ty, initPositionate (Popper.self p)) ∈ listeners w) ->
  popper_inv p w -> popper_inv p w'.
Proof.
  intros Hnd Hsub ((_ & Hr & Hs) & Hreg). unfold popper_inv, listeners_wf, attached in *.
  split; [split; [exact Hnd|]; split|]; intros.
  - intros Hin. apply (Hr H), Hsub, Hin.
  - intros Hin. apply (Hs H), Hsub, Hin.
  - destruct (Hreg H) as [H1 H2]. split; intros Hin; [apply H1|apply H2]; apply Hsub, Hin.
Qed.

Lemma NoDup_w_open this w : NoDup (listeners w) -> NoDup (listeners (w_open this w)).
Proof.
  intros H. unfold w_open.
  destruct (oo_onShow _), (oo_onToggle _), (oo_beforeShow _);
    cbn [w_when listeners emit w_updateOverlayState w_setAttribute set_attrs
         w_addEventListener set_listeners];
    repeat apply NoDup_add_listener; exact H.
Qed.

Lemma popper_inv_w_open this p w : popper_inv p w -> popper_inv p (w_open this w).
Proof.
  intros H. apply (popper_inv_window p w).
  - apply NoDup_w_open, H.
  - intros ty Hin. apply listeners_w_open in Hin.
    destruct Hin as [E|[E|Hin]]; [discriminate E | discriminate E | exact Hin].
  - exact H.
Qed.

Lemma popper_inv_registered p cb dr ds w :
  cb = initPositionate (Popper.self p) ->
  dr = Popper.disableOnResize p -> ds = Popper.disableOnScroll p ->
  listeners_wf cb dr ds w ->
  popper_inv (Popper.set_isEventRegistrer true p) w.
Proof.
  intros -> -> -> H. split; [exact H | discriminate].
Qed.

Lemma Overlay_show_keeps_inv this w :
  popper_inv (Overlay.popper this) w ->
  popper_inv (Overlay.popper (after_show this)) (w_show this w).
Proof.
  intros (Hwf & _). unfold w_show, after_show. cbv zeta.
  apply popper_inv_w_open.
  cbn [Overlay.popper Overlay.set_popper].
  set (p := Overlay.popper this) in *.
  set (w0 := w_initPlacement _ _ _ _ _ w).
  assert (Hwf0 : listeners_wf (initPositionate (Popper.self p))
                   (Popper.disableOnResize p) (Popper.disableOnScroll p) w0).
  { unfold listeners_wf, attached in *. unfold w0.
    rewrite listeners_w_initPlacement. exact Hwf. }
  destruct (attach_per_flags _ _ _ false w0 Hwf0) as (_ & Hw & _).
  cbn [w_when] in Hw.
  eapply popper_inv_registered; [reflexivity | reflexivity | reflexivity | exact Hw].
Qed.

Lemma Overlay_hide_keeps_inv this w :
  popper_inv (Overlay.popper this) w ->
  popper_inv (Overlay.popper (after_hide this w)) (w_hide this w).
Proof.
  intros H. pose proof (popper_inv_w_hide_now this w H) as H1.
  unfold after_hide, w_hide.
  destruct (transitionRunning w (Overlay.contentElement this)).
  - apply (popper_inv_same_listeners _ (w_hide_now this w)); [reflexivity | exact H1].
  - pose proof (window_detached_hideCallback this _ H1) as [Dr Ds].
    unfold after_hideCallback. cbn [Overlay.popper Overlay.set_popper].
    unfold popper_inv, listeners_wf.
    cbn [Popper.self Popper.disableOnResize Popper.disableOnScroll
         Popper.isEventRegistrer Popper.set_isEventRegistrer].
    split; [split; [|split; intros _; assumption] | intros _; split; assumption].
    rewrite listeners_w_hideCallback. unfold w_cleanupEvents.
    destruct H1 as ((Hnd & _) & _).
    destruct (Popper.isEventRegistrer _); cbn [w_when]; [|exact Hnd].
    rewrite listeners_w_clean.
    destruct (Popper.disableOnResize _), (Popper.disableOnScroll _);
      repeat apply NoDup_remove_listener; exact Hnd.
Qed.

(** * Further properties of the code *)

(** ** Listener lists: adding and removing *)

Lemma add_listener_in (l : Listener) (ls : list Listener) :
  l ∈ ls -> add_listener l ls = ls.
Proof.
  intros H. unfold add_listener, has_listener.
  rewrite bool_decide_eq_true_2 by exact H. reflexivity.
Qed.

Lemma add_listener_notin (l : Listener) (ls : list Listener) :
  l ∉ ls -> add_listener l ls = (ls ++ [l])%list.
Proof.
  intros H. unfold add_listener, has_listener.
  rewrite bool_decide_eq_false_2 by exact H. reflexivity.
Qed.

Lemma remove_listener_notin (l : Listener) (ls : list Listener) :
  l ∉ ls -> remove_listener l ls = ls.
Proof.
  unfold remove_listener. induction ls as [|a ls IH]; intros H; [reflexivity|].
  rewrite filter_cons. destruct (decide (a <> l)) as [Hne|Heq].
  - f_equal. apply IH. intros Hin. apply H. right. exact Hin.
  - exfalso. apply H. destruct (decide (a = l)) as [->|Hn]; [left|contradiction].
Qed.

Lemma remove_listener_app (l : Listener) (ls ks : list Listener) :
  remove_listener l (ls ++ ks) = (remove_listener l ls ++ remove_listener l ks)%list.
Proof. unfold remove_listener. apply filter_app. Qed.

Lemma remove_add_same (l : Listener) (ls : list Listener) :
  l ∉ ls -> remove_listener l (add_listener l ls) = ls.
Proof.
  intros H. rewrite add_listener_notin by exact H.
  rewrite remove_listener_app, remove_listener_notin by exact H.
  unfold remove_listener. rewrite filter_cons.
  destruct (decide (l <> l)) as [Hne|_]; [contradiction|]. apply app_nil_r.
Qed.

Lemma remove_add_other (l l' : Listener) (ls : list Listener) :
  l <> l' ->
  remove_listener l (add_listener l' ls) = add_listener l' (remove_listener l ls).
Proof.
  intros Hne. destruct (decide (l' ∈ ls)) as [Hin|Hnin].
  - rewrite add_listener_in by exact Hin.
    rewrite add_listener_in; [reflexivity|].
    apply elem_of_remove_listener. split; [congruence | exact Hin].
  - rewrite add_listener_notin by exact Hnin.
    rewrite add_listener_notin.
    + rewrite remove_listener_app. f_equal.
      unfold remove_listener. rewrite filter_cons.
      destruct (decide (l' <> l)) as [_|Heq]; [reflexivity|].
      exfalso. apply Heq. congruence.
    + intros Hin. apply elem_of_remove_listener in Hin. tauto.
Qed.

Lemma add_listener_idem (l : Listener) (ls : list Listener) :
  add_listener l (add_listener l ls) = add_listener l ls.
Proof. apply add_listener_in. apply elem_of_add_listener. left. reflexivity. Qed.

Lemma add_listener_twice (l l' : Listener) (ls : list Listener) :
  add_listener l' (add_listener l (add_listener l' (add_listener l ls)))
  = add_listener l' (add_listener l ls).
Proof.
  rewrite (add_listener_in l).
  - apply add_listener_idem.
  - apply elem_of_add_listener. right. apply elem_of_add_listener. left. reflexivity.
Qed.

(** ** popper.ts: the life cycle of the window listeners *)

Lemma position_cleared_w_setInitialStyles p w :
  position_cleared p (w_setInitialStyles p w).
Proof.
  unfold position_cleared, w_setInitialStyles. cbn [styles emit w_setProperty set_styles].
  split.
  - rewrite lookup_insert_ne by (unfold prop_x, prop_y; congruence).
    apply lookup_insert_eq.
  - apply lookup_insert_eq.
Qed.

Lemma listeners_attach_then_clean (cb : Callback) (dr ds : bool) (ls : list Listener) :
  (Window, "resize", cb) ∉ ls -> (Window, "scroll", cb) ∉ ls ->
  (if ds then (fun k : list Listener => k) else remove_listener (Window, "scroll", cb))
    ((if dr then (fun k : list Listener => k) else remove_listener (Window, "resize", cb))
       ((if ds then (fun k : list Listener => k) else add_listener (Window, "scroll", cb))
          ((if dr then (fun k : list Listener => k) else add_listener (Window, "resize", cb)) ls)))
  = ls.
Proof.
  intros Hr Hs. pose proof (resize_neq_scroll cb) as Hne.
  destruct dr, ds; cbv beta iota.
  - reflexivity.
  - apply remove_add_same, Hs.
  - apply remove_add_same, Hr.
  - rewrite remove_add_other by exact Hne.
    rewrite (remove_add_same (Window, "resize", cb)) by exact Hr.
    apply remove_add_same, Hs.
Qed.

(** X1: on [popper.ts], [updatePosition] followed by [cleanupEvents]
    leaves the window's listener list exactly as it was before (when the
    controller had no listener there), both position properties empty,
    the attributes untouched and the controller marked unregistered. *)
Theorem updatePosition_cleanupEvents_roundtrip (this : Popper.CreatePopper) (w : World) :
  typeof_number (Popper.offsetDistance this) = true ->
  detached (initPositionate (Popper.self this)) w ->
  exists this1 w1 this2 w2,
    Popper.updatePosition this w = Ok this1 w1 /\
    Popper.cleanupEvents this1 w1 = Ok this2 w2 /\
    listeners w2 = listeners w /\
    position_cleared (Popper.popper this) w2 /\
    attrs w2 = attrs w /\
    Popper.isEventRegistrer this2 = false.
Proof.
  intros H [Hr Hs]. unfold attached in Hr, Hs.
  eexists _, _, _, _.
  split; [apply Popper_updatePosition_eq; exact H|].
  split; [apply Popper_cleanupEvents_eq|].
  cbn [Popper.set_isEventRegistrer Popper.isEventRegistrer Popper.self
       Popper.disableOnResize Popper.disableOnScroll Popper.popper w_when].
  split; [|split; [|split; [|reflexivity]]].
  - rewrite listeners_w_clean.
    change (listeners (w_setInitialStyles ?p ?w')) with (listeners w').
    rewrite listeners_w_attach, listeners_w_initPlacement.
    apply listeners_attach_then_clean; assumption.
  - unfold position_cleared. rewrite styles_w_clean.
    apply position_cleared_w_setInitialStyles.
  - destruct (Popper.disableOnResize this), (Popper.disableOnScroll this);
      cbn [w_clean w_when negb attrs emit w_removeEventListener set_listeners
           w_setInitialStyles w_setProperty set_styles];
      rewrite attrs_w_attach; apply attrs_w_initPlacement.
Qed.

Lemma updatePosition_cleanupEvents_roundtrip_witness :
  exists this1 w1 this2 w2,
    Popper.updatePosition pagePopper page = Ok this1 w1 /\
    Popper.cleanupEvents this1 w1 = Ok this2 w2 /\
    listeners w1 = [(Window, "resize", initPositionate 0);
                    (Window, "scroll", initPositionate 0)] /\
    listeners w2 = [].
Proof.
  assert (D : detached (initPositionate (Popper.self pagePopper)) page).
  { split; unfold attached; by_running. }
  destruct (updatePosition_cleanupEvents_roundtrip pagePopper page eq_refl D)
    as (this1 & w1 & this2 & w2 & E1 & E2 & L & _).
  exists this1, w1, this2, w2.
  split; [exact E1|]. split; [exact E2|]. split; [|exact L].
  rewrite Popper_updatePosition_eq in E1 by reflexivity.
  injection E1 as _ <-. vm_compute. reflexivity.
Defined.

Lemma listeners_attach_twice (cb : Callback) (dr ds : bool) (ls : list Listener) :
  let A := fun k : list Listener =>
    (if ds then (fun k : list Listener => k) else add_listener (Window, "scroll", cb))
      ((if dr then (fun k : list Listener => k) else add_listener (Window, "resize", cb)) k) in
  A (A ls) = A ls.
Proof.
  cbv zeta beta. destruct dr, ds; cbv beta iota.
  - reflexivity.
  - apply add_listener_idem.
  - apply add_listener_idem.
  - apply add_listener_twice.
Qed.

(** X2: on [popper.ts], repeating [updatePosition] never grows the
    window's listener list: after the second call the list is what it was
    after the first, whatever was in it before. *)
Theorem updatePosition_no_listener_growth (this : Popper.CreatePopper) (w : World) :
  typeof_number (Popper.offsetDistance this) = true ->
  exists this1 w1 w2,
    Popper.updatePosition this w = Ok this1 w1 /\
    Popper.updatePosition this1 w1 = Ok this1 w2 /\
    listeners w2 = listeners w1.
Proof.
  intros H. eexists _, _, _.
  split; [apply Popper_updatePosition_eq; exact H|].
  split; [apply (Popper_updatePosition_eq (Popper.set_isEventRegistrer true this));
          exact H|].
  cbn [Popper.set_isEventRegistrer Popper.self Popper.disableOnResize
       Popper.disableOnScroll Popper.reference Popper.popper Popper.placement
       Popper.offsetDistance Popper.onUpdate].
  rewrite !listeners_w_attach, !listeners_w_initPlacement, listeners_w_attach,
          listeners_w_initPlacement.
  apply listeners_attach_twice.
Qed.

Lemma updatePosition_no_listener_growth_witness :
  exists this1 w1 w2,
    Popper.updatePosition pagePopper page = Ok this1 w1 /\
    Popper.updatePosition this1 w1 = Ok this1 w2 /\
    listeners w2 = listeners w1.
Proof. exact (updatePosition_no_listener_growth pagePopper page eq_refl). Defined.

(** X3: on [popper.ts], when the stored offset is not a number,
    [updatePosition] and [setOptions] throw "OffsetDistance must be a
    number" before anything is touched: no style is cleared, nothing is
    measured, no listener is attached. *)
Theorem invalid_offset_fails_before_any_effect (this : Popper.CreatePopper)
    (pl : Placement) (off : option Q) (w : World) :
  typeof_number (Popper.offsetDistance this) = false ->
  Popper.updatePosition this w = Throw InvalidOffsetDistance w /\
  Popper.setOptions this pl off w = Throw InvalidOffsetDistance w.
Proof.
  intros H. split.
  - apply Popper_updatePosition_throw. exact H.
  - unfold Popper.setOptions. unfold bind at 1.
    rewrite Popper_initPlacement_throw by exact H. reflexivity.
Qed.

Lemma invalid_offset_fails_before_any_effect_witness :
  Popper.updatePosition emptyOffsetPopper page = Throw InvalidOffsetDistance page /\
  Popper.setOptions emptyOffsetPopper (mkPlacement top None) (Some 4) page
    = Throw InvalidOffsetDistance page.
Proof.
  exact (invalid_offset_fails_before_any_effect emptyOffsetPopper
           (mkPlacement top None) (Some 4) page eq_refl).
Defined.

Lemma Popper_dispatch_detached ty this w :
  ~ attached (initPositionate (Popper.self this)) ty w ->
  Popper.dispatchWindowEvent ty this w = Ok tt w.
Proof.
  intros H. unfold Popper.dispatchWindowEvent.
  unfold bind at 1, gets at 1. unfold has_listener.
  rewrite bool_decide_eq_false_2 by exact H. reflexivity.
Qed.

Lemma Popper_dispatch_attached ty this w :
  typeof_number (Popper.offsetDistance this) = true ->
  attached (initPositionate (Popper.self this)) ty w ->
  Popper.dispatchWindowEvent ty this w
  = Ok tt (w_initPlacement (Popper.reference this) (Popper.popper this)
             (Popper.placement this) (num_of (Popper.offsetDistance this))
             (Popper.onUpdate this) w).
Proof.
  intros H Hin. unfold Popper.dispatchWindowEvent.
  unfold bind at 1, gets at 1. unfold has_listener.
  rewrite bool_decide_eq_true_2 by exact Hin. cbn [when].
  unfold Popper.initPositionate_. rewrite Popper_initPlacement_eq by exact H.
  reflexivity.
Qed.

Lemma positioned_at_w_initPlacement r p pl off u w :
  positioned_at p (resolve r p pl off w) (w_initPlacement r p pl off u w).
Proof. apply styles_w_initPlacement. Qed.

Lemma onUpdate_calls_since_initPlacement r p pl off u w :
  onUpdate_calls (since w (w_initPlacement r p pl off u w))
  = if u then [(x (resolve r p pl off w), y (resolve r p pl off w), pl)] else [].
Proof.
  erewrite since_app by apply log_w_initPlacement.
  rewrite !onUpdate_calls_app, onUpdate_calls_measure, onUpdate_calls_onUpdate.
  cbn [onUpdate_calls flat_map app]. reflexivity.
Qed.

(** X4: on [popper.ts], the disable flags are honoured by the events
    themselves: once [updatePosition] has run, a window resize (scroll)
    event changes nothing at all when [disableOnResize] ([disableOnScroll])
    is set, and otherwise writes the position again and invokes
    [onUpdate] once more with the same coordinate. *)
Theorem window_events_respect_disable_flags (this : Popper.CreatePopper) (w : World) :
  typeof_number (Popper.offsetDistance this) = true ->
  listeners_wf (initPositionate (Popper.self this))
    (Popper.disableOnResize this) (Popper.disableOnScroll this) w ->
  let c := resolve (Popper.reference this) (Popper.popper this)
             (Popper.placement this) (num_of (Popper.offsetDistance this)) w in
  let calls := if Popper.onUpdate this then [(x c, y c, Popper.placement this)] else [] in
  exists this1 w1,
    Popper.updatePosition this w = Ok this1 w1 /\
    (exists w2,
       Popper.dispatchWindowEvent "resize" this1 w1 = Ok tt w2 /\
       if Popper.disableOnResize this then w2 = w1
       else positioned_at (Popper.popper this) c w2 /\
            onUpdate_calls (since w1 w2) = calls) /\
    (exists w2,
       Popper.dispatchWindowEvent "scroll" this1 w1 = Ok tt w2 /\
       if Popper.disableOnScroll this then w2 = w1
       else positioned_at (Popper.popper this) c w2 /\
            onUpdate_calls (since w1 w2) = calls).
Proof.
  intros H Hwf c calls.
  set (this1 := Popper.set_isEventRegistrer true this).
  set (w0 := w_initPlacement (Popper.reference this) (Popper.popper this)
               (Popper.placement this) (num_of (Popper.offsetDistance this))
               (Popper.onUpdate this) w).
  set (w1 := w_attach (initPositionate (Popper.self this))
               (Popper.disableOnResize this) (Popper.disableOnScroll this) w0).
  assert (Hwf0 : listeners_wf (initPositionate (Popper.self this))
                   (Popper.disableOnResize this) (Popper.disableOnScroll this) w0).
  { unfold listeners_wf, attached in *. unfold w0.
    rewrite listeners_w_initPlacement. exact Hwf. }
  destruct (attach_per_flags _ _ _ false w0 Hwf0) as ([Ar As] & _ & _).
  cbn [w_when] in Ar, As. fold w1 in Ar, As.
  assert (L : same_layout w w1).
  { eapply same_layout_trans; [apply w_initPlacement_layout | apply w_attach_layout]. }
  assert (R : resolve (Popper.reference this) (Popper.popper this)
                (Popper.placement this) (num_of (Popper.offsetDistance this)) w1 = c)
    by (apply resolve_layout; exact L).
  assert (D : forall ty (flag : bool),
             (attached (initPositionate (Popper.self this)) ty w1 <-> flag = false) ->
             exists w2,
               Popper.dispatchWindowEvent ty this1 w1 = Ok tt w2 /\
               if flag then w2 = w1
               else positioned_at (Popper.popper this) c w2 /\
                    onUpdate_calls (since w1 w2) = calls).
  { intros ty flag Hf. destruct flag.
    - exists w1. split; [|reflexivity].
      apply Popper_dispatch_detached. intros Hin. apply Hf in Hin. discriminate.
    - eexists. split.
      + apply Popper_dispatch_attached; [exact H | apply Hf; reflexivity].
      + cbn [this1 Popper.set_isEventRegistrer Popper.reference Popper.popper
             Popper.placement Popper.offsetDistance Popper.onUpdate].
        split.
        * rewrite <- R. apply positioned_at_w_initPlacement.
        * rewrite onUpdate_calls_since_initPlacement, R. reflexivity. }
  exists this1, w1.
  split; [apply Popper_updatePosition_eq; exact H|].
  split; [apply (D "resize" _ Ar) | apply (D "scroll" _ As)].
Qed.

Lemma window_events_respect_disable_flags_witness :
  exists this1 w1 w2,
    Popper.updatePosition pagePopper page = Ok this1 w1 /\
    Popper.dispatchWindowEvent "resize" this1 w1 = Ok tt w2 /\
    onUpdate_placements (since w1 w2) = [mkPlacement right None].
Proof.
  assert (Hwf : listeners_wf (initPositionate (Popper.self pagePopper))
                  (Popper.disableOnResize pagePopper)
                  (Popper.disableOnScroll pagePopper) page).
  { unfold listeners_wf, attached.
    split; [by_running | split; vm_compute; discriminate]. }
  destruct (window_events_respect_disable_flags pagePopper page eq_refl Hwf)
    as (this1 & w1 & E & (w2 & E2 & _ & C) & _).
  exists this1, w1, w2. split; [exact E|]. split; [exact E2|].
  unfold onUpdate_placements. rewrite C. reflexivity.
Defined.

(** X5: on [popper.ts], [resetPosition] empties both position properties
    and leaves listeners and attributes alone, so the popper is only
    hidden until the next event: with resize enabled, the next resize puts
    the popper back where [updatePosition] had put it. *)
Theorem resetPosition_keeps_wiring (this : Popper.CreatePopper) (w : World) :
  typeof_number (Popper.offsetDistance this) = true ->
  listeners_wf (initPositionate (Popper.self this))
    (Popper.disableOnResize this) (Popper.disableOnScroll this) w ->
  Popper.disableOnResize this = false ->
  let c := resolve (Popper.reference this) (Popper.popper this)
             (Popper.placement this) (num_of (Popper.offsetDistance this)) w in
  exists this1 w1 w2 w3,
    Popper.updatePosition this w = Ok this1 w1 /\
    positioned_at (Popper.popper this) c w1 /\
    Popper.resetPosition this1 w1 = Ok tt w2 /\
    position_cleared (Popper.popper this) w2 /\
    listeners w2 = listeners w1 /\ attrs w2 = attrs w1 /\
    Popper.dispatchWindowEvent "resize" this1 w2 = Ok tt w3 /\
    positioned_at (Popper.popper this) c w3.
Proof.
  intros H Hwf Hdr c.
  set (this1 := Popper.set_isEventRegistrer true this).
  set (w0 := w_initPlacement (Popper.reference this) (Popper.popper this)
               (Popper.placement this) (num_of (Popper.offsetDistance this))
               (Popper.onUpdate this) w).
  set (w1 := w_attach (initPositionate (Popper.self this))
               (Popper.disableOnResize this) (Popper.disableOnScroll this) w0).
  set (w2 := w_setInitialStyles (Popper.popper this) w1).
  assert (Hwf0 : listeners_wf (initPositionate (Popper.self this))
                   (Popper.disableOnResize this) (Popper.disableOnScroll this) w0).
  { unfold listeners_wf, attached in *. unfold w0.
    rewrite listeners_w_initPlacement. exact Hwf. }
  destruct (attach_per_flags _ _ _ false w0 Hwf0) as ([Ar _] & _ & _).
  cbn [w_when] in Ar. fold w1 in Ar.
  assert (L : same_layout w w2).
  { eapply same_layout_trans; [apply w_initPlacement_layout|].
    eapply same_layout_trans; [apply w_attach_layout|]. repeat split. }
  exists this1, w1, w2. eexists.
  split; [apply Popper_updatePosition_eq; exact H|].
  split; [unfold positioned_at, w1; rewrite styles_w_attach;
          apply styles_w_initPlacement|].
  split; [reflexivity|].
  split; [apply position_cleared_w_setInitialStyles|].
  split; [reflexivity|]. split; [reflexivity|].
  split.
  - apply Popper_dispatch_attached; [exact H|].
    unfold attached. change (listeners w2) with (listeners w1).
    apply Ar. exact Hdr.
  - cbn [this1 Popper.set_isEventRegistrer Popper.reference Popper.popper
         Popper.placement Popper.offsetDistance Popper.onUpdate].
    unfold c. rewrite <- (resolve_layout _ _ _ _ w w2 L).
    apply positioned_at_w_initPlacement.
Qed.

Lemma resetPosition_keeps_wiring_witness :
  exists this1 w1 w2 w3,
    Popper.updatePosition pagePopper page = Ok this1 w1 /\
    Popper.resetPosition this1 w1 = Ok tt w2 /\
    position_cleared popperEl w2 /\
    Popper.dispatchWindowEvent "resize" this1 w2 = Ok tt w3 /\
    styles w3 !! (popperEl, prop_x) = styles w1 !! (popperEl, prop_x).
Proof.
  assert (Hwf : listeners_wf (initPositionate (Popper.self pagePopper))
                  (Popper.disableOnResize pagePopper)
                  (Popper.disableOnScroll pagePopper) page).
  { unfold listeners_wf, attached.
    split; [by_running | split; vm_compute; discriminate]. }
  destruct (resetPosition_keeps_wiring pagePopper page eq_refl Hwf eq_refl)
    as (this1 & w1 & w2 & w3 & E1 & [P1 _] & E2 & C & _ & _ & E3 & [P3 _]).
  exists this1, w1, w2, w3.
  split; [exact E1|]. split; [exact E2|]. split; [exact C|]. split; [exact E3|].
  etransitivity; [exact P3 | symmetry; exact P1].
Defined.

(** X6: [setOptions] cannot set an offset of 0: [offsetDistance ||
    this.offsetDistance] treats 0 as absent, so on both implementations a
    call with offset 0 is the same call as one without an offset (and the
    second implementation keeps the stored offset). *)
Theorem setOptions_zero_offset_is_omitted (q : Q) (pl : Placement) (w : World) :
  q == 0 ->
  (forall this : Popper.CreatePopper,
     Popper.setOptions this pl (Some q) w = Popper.setOptions this pl None w) /\
  (forall this : PopperDup.CreatePopper,
     PopperDup.setOptions this pl (Some q) w = PopperDup.setOptions this pl None w /\
     forall this' w', PopperDup.setOptions this pl (Some q) w = Ok this' w' ->
                      PopperDup.offsetDistance this' = PopperDup.offsetDistance this).
Proof.
  intros Hq. apply Qeq_bool_iff in Hq. split.
  - intros this. unfold Popper.setOptions, Popper.initPlacement, or_num.
    rewrite Hq. reflexivity.
  - intros this. split.
    + unfold PopperDup.setOptions. rewrite Hq. reflexivity.
    + intros this' w'. rewrite PopperDup_setOptions_unfold.
      unfold or_offset. rewrite Hq.
      unfold PopperDup.updatePosition. unfold bind at 1.
      destruct (PopperDup.initPlacement _ w); [|discriminate].
      rewrite PopperDup_attachWindowEvent_eq. intros [= <- _]. reflexivity.
Qed.

Lemma setOptions_zero_offset_is_omitted_witness :
  Popper.setOptions pagePopper (mkPlacement top None) (Some 0) page
  = Popper.setOptions pagePopper (mkPlacement top None) None page.
Proof.
  apply (setOptions_zero_offset_is_omitted 0 (mkPlacement top None) page).
  reflexivity.
Defined.

(** X7: on [popper.ts], [cleanupEvents] is idempotent: a second call
    removes no listener (it does not even call [removeEventListener]), it
    only empties the two position properties again. *)
Theorem cleanupEvents_idempotent (this : Popper.CreatePopper) (w : World) :
  exists this1 w1 w2,
    Popper.cleanupEvents this w = Ok this1 w1 /\
    Popper.cleanupEvents this1 w1 = Ok this1 w2 /\
    listeners w2 = listeners w1 /\
    position_cleared (Popper.popper this) w1 /\
    position_cleared (Popper.popper this) w2 /\
    since w1 w2 = [ESetProperty (Popper.popper this) prop_x css_empty;
                   ESetProperty (Popper.popper this) prop_y css_empty].
Proof.
  eexists _, _, _.
  split; [apply Popper_cleanupEvents_eq|].
  split; [apply (Popper_cleanupEvents_eq (Popper.set_isEventRegistrer false this))|].
  cbn [Popper.set_isEventRegistrer Popper.isEventRegistrer Popper.popper w_when].
  split; [reflexivity|].
  split; [unfold position_cleared;
          destruct (Popper.isEventRegistrer this); cbn [w_when];
          rewrite ?styles_w_clean; apply position_cleared_w_setInitialStyles|].
  split; [apply position_cleared_w_setInitialStyles|].
  apply since_app. cbn [log w_setInitialStyles w_setProperty emit set_styles].
  rewrite <- app_assoc. reflexivity.
Qed.

(** ** utils.ts: missing elements *)

(** X8: [getDimensions] throws "Reference or popper element is null or
    undefined" as soon as either argument is falsy ([null], [undefined]),
    whatever the other one is, and before any rectangle is measured. *)
Theorem getDimensions_rejects_missing (reference popper : JsVal) (w : World) :
  truthy reference = false \/ truthy popper = false ->
  getDimensions reference popper w = Throw MissingElement w.
Proof.
  intros [H|H]; unfold getDimensions; rewrite H; cbn [negb orb];
    [|rewrite orb_true_r]; reflexivity.
Qed.

Lemma getDimensions_rejects_missing_witness :
  getDimensions JNull (JElem popperEl) page = Throw MissingElement page /\
  getDimensions (JElem referenceEl) JUndefined page = Throw MissingElement page.
Proof.
  split; apply getDimensions_rejects_missing; [left | right]; reflexivity.
Defined.

(** ** The second implementation: a listener that re-registers itself *)

Lemma PopperDup_cleanupEvents_eq this w :
  PopperDup.cleanupEvents this w
  = Ok (PopperDup.set_isWindowEventsRegistered false this)
       (w_when (PopperDup.isWindowEventsRegistered this)
          (w_clean (updatePosition_ (PopperDup.self this))
             (PopperDup.disableOnResize this) (PopperDup.disableOnScroll this))
          (w_setInitialStyles (PopperDup.popper this) w)).
Proof.
  unfold PopperDup.cleanupEvents. unfold bind at 1.
  change (PopperDup.setInitialStyles this w)
    with (Ok tt (w_setInitialStyles (PopperDup.popper this) w)).
  cbv beta iota. apply PopperDup_removeWindowEvents_eq.
Qed.

(** X9: in the second implementation the window listener is
    [updatePosition] itself, which detaches and re-attaches on every run.
    A resize event delivered to a registered controller therefore leaves
    the listeners attached exactly per the flags, still without
    duplicates, and every other listener where it was. *)
Theorem dup_resize_keeps_listeners (this : PopperDup.CreatePopper) (w : World) :
  typeof_number (PopperDup.offsetDistance this) = true ->
  listeners_wf (updatePosition_ (PopperDup.self this))
    (PopperDup.disableOnResize this) (PopperDup.disableOnScroll this) w ->
  attached (updatePosition_ (PopperDup.self this)) "resize" w ->
  exists this' w',
    PopperDup.dispatchWindowEvent "resize" this w = Ok this' w' /\
    PopperDup.isWindowEventsRegistered this' = true /\
    attached_per_flags (updatePosition_ (PopperDup.self this))
      (PopperDup.disableOnResize this) (PopperDup.disableOnScroll this) w' /\
    listeners_wf (updatePosition_ (PopperDup.self this))
      (PopperDup.disableOnResize this) (PopperDup.disableOnScroll this) w' /\
    others_kept (updatePosition_ (PopperDup.self this)) w w'.
Proof.
  intros H Hwf Hin.
  set (w0 := w_initPlacement (PopperDup.reference this) (PopperDup.popper this)
               (PopperDup.placement this) (num_of (PopperDup.offsetDistance this))
               (PopperDup.onUpdate this) w).
  assert (Hl : listeners w0 = listeners w) by apply listeners_w_initPlacement.
  assert (Hwf0 : listeners_wf (updatePosition_ (PopperDup.self this))
                   (PopperDup.disableOnResize this) (PopperDup.disableOnScroll this) w0).
  { unfold listeners_wf, attached in *. rewrite Hl. exact Hwf. }
  destruct (attach_per_flags _ _ _ (PopperDup.isWindowEventsRegistered this) w0 Hwf0)
    as (Ha & Hw & Ho).
  eexists _, _. split.
  - unfold PopperDup.dispatchWindowEvent. unfold bind at 1, gets at 1.
    unfold has_listener. rewrite bool_decide_eq_true_2 by exact Hin.
    apply PopperDup_updatePosition_eq. exact H.
  - split; [reflexivity|]. split; [exact Ha|]. split; [exact Hw|].
    unfold others_kept in *. rewrite <- Hl. exact Ho.
Qed.

Lemma dup_resize_keeps_listeners_witness :
  exists this1 w1 this2 w2,
    PopperDup.updatePosition pagePopperDup page = Ok this1 w1 /\
    PopperDup.dispatchWindowEvent "resize" this1 w1 = Ok this2 w2 /\
    NoDup (listeners w2) /\
    attached (updatePosition_ 0) "resize" w2 /\
    attached (updatePosition_ 0) "scroll" w2.
Proof.
  pose proof (PopperDup_updatePosition_eq pagePopperDup page eq_refl) as E.
  match type of E with
  | _ = Ok ?t ?w1 =>
      assert (Hwf : listeners_wf (updatePosition_ (PopperDup.self t))
                      (PopperDup.disableOnResize t) (PopperDup.disableOnScroll t) w1)
        by (unfold listeners_wf, attached;
            split; [by_running | split; vm_compute; discriminate]);
      assert (Hin : attached (updatePosition_ (PopperDup.self t)) "resize" w1)
        by (unfold attached; by_running);
      destruct (dup_resize_keeps_listeners t w1 eq_refl Hwf Hin)
        as (this2 & w2 & E2 & _ & [Ar As] & [Hnd _] & _)
  end.
  eexists _, _, this2, w2. split; [exact E|]. split; [exact E2|].
  split; [exact Hnd|]. split; [apply Ar | apply As]; reflexivity.
Defined.

(** X10: in the second implementation, too, [updatePosition] followed by
    [cleanupEvents] gives back the window's listener list as it was
    (when the controller had no listener there) and leaves both position
    properties empty. *)
Theorem dup_updatePosition_cleanupEvents_roundtrip (this : PopperDup.CreatePopper)
    (w : World) :
  typeof_number (PopperDup.offsetDistance this) = true ->
  detached (updatePosition_ (PopperDup.self this)) w ->
  exists this1 w1 this2 w2,
    PopperDup.updatePosition this w = Ok this1 w1 /\
    PopperDup.cleanupEvents this1 w1 = Ok this2 w2 /\
    listeners w2 = listeners w /\
    position_cleared (PopperDup.popper this) w2 /\
    PopperDup.isWindowEventsRegistered this2 = false.
Proof.
  intros H [Hr Hs]. unfold attached in Hr, Hs.
  eexists _, _, _, _.
  split; [apply PopperDup_updatePosition_eq; exact H|].
  split; [apply PopperDup_cleanupEvents_eq|].
  cbn [PopperDup.set_isWindowEventsRegistered PopperDup.isWindowEventsRegistered
       PopperDup.self PopperDup.disableOnResize PopperDup.disableOnScroll
       PopperDup.popper w_when].
  split; [|split; [|reflexivity]].
  - rewrite listeners_w_clean.
    change (listeners (w_setInitialStyles ?p ?w')) with (listeners w').
    rewrite listeners_w_attach.
    assert (E : listeners
                  (w_when (PopperDup.isWindowEventsRegistered this)
                     (w_clean (updatePosition_ (PopperDup.self this))
                        (PopperDup.disableOnResize this)
                        (PopperDup.disableOnScroll this))
                     (w_initPlacement (PopperDup.reference this)
                        (PopperDup.popper this) (PopperDup.placement this)
                        (num_of (PopperDup.offsetDistance this))
                        (PopperDup.onUpdate this) w))
                = listeners w).
    { destruct (PopperDup.isWindowEventsRegistered this); cbn [w_when].
      - rewrite listeners_w_clean, listeners_w_initPlacement.
        destruct (PopperDup.disableOnResize this), (PopperDup.disableOnScroll this);
          cbv beta iota;
          rewrite ?(remove_listener_notin (Window, "resize", _)) by assumption;
          rewrite ?(remove_listener_notin (Window, "scroll", _)) by assumption;
          reflexivity.
      - apply listeners_w_initPlacement. }
    rewrite E. apply listeners_attach_then_clean; assumption.
  - unfold position_cleared. rewrite styles_w_clean.
    apply position_cleared_w_setInitialStyles.
Qed.

Lemma dup_updatePosition_cleanupEvents_roundtrip_witness :
  exists this1 w1 this2 w2,
    PopperDup.updatePosition pagePopperDup page = Ok this1 w1 /\
    PopperDup.cleanupEvents this1 w1 = Ok this2 w2 /\
    listeners w2 = [].
Proof.
  assert (D : detached (updatePosition_ (PopperDup.self pagePopperDup)) page).
  { split; unfold attached; by_running. }
  destruct (dup_updatePosition_cleanupEvents_roundtrip pagePopperDup page eq_refl D)
    as (this1 & w1 & this2 & w2 & E1 & E2 & L & _).
  exists this1, w1, this2, w2. auto.
Defined.

(** ** The overlay: construction *)

Lemma Overlay_getElement_eq el w :
  Overlay.getElement el w = Ok (resolveElement el w) w.
Proof. destruct el; reflexivity. Qed.

Lemma Overlay_constructor_eq (trigger content : JsVal) options w :
  Overlay.constructor trigger content options w
  = let w1 := set_nextId S w in
    if negb (instanceof_HTMLElement (resolveElement trigger w))
    then Throw Overlay.InvalidTriggerElement w1
    else if negb (instanceof_HTMLElement (resolveElement content w))
    then Throw Overlay.InvalidContentElement w1
    else Overlay.initInstance
           (constructed (elem_of_val (resolveElement trigger w))
                        (elem_of_val (resolveElement content w)) options (nextId w))
           (set_nextId S w1).
Proof.
  unfold Overlay.constructor.
  unfold bind at 1. unfold fresh at 1.
  unfold bind at 1, gets at 1. unfold bind at 1, modify at 1. unfold ret at 1.
  unfold bind at 1. rewrite Overlay_getElement_eq.
  unfold bind at 1. rewrite Overlay_getElement_eq.
  change (resolveElement ?v (set_nextId S w)) with (resolveElement v w).
  cbv zeta.
  destruct (resolveElement trigger w) as [| | | | |t|]; try reflexivity.
  destruct (resolveElement content w) as [| | | | |c|]; try reflexivity.
  cbn [instanceof_HTMLElement negb elem_of_val].
  unfold bind at 1. unfold Popper.constructor.
  cbn [instanceof_HTMLElement negb opt_offsetDistance typeof_number].
  rewrite andb_false_r.
  unfold bind at 1. unfold fresh at 1.
  unfold bind at 1, gets at 1. unfold bind at 1, modify at 1. unfold ret at 1.
  unfold ret at 1. reflexivity.
Qed.

(** X11: the overlay's constructor throws "Trigger element must be a
    valid HTML element" when the trigger (selector or value) resolves to
    no element, even if the content is invalid too, and "Content element
    must be a valid HTML element" when only the content fails; in both
    cases before any attribute, style or listener is written. *)
Theorem overlay_constructor_rejects_unresolved (trigger content : JsVal)
    (options : OverlayOptions) (w : World) :
  (instanceof_HTMLElement (resolveElement trigger w) = false ->
   exists w', Overlay.constructor trigger content options w
              = Throw Overlay.InvalidTriggerElement w' /\ untouched w w') /\
  (instanceof_HTMLElement (resolveElement trigger w) = true ->
   instanceof_HTMLElement (resolveElement content w) = false ->
   exists w', Overlay.constructor trigger content options w
              = Throw Overlay.InvalidContentElement w' /\ untouched w w').
Proof.
  rewrite Overlay_constructor_eq. cbv zeta. split.
  - intros ->. eexists. split; [reflexivity | repeat split].
  - intros -> ->. eexists. split; [reflexivity | repeat split].
Qed.

Lemma overlay_constructor_rejects_unresolved_witness :
  (exists w', Overlay.constructor (JStr "#missing") JNull overlayOptions page
              = Throw Overlay.InvalidTriggerElement w' /\ untouched page w') /\
  (exists w', Overlay.constructor (JElem referenceEl) (JStr "#missing")
                overlayOptions page
              = Throw Overlay.InvalidContentElement w' /\ untouched page w').
Proof.
  split.
  - apply (overlay_constructor_rejects_unresolved (JStr "#missing") JNull
             overlayOptions page). reflexivity.
  - apply (overlay_constructor_rejects_unresolved (JElem referenceEl)
             (JStr "#missing") overlayOptions page); reflexivity.
Defined.

(** X12: passing a selector is the same as passing the element it
    resolves to: the constructor returns the same overlay and leaves the
    same browser. *)
Theorem overlay_constructor_resolves_selectors (trigger content : JsVal)
    (t c : Element) (options : OverlayOptions) (w : World) :
  resolveElement trigger w = JElem t ->
  resolveElement content w = JElem c ->
  Overlay.constructor trigger content options w
  = Overlay.constructor (JElem t) (JElem c) options w.
Proof.
  intros Ht Hc. rewrite !Overlay_constructor_eq. cbv zeta.
  cbn [resolveElement]. rewrite Ht, Hc. reflexivity.
Qed.

Lemma overlay_constructor_resolves_selectors_witness :
  Overlay.constructor (JStr "#trigger") (JStr "#content") overlayOptions selectablePage
  = Overlay.constructor (JElem referenceEl) (JElem popperEl) overlayOptions
      selectablePage.
Proof.
  apply overlay_constructor_resolves_selectors; reflexivity.
Defined.

Lemma Overlay_listen_trigger_eq that w1 :
  (addEventListener (Node (Overlay.triggerElement that)) "click"
     (toggleStateOnClick_ (Overlay.self that)) ;;;
   when (is_hover (Overlay.triggerStrategy that))
     (addEventListener (Node (Overlay.triggerElement that)) "mouseenter"
        (showOnMouseEnter_ (Overlay.self that))) ;;;
   ret that) w1
  = Ok that (w_listen_trigger that w1).
Proof.
  unfold w_listen_trigger, addEventListener.
  unfold bind at 1, modify at 1. unfold bind at 1. rewrite when_modify. reflexivity.
Qed.

Lemma Overlay_initInstance_closed this w :
  Overlay.defaultState this = close ->
  Overlay.initInstance this w
  = Ok this
       (w_listen_trigger this
          (w_updateOverlayState "close" (Overlay.triggerElement this)
             (Overlay.contentElement this)
             (w_updateOverlayState "close" (Overlay.triggerElement this)
                (Overlay.contentElement this) w))).
Proof.
  intros D. unfold Overlay.initInstance. rewrite D.
  unfold bind at 1. rewrite updateOverlayState_eq.
  unfold bind at 1. unfold bind at 1. rewrite updateOverlayState_eq.
  unfold ret at 1. cbn [state_string]. apply Overlay_listen_trigger_eq.
Qed.

Lemma Overlay_initInstance_open this w :
  popper_ok this ->
  Overlay.defaultState this = open ->
  Overlay.initInstance this w
  = Ok (after_show this)
       (w_listen_trigger this
          (w_show this
             (w_updateOverlayState "open" (Overlay.triggerElement this)
                (Overlay.contentElement this) w))).
Proof.
  intros H D. unfold Overlay.initInstance. rewrite D.
  unfold bind at 1. rewrite updateOverlayState_eq.
  unfold bind at 1. rewrite Overlay_show_eq by exact H.
  cbn [state_string]. apply (Overlay_listen_trigger_eq (after_show this)).
Qed.

Lemma elem_of_w_listen_trigger this w (l : Listener) :
  l ∈ listeners (w_listen_trigger this w)
  <-> l = toggleListener this
      \/ (Overlay.triggerStrategy this = hover /\ l = enterListener this)
      \/ l ∈ listeners w.
Proof.
  unfold w_listen_trigger, toggleListener, enterListener.
  destruct (Overlay.triggerStrategy this);
    cbn [is_hover w_when listeners emit w_addEventListener set_listeners];
    rewrite ?elem_of_add_listener; intuition congruence.
Qed.

Lemma measurements_w_setAttribute e p n v w :
  measurements e (log (w_setAttribute p n v w)) = measurements e (log w).
Proof.
  unfold w_setAttribute. rewrite measurements_emit.
  cbn [is_measure log set_attrs]. apply Nat.add_0_r.
Qed.

Lemma measurements_w_addEventListener e l w :
  measurements e (log (w_addEventListener l w)) = measurements e (log w).
Proof.
  unfold w_addEventListener. rewrite measurements_emit.
  cbn [is_measure log set_listeners]. apply Nat.add_0_r.
Qed.

(** X13: constructing an overlay in its default state ["close"]
    positions nothing: no element is measured, no style is written, and
    the only listeners added are the trigger's click listener and, for the
    hover strategy, its mouseenter listener; the popper controller is left
    unregistered and the content carries [data-state="close"]. *)
Theorem overlay_constructed_closed_is_idle (trigger content : Element)
    (options : OverlayOptions) (w : World) :
  oo_defaultState options <> Some open ->
  let this := constructed trigger content options (nextId w) in
  exists w',
    Overlay.constructor (JElem trigger) (JElem content) options w = Ok this w' /\
    (forall e, measurements e (log w') = measurements e (log w)) /\
    styles w' = styles w /\
    (forall l : Listener,
       l ∈ listeners w'
       <-> l = toggleListener this
           \/ (Overlay.triggerStrategy this = hover /\ l = enterListener this)
           \/ l ∈ listeners w) /\
    attrs w' !! (content, "data-state") = Some "close" /\
    attrs w' !! (trigger, "aria-expanded") = Some "false" /\
    Popper.isEventRegistrer (Overlay.popper this) = false.
Proof.
  intros D this.
  assert (Dc : Overlay.defaultState this = close).
  { unfold this, constructed. cbn [Overlay.defaultState].
    destruct (oo_defaultState options) as [[|]|]; [congruence | |]; reflexivity. }
  rewrite Overlay_constructor_eq. cbv zeta.
  cbn [resolveElement instanceof_HTMLElement negb elem_of_val]. fold this.
  rewrite Overlay_initInstance_closed by exact Dc.
  eexists. split; [reflexivity|].
  split; [|split; [|split; [|split; [|split]]]].
  - intros e. unfold w_listen_trigger, w_updateOverlayState.
    destruct (is_hover _); cbn [w_when];
      rewrite ?measurements_w_addEventListener, !measurements_w_setAttribute;
      reflexivity.
  - unfold w_listen_trigger. destruct (is_hover _); reflexivity.
  - intros l. rewrite elem_of_w_listen_trigger. reflexivity.
  - unfold w_listen_trigger. destruct (is_hover _);
      cbn [w_when attrs emit w_addEventListener set_listeners];
      apply state_written.
  - unfold w_listen_trigger. destruct (is_hover _);
      cbn [w_when attrs emit w_addEventListener set_listeners];
      apply state_written.
  - reflexivity.
Qed.

Lemma overlay_constructed_closed_is_idle_witness :
  exists this w',
    Overlay.constructor (JElem referenceEl) (JElem popperEl) overlayOptions page
      = Ok this w' /\
    styles w' = styles page /\
    attrs w' !! (popperEl, "data-state") = Some "close".
Proof.
  assert (D : oo_defaultState overlayOptions <> Some open) by discriminate.
  destruct (overlay_constructed_closed_is_idle referenceEl popperEl overlayOptions
              page D) as (w' & E & _ & S & _ & A & _).
  eexists _, w'. split; [exact E|]. split; [exact S | exact A].
Defined.

(** ** The overlay: the toggle and the document handlers *)

Lemma Overlay_toggleStateOnClick_eq this w :
  popper_ok this ->
  Overlay.toggleStateOnClick this w
  = if reads_closed (attrs w !! (Overlay.contentElement this, "data-state"))
    then Ok (after_show this)
            (w_when (is_hover (Overlay.triggerStrategy this))
               (w_addEventOnMouseEnter this) (w_show this w))
    else Ok (after_hide this w) (w_hide this w).
Proof.
  intros H. unfold Overlay.toggleStateOnClick.
  unfold bind at 1, getAttribute at 1, gets at 1. cbv zeta.
  assert (E : String.eqb
                match attrs w !! (Overlay.contentElement this, "data-state") with
                | Some s => if String.eqb s EmptyString then "close" else s
                | None => "close"
                end "close"
              = reads_closed (attrs w !! (Overlay.contentElement this, "data-state"))).
  { unfold reads_closed. destruct (attrs w !! _) as [s|]; [|reflexivity].
    destruct (String.eqb s EmptyString); reflexivity. }
  rewrite E. destruct (reads_closed _).
  - unfold bind at 1. rewrite Overlay_show_eq by exact H.
    unfold bind at 1.
    change (Overlay.triggerStrategy (after_show this)) with (Overlay.triggerStrategy this).
    destruct (is_hover (Overlay.triggerStrategy this)); cbn [when w_when]; reflexivity.
  - apply Overlay_hide_eq.
Qed.

Lemma attrs_w_addEventOnMouseEnter_when b this w :
  attrs (w_when b (w_addEventOnMouseEnter this) w) = attrs w.
Proof. destruct b; reflexivity. Qed.

Lemma toggle_state_after this w :
  popper_ok this ->
  exists this' w',
    Overlay.toggleStateOnClick this w = Ok this' w' /\
    popper_ok this' /\
    Overlay.contentElement this' = Overlay.contentElement this /\
    Overlay.triggerElement this' = Overlay.triggerElement this /\
    attrs w' !! (Overlay.contentElement this, "data-state")
    = Some (if reads_closed (attrs w !! (Overlay.contentElement this, "data-state"))
            then "open" else "close") /\
    attrs w' !! (Overlay.triggerElement this, "aria-expanded")
    = Some (if reads_closed (attrs w !! (Overlay.contentElement this, "data-state"))
            then "true" else "false").
Proof.
  intros H. rewrite Overlay_toggleStateOnClick_eq by exact H.
  destruct (reads_closed _).
  - eexists _, _. split; [reflexivity|]. split; [exact H|].
    split; [reflexivity|]. split; [reflexivity|].
    rewrite attrs_w_addEventOnMouseEnter_when, attrs_w_show. apply state_written.
  - destruct (after_hide_fields this w) as (Et & Ec & Hok).
    eexists _, _. split; [reflexivity|]. split; [apply Hok, H|].
    split; [exact Ec|]. split; [exact Et|].
    rewrite attrs_w_hide. apply state_written.
Qed.

Lemma reads_closed_true (st : option string) :
  reads_closed st = true
  <-> st = None \/ st = Some EmptyString \/ st = Some "close".
Proof.
  unfold reads_closed. destruct st as [s|]; [|intuition].
  destruct (String.eqb s EmptyString) eqn:E0.
  - apply String.eqb_eq in E0. subst s. intuition.
  - apply String.eqb_neq in E0. rewrite String.eqb_eq.
    split.
    + intros ->. right. right. reflexivity.
    + intros [H | [H | H]]; congruence.
Qed.

(** X14: the trigger's click toggles: it opens when the content's
    [data-state] is absent, empty or ["close"] (for the click strategy it
    is [show] itself), and closes otherwise (it is [hide]); so two clicks
    in a row bring an overlay that was ["open"] or ["close"] back to the
    state it started in. *)
Theorem toggle_alternates (this : Overlay.CreateOverlay) (w : World) :
  popper_ok this ->
  let st := attrs w !! (Overlay.contentElement this, "data-state") in
  exists this1 w1 this2 w2,
    Overlay.toggleStateOnClick this w = Ok this1 w1 /\
    (st = None \/ st = Some EmptyString \/ st = Some "close" ->
     attrs w1 !! (Overlay.contentElement this, "data-state") = Some "open" /\
     attrs w1 !! (Overlay.triggerElement this, "aria-expanded") = Some "true" /\
     (Overlay.triggerStrategy this = click -> Overlay.show this w = Ok this1 w1)) /\
    (st <> None -> st <> Some EmptyString -> st <> Some "close" ->
     attrs w1 !! (Overlay.contentElement this, "data-state") = Some "close" /\
     attrs w1 !! (Overlay.triggerElement this, "aria-expanded") = Some "false" /\
     Overlay.hide this w = Ok this1 w1) /\
    Overlay.toggleStateOnClick this1 w1 = Ok this2 w2 /\
    (st = Some "open" \/ st = Some "close" ->
     attrs w2 !! (Overlay.contentElement this, "data-state") = st).
Proof.
  intros H st.
  destruct (toggle_state_after this w H) as (this1 & w1 & E1 & H1 & Ec & Et & A1 & B1).
  destruct (toggle_state_after this1 w1 H1) as (this2 & w2 & E2 & _ & _ & _ & A2 & _).
  rewrite Ec in A2. rewrite A1 in A2. fold st in A1, B1, A2.
  pose proof (Overlay_toggleStateOnClick_eq this w H) as T. fold st in T.
  exists this1, w1, this2, w2.
  split; [exact E1|]. split; [|split; [|split; [exact E2|]]].
  - intros Hc. apply reads_closed_true in Hc. rewrite Hc in A1, B1, T.
    split; [exact A1|]. split; [exact B1|].
    intros S. rewrite Overlay_show_eq by exact H.
    rewrite <- E1, T, S. reflexivity.
  - intros N0 N1 N2.
    assert (Hc : reads_closed st = false).
    { destruct (reads_closed st) eqn:Hc; [|reflexivity].
      apply reads_closed_true in Hc. intuition. }
    rewrite Hc in A1, B1, T.
    split; [exact A1|]. split; [exact B1|].
    rewrite Overlay_hide_eq, <- E1. symmetry. exact T.
  - intros [Hs | Hs]; rewrite A2, Hs; reflexivity.
Qed.

Lemma toggle_alternates_witness :
  exists this1 w1 this2 w2,
    Overlay.toggleStateOnClick (fst opened) (snd opened) = Ok this1 w1 /\
    attrs w1 !! (popperEl, "data-state") = Some "close" /\
    Overlay.hide (fst opened) (snd opened) = Ok this1 w1 /\
    Overlay.toggleStateOnClick this1 w1 = Ok this2 w2 /\
    attrs w2 !! (popperEl, "data-state") = Some "open".
Proof.
  assert (H : popper_ok (fst opened)) by (vm_compute; reflexivity).
  assert (Hs : attrs (snd opened) !! (Overlay.contentElement (fst opened), "data-state")
               = Some "open") by (vm_compute; reflexivity).
  destruct (toggle_alternates (fst opened) (snd opened) H)
    as (this1 & w1 & this2 & w2 & E1 & _ & C1 & E2 & A2).
  rewrite Hs in C1, A2.
  destruct C1 as (A1 & _ & Eh); [discriminate | discriminate | discriminate |].
  exists this1, w1, this2, w2.
  split; [exact E1|]. split; [exact A1|]. split; [exact Eh|]. split; [exact E2|].
  apply A2. left. reflexivity.
Defined.

(** X15: the document click handler closes the overlay exactly when the
    content is ["open"], the click is outside the trigger, and: for a
    click inside the content, [preventCloseFromInside] is unset; for a
    click outside the content, [preventFromCloseOutside] is unset.  In
    every other case it changes nothing. *)
Theorem handleDocumentClick_decision (this : Overlay.CreateOverlay)
    (event : MouseEvent) (w : World) :
  Overlay.handleDocumentClick event this w
  = if closes_on_click this event w then Overlay.hide this w else Ok this w.
Proof.
  unfold Overlay.handleDocumentClick, closes_on_click.
  unfold bind at 1, getAttribute at 1, gets at 1.
  case_bool_decide; [|reflexivity].
  unfold bind at 1, gets at 1. unfold bind at 1, gets at 1.
  destruct (contains w (Overlay.triggerElement this) (target event)),
           (contains w (Overlay.contentElement this) (target event)),
           (Overlay.preventFromCloseInside this),
           (Overlay.preventFromCloseOutside this); reflexivity.
Qed.

(** X16: the keydown handler closes the overlay exactly when the key is
    Escape, the strategy is not hover, the content is ["open"] and
    [preventFromCloseOutside] is unset ([preventCloseFromInside] plays no
    part); in every other case it only prevents the event's default and
    leaves attributes and listeners as they were. *)
Theorem handleKeyDown_decision (this : Overlay.CreateOverlay)
    (event : KeyboardEvent) (w : World) :
  exists event' this' w',
    Overlay.handleKeyDown event this w = Ok (event', this') w' /\
    defaultPrevented event' = true /\
    if closes_on_key this event w
    then Overlay.hide this (emit EPreventDefault w) = Ok this' w' /\
         attrs w' !! (Overlay.contentElement this, "data-state") = Some "close"
    else this' = this /\ w' = emit EPreventDefault w.
Proof.
  rewrite Overlay_handleKeyDown_eq. cbv zeta. unfold closes_on_key.
  destruct (negb (is_hover _) && String.eqb (key event) "Escape"); cbn [andb].
  - case_bool_decide; cbn [andb].
    + destruct (negb (Overlay.preventFromCloseOutside this)).
      * eexists _, _, _. split; [reflexivity|]. split; [reflexivity|].
        split; [apply Overlay_hide_eq|]. rewrite attrs_w_hide. apply state_written.
      * eexists _, _, _. split; [reflexivity|]. repeat split.
    + eexists _, _, _. split; [reflexivity|]. repeat split.
  - eexists _, _, _. split; [reflexivity|]. repeat split.
Qed.

(** ** The overlay: listeners across show and hide *)

Lemma listeners_w_open_eq this w :
  listeners (w_open this w)
  = add_listener (clickListener this) (add_listener (keydownListener this) (listeners w)).
Proof.
  unfold w_open.
  destruct (oo_onShow _), (oo_onToggle _), (oo_beforeShow _); reflexivity.
Qed.

Lemma listeners_w_show_eq this w :
  listeners (w_show this w)
  = add_listener (clickListener this)
      (add_listener (keydownListener this)
         ((if Popper.disableOnScroll (Overlay.popper this)
           then (fun k : list Listener => k)
           else add_listener
                  (Window, "scroll", initPositionate (Popper.self (Overlay.popper this))))
            ((if Popper.disableOnResize (Overlay.popper this)
              then (fun k : list Listener => k)
              else add_listener
                     (Window, "resize",
                      initPositionate (Popper.self (Overlay.popper this))))
               (listeners w)))).
Proof.
  unfold w_show. cbv zeta.
  rewrite listeners_w_open_eq, listeners_w_attach, listeners_w_initPlacement.
  reflexivity.
Qed.

Lemma listeners_w_detach_eq this w :
  listeners (w_detach this w)
  = (if is_hover (Overlay.triggerStrategy this)
     then (fun k => remove_listener (leaveContentListener this)
                      (remove_listener (leaveTriggerListener this) k))
     else (fun k : list Listener => k))
      (remove_listener (keydownListener this)
         ((if is_click (Overlay.triggerStrategy this)
           then remove_listener (clickListener this)
           else (fun k : list Listener => k)) (listeners w))).
Proof. unfold w_detach. destruct (Overlay.triggerStrategy this); reflexivity. Qed.

Lemma listeners_w_cleanupEvents_eq p w :
  listeners (w_cleanupEvents p w)
  = if Popper.isEventRegistrer p
    then (if Popper.disableOnScroll p then (fun k : list Listener => k)
          else remove_listener (Window, "scroll", initPositionate (Popper.self p)))
           ((if Popper.disableOnResize p then (fun k : list Listener => k)
             else remove_listener (Window, "resize", initPositionate (Popper.self p)))
              (listeners w))
    else listeners w.
Proof.
  unfold w_cleanupEvents. destruct (Popper.isEventRegistrer p); cbn [w_when].
  - rewrite listeners_w_clean. reflexivity.
  - reflexivity.
Qed.

Lemma elem_of_listeners_w_cleanupEvents p w (l : Listener) :
  fst (fst l) <> Window ->
  (l ∈ listeners (w_cleanupEvents p w) <-> l ∈ listeners w).
Proof.
  intros Hl. rewrite listeners_w_cleanupEvents_eq.
  destruct l as [[t ty] cb]. cbn [fst] in Hl.
  destruct (Popper.isEventRegistrer p), (Popper.disableOnResize p),
           (Popper.disableOnScroll p);
    rewrite ?elem_of_remove_listener; intuition congruence.
Qed.

Lemma elem_of_listeners_w_hide this w (l : Listener) :
  fst (fst l) <> Window ->
  (l ∈ listeners (w_hide this w) <-> l ∈ listeners (w_detach this w)).
Proof.
  intros Hl. unfold w_hide. destruct (transitionRunning w _).
  - change (listeners (schedule_teardown this (w_hide_now this w)))
      with (listeners (w_hide_now this w)).
    rewrite listeners_w_hide_now. reflexivity.
  - rewrite listeners_w_hideCallback, elem_of_listeners_w_cleanupEvents by exact Hl.
    rewrite listeners_w_hide_now. reflexivity.
Qed.

(** X17: for the hover strategy [hide] detaches the keydown listener and
    the two mouseleave watchers but not the document's click listener,
    which stays attached if it was. *)
Theorem hover_hide_keeps_click_listener (this : Overlay.CreateOverlay) (w : World) :
  Overlay.triggerStrategy this = hover ->
  exists this' w',
    Overlay.hide this w = Ok this' w' /\
    (clickListener this ∈ listeners w' <-> clickListener this ∈ listeners w) /\
    (keydownListener this ∉ listeners w') /\
    (leaveTriggerListener this ∉ listeners w') /\
    (leaveContentListener this ∉ listeners w').
Proof.
  intros S. eexists _, _. split; [apply Overlay_hide_eq|].
  unfold clickListener, keydownListener, leaveTriggerListener, leaveContentListener.
  rewrite !elem_of_listeners_w_hide by (cbn; discriminate).
  rewrite listeners_w_detach_eq, S. cbn [is_hover is_click].
  rewrite !elem_of_remove_listener.
  unfold clickListener, keydownListener, leaveTriggerListener, leaveContentListener.
  repeat split; try tauto; intuition congruence.
Qed.

Lemma hover_hide_keeps_click_listener_witness :
  exists this' w',
    Overlay.hide (fst hovered) (snd hovered) = Ok this' w' /\
    has_listener (leaveTriggerListener (fst hovered)) (listeners (snd hovered)) = true /\
    clickListener (fst hovered) ∈ listeners w' /\
    (leaveTriggerListener (fst hovered) ∉ listeners w').
Proof.
  assert (S : Overlay.triggerStrategy (fst hovered) = hover) by (vm_compute; reflexivity).
  destruct (hover_hide_keeps_click_listener (fst hovered) (snd hovered) S)
    as (this' & w' & E & [_ K] & _ & L & _).
  exists this', w'. split; [exact E|]. split; [vm_compute; reflexivity|].
  split; [apply K; by_running | exact L].
Defined.

Lemma elem_of_attach_chain (cb : Callback) (dr ds : bool) (ls : list Listener)
    (l : Listener) :
  l ∈ (if ds then (fun k : list Listener => k) else add_listener (Window, "scroll", cb))
        ((if dr then (fun k : list Listener => k)
          else add_listener (Window, "resize", cb)) ls)
  <-> (ds = false /\ l = (Window, "scroll", cb))
      \/ (dr = false /\ l = (Window, "resize", cb))
      \/ l ∈ ls.
Proof.
  destruct dr, ds; cbv beta iota; rewrite ?elem_of_add_listener; intuition congruence.
Qed.

Lemma transitionRunning_w_show this w :
  transitionRunning (w_show this w) = transitionRunning w.
Proof.
  unfold w_show, w_open. cbv zeta.
  destruct (oo_onShow _), (oo_onToggle _), (oo_beforeShow _);
    cbn [w_when transitionRunning emit w_updateOverlayState w_setAttribute set_attrs
         w_addEventListener set_listeners];
    unfold w_attach;
    destruct (Popper.disableOnResize _), (Popper.disableOnScroll _);
    cbn [negb w_when transitionRunning emit w_addEventListener set_listeners];
    unfold w_initPlacement, w_onUpdate, measure_once;
    destruct (Popper.onUpdate _), (decide (_ = _)); reflexivity.
Qed.

Lemma pending_w_show this w : pending (w_show this w) = pending w.
Proof.
  unfold w_show, w_open. cbv zeta.
  destruct (oo_onShow _), (oo_onToggle _), (oo_beforeShow _);
    cbn [w_when pending emit w_updateOverlayState w_setAttribute set_attrs
         w_addEventListener set_listeners];
    unfold w_attach;
    destruct (Popper.disableOnResize _), (Popper.disableOnScroll _);
    cbn [negb w_when pending emit w_addEventListener set_listeners];
    unfold w_initPlacement, w_onUpdate, measure_once;
    destruct (Popper.onUpdate _), (decide (_ = _)); reflexivity.
Qed.

Lemma remove_add_same_any (l : Listener) (ls : list Listener) :
  remove_listener l (add_listener l ls) = remove_listener l ls.
Proof.
  destruct (decide (l ∈ ls)) as [Hin|Hnin].
  - rewrite add_listener_in by exact Hin. reflexivity.
  - rewrite remove_add_same by exact Hnin.
    symmetry. apply remove_listener_notin, Hnin.
Qed.

Lemma remove_listener_comm (a b : Listener) (ls : list Listener) :
  remove_listener a (remove_listener b ls) = remove_listener b (remove_listener a ls).
Proof.
  unfold remove_listener. induction ls as [|x ls IH]; [reflexivity|].
  rewrite !filter_cons.
  destruct (decide (x <> b)), (decide (x <> a)); rewrite ?filter_cons;
    repeat (match goal with |- context [decide ?P] => destruct (decide P) end);
    try contradiction; rewrite ?IH; reflexivity.
Qed.

Lemma clean_attach_any (cb : Callback) (dr ds : bool) (ls : list Listener) :
  (if ds then (fun k : list Listener => k) else remove_listener (Window, "scroll", cb))
    ((if dr then (fun k : list Listener => k) else remove_listener (Window, "resize", cb))
       ((if ds then (fun k : list Listener => k) else add_listener (Window, "scroll", cb))
          ((if dr then (fun k : list Listener => k) else add_listener (Window, "resize", cb)) ls)))
  = (if ds then (fun k : list Listener => k) else remove_listener (Window, "scroll", cb))
      ((if dr then (fun k : list Listener => k) else remove_listener (Window, "resize", cb))
         ls).
Proof.
  pose proof (resize_neq_scroll cb) as Hne.
  destruct dr, ds; cbv beta iota.
  - reflexivity.
  - apply remove_add_same_any.
  - apply remove_add_same_any.
  - rewrite remove_add_other by exact Hne.
    rewrite !remove_add_same_any. reflexivity.
Qed.

Lemma remove_attach_comm (l : Listener) (cb : Callback) (dr ds : bool)
    (ls : list Listener) :
  l <> (Window, "resize", cb) -> l <> (Window, "scroll", cb) ->
  remove_listener l
    ((if ds then (fun k : list Listener => k) else add_listener (Window, "scroll", cb))
       ((if dr then (fun k : list Listener => k)
         else add_listener (Window, "resize", cb)) ls))
  = (if ds then (fun k : list Listener => k) else add_listener (Window, "scroll", cb))
      ((if dr then (fun k : list Listener => k)
        else add_listener (Window, "resize", cb)) (remove_listener l ls)).
Proof.
  intros Hr Hs. destruct dr, ds; cbv beta iota;
    rewrite ?(remove_add_other l (Window, "scroll", cb)) by exact Hs;
    rewrite ?(remove_add_other l (Window, "resize", cb)) by exact Hr;
    reflexivity.
Qed.

Lemma show_hide_lists_any (cb : Callback) (dr ds : bool) (id : nat) (ls : list Listener) :
  let kd : Listener := (Document, "keydown", handleKeyDown_ id) in
  let ck : Listener := (Document, "click", handleDocumentClick_ id) in
  (if ds then (fun k : list Listener => k) else remove_listener (Window, "scroll", cb))
    ((if dr then (fun k : list Listener => k) else remove_listener (Window, "resize", cb))
       (remove_listener kd
          (remove_listener ck
             (add_listener ck
                (add_listener kd
                   ((if ds then (fun k : list Listener => k)
                     else add_listener (Window, "scroll", cb))
                      ((if dr then (fun k : list Listener => k)
                        else add_listener (Window, "resize", cb)) ls)))))))
  = (if ds then (fun k : list Listener => k) else remove_listener (Window, "scroll", cb))
      ((if dr then (fun k : list Listener => k) else remove_listener (Window, "resize", cb))
         (remove_listener kd (remove_listener ck ls))).
Proof.
  intros kd ck.
  rewrite remove_add_same_any.
  rewrite (remove_listener_comm kd ck), remove_add_same_any.
  rewrite (remove_attach_comm kd) by (unfold kd; congruence).
  rewrite (remove_attach_comm ck) by (unfold ck; congruence).
  rewrite clean_attach_any.
  rewrite (remove_listener_comm kd ck). reflexivity.
Qed.

Lemma without_overlay_listeners_unwired this w :
  overlay_unwired this w ->
  without_overlay_listeners this (listeners w) = listeners w.
Proof.
  intros (Hkd & Hck & Hr & Hs). unfold attached in Hr, Hs.
  unfold without_overlay_listeners. cbv zeta.
  rewrite (remove_listener_notin (clickListener this)) by exact Hck.
  rewrite (remove_listener_notin (keydownListener this)) by exact Hkd.
  destruct (Popper.disableOnResize _), (Popper.disableOnScroll _); cbv beta iota;
    rewrite ?(remove_listener_notin (Window, "resize", _)) by exact Hr;
    rewrite ?(remove_listener_notin (Window, "scroll", _)) by exact Hs;
    reflexivity.
Qed.

(** X18: for the click strategy, after [show], [hide] and the end of the
    content's transition (or at once, when no transition runs) the
    listener list is the list before [show] without the overlay's
    document keydown and click listeners and without the window listeners
    its popper attaches; every other listener is kept, in order.  So
    opening and closing gives the browser exactly the list it had before
    [show] whenever none of those listeners was attached then.  The
    popper controller ends unregistered. *)
Theorem show_hide_restores_listeners (this : Overlay.CreateOverlay) (w : World) :
  popper_ok this ->
  Overlay.triggerStrategy this = click ->
  exists this1 w1 this2 w2 this3 w3,
    Overlay.show this w = Ok this1 w1 /\
    Overlay.hide this1 w1 = Ok this2 w2 /\
    (if transitionRunning w (Overlay.contentElement this)
     then Overlay.transitionEnd (Overlay.contentElement this) this2 w2
     else Ok this2 w2) = Ok this3 w3 /\
    listeners w3 = without_overlay_listeners this (listeners w) /\
    (overlay_unwired this w -> listeners w3 = listeners w) /\
    Popper.isEventRegistrer (Overlay.popper this3) = false.
Proof.
  intros H Hs.
  set (this1 := after_show this). set (w1 := w_show this w).
  assert (R : transitionRunning w1 (Overlay.contentElement this1)
              = transitionRunning w (Overlay.contentElement this))
    by (unfold w1; rewrite transitionRunning_w_show; reflexivity).
  assert (Ld : listeners (w_hide_now this1 w1)
               = remove_listener (keydownListener this)
                   (remove_listener (clickListener this) (listeners w1))).
  { rewrite listeners_w_hide_now, listeners_w_detach_eq.
    change (Overlay.triggerStrategy this1) with (Overlay.triggerStrategy this).
    rewrite Hs. reflexivity. }
  assert (Lc : forall w', listeners w' = listeners (w_hide_now this1 w1) ->
                          listeners (w_cleanupEvents (Overlay.popper this1) w')
                          = without_overlay_listeners this (listeners w)).
  { intros w' E. rewrite listeners_w_cleanupEvents_eq.
    cbn [this1 after_show Overlay.popper Overlay.set_popper Popper.isEventRegistrer
         Popper.set_isEventRegistrer Popper.disableOnResize Popper.disableOnScroll
         Popper.self].
    rewrite E, Ld. unfold w1. rewrite listeners_w_show_eq.
    apply show_hide_lists_any. }
  exists this1, w1.
  exists (after_hide this1 w1), (w_hide this1 w1).
  unfold after_hide, w_hide. rewrite R.
  destruct (transitionRunning w (Overlay.contentElement this)).
  - change (Overlay.contentElement this) with (Overlay.contentElement this1).
    rewrite transitionEnd_eq, teardowns_waiting_scheduled. cbv zeta.
    eexists _, _.
    split; [apply Overlay_show_eq; exact H|].
    split; [rewrite Overlay_hide_eq; unfold after_hide, w_hide; rewrite R; reflexivity|].
    split; [reflexivity|].
    assert (L : listeners
                  (w_teardowns (S (teardowns_waiting this1 w1)) this1
                     (set_pending
                        (filter (fun d => fst d <> Overlay.contentElement this1))
                        (schedule_teardown this1 (w_hide_now this1 w1))))
                = without_overlay_listeners this (listeners w)).
    { rewrite listeners_w_teardowns. apply Lc. reflexivity. }
    split; [exact L|].
    split; [|reflexivity].
    intros U. rewrite L. apply without_overlay_listeners_unwired, U.
  - eexists _, _.
    split; [apply Overlay_show_eq; exact H|].
    split; [rewrite Overlay_hide_eq; unfold after_hide, w_hide; rewrite R; reflexivity|].
    split; [reflexivity|].
    assert (L : listeners (w_hideCallback this1 (w_hide_now this1 w1))
                = without_overlay_listeners this (listeners w)).
    { rewrite listeners_w_hideCallback. apply Lc. reflexivity. }
    split; [exact L|].
    split; [|reflexivity].
    intros U. rewrite L. apply without_overlay_listeners_unwired, U.
Qed.

Lemma show_hide_restores_listeners_witness :
  (exists this1 w1 this2 w2 this3 w3,
     Overlay.show pageOverlay page = Ok this1 w1 /\
     Overlay.hide this1 w1 = Ok this2 w2 /\
     Overlay.transitionEnd popperEl this2 w2 = Ok this3 w3 /\
     listeners w3 = []) /\
  (exists this1 w1 this2 w2 this3 w3,
     Overlay.show (fst reopened) (snd reopened) = Ok this1 w1 /\
     Overlay.hide this1 w1 = Ok this2 w2 /\
     Overlay.transitionEnd popperEl this2 w2 = Ok this3 w3 /\
     listeners (snd reopened)
     = [(Node referenceEl, "click", toggleStateOnClick_ 0);
        (Window, "resize", initPositionate 1);
        (Window, "scroll", initPositionate 1);
        (Document, "keydown", handleKeyDown_ 0);
        (Document, "click", handleDocumentClick_ 0)] /\
     listeners w3 = [(Node referenceEl, "click", toggleStateOnClick_ 0)]).
Proof.
  split.
  - assert (U : overlay_unwired pageOverlay page).
    { unfold overlay_unwired, detached, attached. repeat split; by_running. }
    destruct (show_hide_restores_listeners pageOverlay page eq_refl eq_refl)
      as (this1 & w1 & this2 & w2 & this3 & w3 & E1 & E2 & E3 & _ & L & _).
    exists this1, w1, this2, w2, this3, w3.
    split; [exact E1|]. split; [exact E2|]. split; [exact E3|]. exact (L U).
  - assert (H : popper_ok (fst reopened)) by (vm_compute; reflexivity).
    assert (S : Overlay.triggerStrategy (fst reopened) = click)
      by (vm_compute; reflexivity).
    destruct (show_hide_restores_listeners (fst reopened) (snd reopened) H S)
      as (this1 & w1 & this2 & w2 & this3 & w3 & E1 & E2 & E3 & L & _ & _).
    assert (R : transitionRunning (snd reopened) (Overlay.contentElement (fst reopened))
                = true) by (vm_compute; reflexivity).
    rewrite R in E3.
    exists this1, w1, this2, w2, this3, w3.
    split; [exact E1|]. split; [exact E2|]. split; [exact E3|].
    split; [vm_compute; reflexivity|]. rewrite L. vm_compute. reflexivity.
Defined.

(** X19: [show] on an overlay that is already shown (a second mouseenter,
    say) piles up nothing: the listener list after the second [show] is
    the list after the first. *)
Theorem show_twice_adds_no_listener (this : Overlay.CreateOverlay) (w : World) :
  popper_ok this ->
  exists this1 w1 w2,
    Overlay.show this w = Ok this1 w1 /\
    Overlay.show this1 w1 = Ok this1 w2 /\
    listeners w2 = listeners w1.
Proof.
  intros H. exists (after_show this), (w_show this w),
                   (w_show (after_show this) (w_show this w)).
  split; [apply Overlay_show_eq; exact H|].
  split; [apply (Overlay_show_eq (after_show this)); exact H|].
  rewrite (listeners_w_show_eq (after_show this)).
  cbn [after_show Overlay.popper Overlay.set_popper Popper.set_isEventRegistrer
       Popper.disableOnResize Popper.disableOnScroll Popper.self].
  change (clickListener (Overlay.set_popper _ this)) with (clickListener this).
  change (keydownListener (Overlay.set_popper _ this)) with (keydownListener this).
  set (ls1 := listeners (w_show this w)).
  assert (Hin : forall l : Listener,
             l = clickListener this \/ l = keydownListener this
             \/ (Popper.disableOnScroll (Overlay.popper this) = false
                 /\ l = (Window, "scroll",
                         initPositionate (Popper.self (Overlay.popper this))))
             \/ (Popper.disableOnResize (Overlay.popper this) = false
                 /\ l = (Window, "resize",
                         initPositionate (Popper.self (Overlay.popper this)))) ->
             l ∈ ls1).
  { intros l Hl. unfold ls1. rewrite listeners_w_show_eq.
    rewrite !elem_of_add_listener, elem_of_attach_chain. tauto. }
  assert (A : (if Popper.disableOnScroll (Overlay.popper this)
               then (fun k : list Listener => k)
               else add_listener
                      (Window, "scroll",
                       initPositionate (Popper.self (Overlay.popper this))))
                ((if Popper.disableOnResize (Overlay.popper this)
                  then (fun k : list Listener => k)
                  else add_listener
                         (Window, "resize",
                          initPositionate (Popper.self (Overlay.popper this)))) ls1)
              = ls1).
  { destruct (Popper.disableOnResize (Overlay.popper this)) eqn:Dr,
             (Popper.disableOnScroll (Overlay.popper this)) eqn:Ds; cbv beta iota;
      rewrite ?(add_listener_in (Window, "resize", _)) by (apply Hin; tauto);
      rewrite ?(add_listener_in (Window, "scroll", _)) by (apply Hin; tauto);
      reflexivity. }
  rewrite A.
  rewrite (add_listener_in (keydownListener this)) by (apply Hin; tauto).
  apply add_listener_in. apply Hin. tauto.
Qed.

Lemma show_twice_adds_no_listener_witness :
  exists this1 w1 w2,
    Overlay.show pageOverlay page = Ok this1 w1 /\
    Overlay.show this1 w1 = Ok this1 w2 /\
    listeners w2 = listeners w1.
Proof. exact (show_twice_adds_no_listener pageOverlay page eq_refl). Defined.

(** ** The overlay: cleanup, setPopperOptions, setPopperTrigger *)

Lemma Overlay_cleanup_eq this w : Overlay.cleanup this w = Ok tt (w_cleanup this w).
Proof.
  unfold Overlay.cleanup, w_cleanup, removeEventListener, toggleListener, enterListener.
  unfold bind at 1, modify at 1. apply when_modify.
Qed.

Lemma elem_of_w_cleanup this w (l : Listener) :
  l ∈ listeners (w_cleanup this w)
  <-> l ∈ listeners w /\ l <> toggleListener this
      /\ (Overlay.triggerStrategy this = hover -> l <> enterListener this).
Proof.
  unfold w_cleanup.
  destruct (Overlay.triggerStrategy this);
    cbn [is_hover w_when listeners emit w_removeEventListener set_listeners];
    rewrite ?elem_of_remove_listener; intuition congruence.
Qed.

(** X20: [cleanup] only unhooks the trigger: afterwards a click on the
    trigger reaches no handler and changes nothing, while the state
    attributes and every listener on the document and the window stay as
    they were, so an open overlay stays open and still closes on Escape
    or on an outside click. *)
Theorem cleanup_unhooks_trigger_only (this : Overlay.CreateOverlay) (w : World) :
  exists w',
    Overlay.cleanup this w = Ok tt w' /\
    Overlay.dispatchTriggerClick this w' = Ok this w' /\
    attrs w' = attrs w /\ styles w' = styles w /\
    (forall l : Listener,
       fst (fst l) <> Node (Overlay.triggerElement this) ->
       (l ∈ listeners w' <-> l ∈ listeners w)).
Proof.
  exists (w_cleanup this w). split; [apply Overlay_cleanup_eq|].
  split; [|split; [|split]].
  - unfold Overlay.dispatchTriggerClick. unfold bind at 1, gets at 1.
    unfold has_listener. rewrite bool_decide_eq_false_2; [reflexivity|].
    fold (toggleListener this). rewrite elem_of_w_cleanup. tauto.
  - unfold w_cleanup. destruct (is_hover _); reflexivity.
  - unfold w_cleanup. destruct (is_hover _); reflexivity.
  - intros l Hl. rewrite elem_of_w_cleanup.
    unfold toggleListener, enterListener. destruct l as [[t ty] cb]. cbn [fst] in Hl.
    intuition congruence.
Qed.

Lemma Overlay_setPopperOptions_eq this pl off w :
  popper_ok this ->
  Overlay.setPopperOptions this pl off w
  = Ok (after_show this)
       (w_setOptions (Overlay.popper this) pl
          (Some (or_num off (Overlay.offsetDistance this))) w).
Proof.
  intros H. unfold Overlay.setPopperOptions.
  unfold bind at 1. rewrite Popper_setOptions_eq by exact H. reflexivity.
Qed.

Lemma attrs_w_setOptions p pl off w : attrs (w_setOptions p pl off w) = attrs w.
Proof.
  unfold w_setOptions.
  rewrite attrs_w_attach, attrs_w_when_clean, attrs_w_initPlacement. reflexivity.
Qed.

Lemma elem_of_w_setOptions p pl off w (l : Listener) :
  fst (fst l) <> Window ->
  (l ∈ listeners (w_setOptions p pl off w) <-> l ∈ listeners w).
Proof.
  intros Hl. unfold w_setOptions. rewrite listeners_w_attach.
  destruct l as [[t ty] cb]. cbn [fst] in Hl.
  destruct (Popper.isEventRegistrer p); cbn [w_when];
    rewrite ?listeners_w_clean, listeners_w_initPlacement;
    destruct (Popper.disableOnResize p), (Popper.disableOnScroll p);
    rewrite ?elem_of_add_listener, ?elem_of_remove_listener; intuition congruence.
Qed.

(** X21: [setPopperOptions] repositions without opening: the state
    attributes and the document's listeners are untouched, the position
    is written for the given placement with the given offset or, when
    that is absent or 0, the overlay's own; as a side effect the popper
    controller's window listeners end up attached per its flags even if
    the overlay is closed. *)
Theorem setPopperOptions_does_not_open (this : Overlay.CreateOverlay)
    (pl : Placement) (off : option Q) (w : World) :
  popper_ok this ->
  popper_inv (Overlay.popper this) w ->
  let p := Overlay.popper this in
  let c := resolve (Popper.reference p) (Popper.popper p) pl
             (or_num (Some (or_num off (Overlay.offsetDistance this)))
                     (num_of (Popper.offsetDistance p))) w in
  exists this' w',
    Overlay.setPopperOptions this pl off w = Ok this' w' /\
    attrs w' = attrs w /\
    (forall l : Listener, fst (fst l) <> Window ->
                          (l ∈ listeners w' <-> l ∈ listeners w)) /\
    positioned_at (Popper.popper p) c w' /\
    attached_per_flags (initPositionate (Popper.self p))
      (Popper.disableOnResize p) (Popper.disableOnScroll p) w' /\
    Popper.isEventRegistrer (Overlay.popper this') = true.
Proof.
  intros H (Hwf & _) p c.
  eexists _, _. split; [apply Overlay_setPopperOptions_eq; exact H|].
  split; [apply attrs_w_setOptions|].
  split; [intros l Hl; apply elem_of_w_setOptions; exact Hl|].
  split; [|split; [|reflexivity]].
  - unfold positioned_at, w_setOptions.
    rewrite styles_w_attach.
    assert (E : forall w0, styles (w_when (Popper.isEventRegistrer (Overlay.popper this))
                                     (w_clean (initPositionate
                                                 (Popper.self (Overlay.popper this)))
                                        (Popper.disableOnResize (Overlay.popper this))
                                        (Popper.disableOnScroll (Overlay.popper this)))
                                     w0) = styles w0).
    { intros w0. destruct (Popper.isEventRegistrer _); cbn [w_when];
        [apply styles_w_clean | reflexivity]. }
    rewrite E. apply styles_w_initPlacement.
  - unfold w_setOptions.
    set (w0 := w_initPlacement _ _ _ _ _ w).
    assert (Hwf0 : listeners_wf (initPositionate (Popper.self p))
                     (Popper.disableOnResize p) (Popper.disableOnScroll p) w0).
    { unfold listeners_wf, attached in *. unfold w0.
      rewrite listeners_w_initPlacement. exact Hwf. }
    apply (attach_per_flags _ _ _ (Popper.isEventRegistrer p) w0 Hwf0).
Qed.

Lemma setPopperOptions_does_not_open_witness :
  exists this' w',
    Overlay.setPopperOptions (fst justConstructed) (mkPlacement top None) None
      (snd justConstructed) = Ok this' w' /\
    attrs w' !! (popperEl, "data-state") = Some "close" /\
    attached (initPositionate 1) "resize" w'.
Proof.
  assert (H : popper_ok (fst justConstructed)) by (vm_compute; reflexivity).
  assert (I : popper_inv (Overlay.popper (fst justConstructed)) (snd justConstructed)).
  { unfold popper_inv, listeners_wf, attached.
    split; [split; [by_running | split; vm_compute; discriminate]
           | intros _; split; by_running]. }
  destruct (setPopperOptions_does_not_open (fst justConstructed) (mkPlacement top None)
              None (snd justConstructed) H I)
    as (this' & w' & E' & A' & _ & _ & [Ar _] & _).
  exists this', w'. split; [exact E'|].
  split; [rewrite A'; vm_compute; reflexivity | apply Ar; vm_compute; reflexivity].
Defined.

Lemma Overlay_setPopperTrigger_eq this trigger pl off w :
  popper_ok this ->
  let that := Overlay.set_triggerElement trigger (after_show this) in
  Overlay.setPopperTrigger this trigger pl off w
  = Ok that
       (w_listen_trigger that
          (w_setOptions (Overlay.popper this)
             (or_placement pl (Overlay.placement this))
             (Some (or_num off (Overlay.offsetDistance this)))
             (w_cleanup this w))).
Proof.
  intros H that. unfold Overlay.setPopperTrigger.
  unfold bind at 1. rewrite Overlay_cleanup_eq.
  unfold bind at 1. rewrite Popper_setOptions_eq by exact H.
  cbv zeta. apply (Overlay_listen_trigger_eq that).
Qed.

(** X22: [setPopperTrigger] moves the click listener from the old trigger
    to the new one and makes the new element the overlay's trigger, but
    it leaves the popper controller's reference element and every
    attribute as they were: the position it writes is still resolved
    from the old trigger's rectangle, and the new trigger gets no
    [aria-expanded]. *)
Theorem setPopperTrigger_moves_listener_only (this : Overlay.CreateOverlay)
    (trigger : Element) (pl : option Placement) (off : option Q) (w : World) :
  popper_ok this ->
  let p := Overlay.popper this in
  let c := resolve (Popper.reference p) (Popper.popper p)
             (or_placement pl (Overlay.placement this))
             (or_num (Some (or_num off (Overlay.offsetDistance this)))
                     (num_of (Popper.offsetDistance p))) w in
  exists this' w',
    Overlay.setPopperTrigger this trigger pl off w = Ok this' w' /\
    Overlay.triggerElement this' = trigger /\
    Popper.reference (Overlay.popper this') = Popper.reference p /\
    attrs w' = attrs w /\
    positioned_at (Popper.popper p) c w' /\
    toggleListener this' ∈ listeners w' /\
    (trigger <> Overlay.triggerElement this -> toggleListener this ∉ listeners w').
Proof.
  intros H p c.
  eexists _, _. split; [apply Overlay_setPopperTrigger_eq; exact H|].
  set (that := Overlay.set_triggerElement trigger (after_show this)).
  split; [reflexivity|]. split; [reflexivity|].
  split; [|split; [|split]].
  - unfold w_listen_trigger.
    destruct (is_hover _);
      cbn [w_when attrs emit w_addEventListener set_listeners];
      rewrite attrs_w_setOptions; unfold w_cleanup;
      destruct (is_hover _); reflexivity.
  - assert (L : same_layout w (w_cleanup this w)).
    { unfold w_cleanup. destruct (is_hover _); repeat split. }
    unfold c. rewrite <- (resolve_layout _ _ _ _ w (w_cleanup this w) L).
    unfold positioned_at, w_listen_trigger.
    assert (E : forall w0, styles (w_when (Popper.isEventRegistrer p)
                                     (w_clean (initPositionate (Popper.self p))
                                        (Popper.disableOnResize p)
                                        (Popper.disableOnScroll p)) w0) = styles w0).
    { intros w0. destruct (Popper.isEventRegistrer _); cbn [w_when];
        [apply styles_w_clean | reflexivity]. }
    destruct (is_hover _);
      cbn [w_when styles emit w_addEventListener set_listeners];
      unfold w_setOptions; rewrite styles_w_attach; fold p; rewrite E;
      apply styles_w_initPlacement.
  - apply elem_of_w_listen_trigger. left. reflexivity.
  - intros Hne Hin. apply elem_of_w_listen_trigger in Hin.
    unfold toggleListener, enterListener in Hin.
    cbn [that Overlay.set_triggerElement Overlay.triggerElement Overlay.self
         after_show Overlay.set_popper] in Hin.
    destruct Hin as [Hin|[[_ Hin]|Hin]]; [congruence | discriminate Hin|].
    apply elem_of_w_setOptions in Hin; [|cbn; discriminate].
    apply elem_of_w_cleanup in Hin. tauto.
Qed.

Lemma setPopperTrigger_moves_listener_only_witness :
  exists this' w',
    Overlay.setPopperTrigger (fst opened) outsideEl None None (snd opened)
      = Ok this' w' /\
    Overlay.triggerElement this' = outsideEl /\
    Popper.reference (Overlay.popper this') = referenceEl /\
    attrs w' !! (outsideEl, "aria-expanded") = None.
Proof.
  assert (H : popper_ok (fst opened)) by (vm_compute; reflexivity).
  destruct (setPopperTrigger_moves_listener_only (fst opened) outsideEl None None
              (snd opened) H) as (this' & w' & E & T & R & A & _).
  exists this', w'. split; [exact E|]. split; [exact T|].
  split; [rewrite R; vm_compute; reflexivity|].
  rewrite A. vm_compute. reflexivity.
Defined.

Lemma or_num_zero q b : q == 0 -> or_num (Some q) b = b.
Proof. intros H. unfold or_num. apply Qeq_bool_iff in H. rewrite H. reflexivity. Qed.

(** X23: an overlay cannot be given an offset of 0: [offsetDistance || 6]
    turns 0, like an absent offset, into 6, both in the overlay and in the
    popper controller it creates. *)
Theorem overlay_zero_offset_becomes_six (trigger content : Element)
    (options : OverlayOptions) (q : Q) (w : World) :
  oo_offsetDistance options = Some q -> q == 0 ->
  exists this w',
    Overlay.constructor (JElem trigger) (JElem content) options w = Ok this w' /\
    Overlay.offsetDistance this = 6 /\
    Popper.offsetDistance (Overlay.popper this) = JNum 6.
Proof.
  intros Ho Hq. rewrite Overlay_constructor_eq. cbv zeta.
  cbn [resolveElement instanceof_HTMLElement negb elem_of_val].
  set (this0 := constructed trigger content options (nextId w)).
  assert (E6 : or_num (oo_offsetDistance options) 6 = 6)
    by (rewrite Ho; apply or_num_zero; exact Hq).
  destruct (Overlay.defaultState this0) eqn:D.
  - rewrite Overlay_initInstance_open by (reflexivity || exact D).
    eexists _, _. split; [reflexivity|].
    cbn [after_show Overlay.offsetDistance Overlay.set_popper Overlay.popper
         Popper.offsetDistance Popper.set_isEventRegistrer this0 constructed].
    rewrite E6. split; reflexivity.
  - rewrite Overlay_initInstance_closed by exact D.
    eexists _, _. split; [reflexivity|].
    cbn [Overlay.offsetDistance Overlay.popper Popper.offsetDistance this0 constructed].
    rewrite E6. split; reflexivity.
Qed.

Lemma overlay_zero_offset_becomes_six_witness :
  exists this w',
    Overlay.constructor (JElem referenceEl) (JElem popperEl) hoverOptions page
      = Ok this w' /\
    Overlay.offsetDistance this = 6.
Proof.
  destruct (overlay_zero_offset_becomes_six referenceEl popperEl hoverOptions 0 page)
    as (this & w' & E & O & _); [reflexivity | reflexivity|].
  exists this, w'. auto.
Defined.

(** X24: once [hide] has run, the overlay no longer reacts to the
    document: a keydown reaches no handler (its default is no longer
    prevented) and a click on the document changes nothing, whatever the
    strategy and whether or not the transition has ended. *)
Theorem hidden_overlay_ignores_document (this : Overlay.CreateOverlay) (w : World)
    (key_event : KeyboardEvent) (click_event : MouseEvent) :
  exists this' w',
    Overlay.hide this w = Ok this' w' /\
    Overlay.dispatchKeyDown key_event this' w' = Ok (key_event, this') w' /\
    Overlay.dispatchDocumentClick click_event this' w' = Ok this' w'.
Proof.
  exists (after_hide this w), (w_hide this w).
  split; [apply Overlay_hide_eq|].
  assert (Hself : Overlay.self (after_hide this w) = Overlay.self this).
  { unfold after_hide. destruct (transitionRunning w _); reflexivity. }
  destruct (after_hide_fields this w) as (_ & Ec & _).
  split.
  - unfold Overlay.dispatchKeyDown. unfold bind at 1, gets at 1.
    unfold has_listener. rewrite Hself.
    rewrite bool_decide_eq_false_2; [reflexivity|].
    fold (keydownListener this).
    rewrite elem_of_listeners_w_hide by (cbn; discriminate).
    apply detached_w_detach.
  - unfold Overlay.dispatchDocumentClick. unfold bind at 1, gets at 1.
    destruct (has_listener _ _); [|reflexivity].
    unfold Overlay.handleDocumentClick.
    unfold bind at 1, getAttribute at 1, gets at 1.
    rewrite Ec, attrs_w_hide, (proj1 (state_written _ _ _ _ _)).
    rewrite bool_decide_eq_false_2 by discriminate. reflexivity.
Qed.
